(** * PiiDetector: detection, validation and de-identification of PII

    A shallow embedding of the core of the PiiDetector repository
    ([config/patterns.py], [src/detection/detector.py],
    [src/validation/validators.py], [src/deidentification/*.py] and the
    classification loop of [main.py]) together with the properties its
    specification states about it.

    Modelling conventions.
    - A Python [str] is a [string] of 7-bit ASCII characters.  The
      character predicates below ([str.isalpha], [str.upper], [\d], [\s],
      [\b]) are the ASCII restrictions of the Python ones; text with
      characters above 127 is outside the model (such a character is
      neither a letter, a digit nor a blank here).  A statement that the
      code does not keep outside ASCII carries [isascii] as a hypothesis.
    - A Python [int] that only counts upwards from 1 is an [N].
    - A [dict] is a [gmap]; the insertion-ordered [patterns] dict, whose
      order fixes the order of the candidates, is an association list.
    - Module-level mutable state and the random generator are threaded
      explicitly through the de-identification functions; a raised
      exception is a value of [pyerr]. *)

From Stdlib Require Import Ascii String NArith ZArith List Bool Lia.
From stdpp Require Import base gmap strings pretty list.
Import ListNotations.

Local Open Scope string_scope.
Local Open Scope nat_scope.

(** ** Python string primitives *)

Module PyStr.

Definition chars (s : string) : list ascii := list_ascii_of_string s.
Definition str (l : list ascii) : string := string_of_list_ascii l.

Definition code (c : ascii) : nat := nat_of_ascii c.

Definition in_range (lo hi : ascii) (c : ascii) : bool :=
  (code lo <=? code c) && (code c <=? code hi).

Definition is_digit (c : ascii) : bool := in_range "0" "9" c.
Definition is_upper (c : ascii) : bool := in_range "A" "Z" c.
Definition is_lower (c : ascii) : bool := in_range "a" "z" c.
(** [c.isalpha()] *)
Definition is_alpha (c : ascii) : bool := is_upper c || is_lower c.
Definition is_alnum (c : ascii) : bool := is_alpha c || is_digit c.
(** a word character of [\b]: [[a-zA-Z0-9_]] *)
Definition is_word (c : ascii) : bool := is_alnum c || Ascii.eqb c "_".
(** [c.isspace()], also the class [\s]: TAB..CR, FS..US and the blank *)
Definition is_space (c : ascii) : bool :=
  ((9 <=? code c) && (code c <=? 13)) || ((28 <=? code c) && (code c <=? 32)).

(** membership of a character in a literal string, [c in "..."] *)
Definition char_in (set : string) (c : ascii) : bool :=
  existsb (Ascii.eqb c) (chars set).

(** [c.upper()] *)
Definition upper_char (c : ascii) : ascii :=
  if is_lower c then ascii_of_nat (code c - 32) else c.
(** [c.lower()] *)
Definition lower_char (c : ascii) : ascii :=
  if is_upper c then ascii_of_nat (code c + 32) else c.

(** [s.upper()] and [s.lower()], on ASCII text (outside ASCII Python's
    [upper] can change the length of a string, ["ß"] becoming ["SS"]) *)
Definition upper (s : string) : string := str (map upper_char (chars s)).
Definition lower (s : string) : string := str (map lower_char (chars s)).

Fixpoint lstrip_chars (l : list ascii) : list ascii :=
  match l with
  | c :: l' => if is_space c then lstrip_chars l' else l
  | [] => []
  end.

(** [s.strip()] *)
Definition strip_chars (l : list ascii) : list ascii :=
  rev (lstrip_chars (rev (lstrip_chars l))).
Definition strip (s : string) : string := str (strip_chars (chars s)).

(** [len(s)] *)
Definition len (s : string) : nat := length (chars s).

(** [s.count(c)] for a one-character needle *)
Definition count_char (c : ascii) (s : string) : nat :=
  length (List.filter (Ascii.eqb c) (chars s)).

(** [s.split(c)] for a one-character separator *)
Fixpoint split_chars (sep : ascii) (cur : list ascii) (l : list ascii)
  : list (list ascii) :=
  match l with
  | [] => [rev cur]
  | c :: l' =>
      if Ascii.eqb c sep then rev cur :: split_chars sep [] l'
      else split_chars sep (c :: cur) l'
  end.
Definition split (sep : ascii) (s : string) : list string :=
  map str (split_chars sep [] (chars s)).

(** [needle in s] for a two-character needle *)
Fixpoint has_pair (a b : ascii) (l : list ascii) : bool :=
  match l with
  | x :: ((y :: _) as l') => (Ascii.eqb x a && Ascii.eqb y b) || has_pair a b l'
  | _ => false
  end.

(** [s[i]], [None] standing for [IndexError] *)
Definition index (s : string) (i : nat) : option ascii := nth_error (chars s) i.

(** [s[:n]] and [s[-n:]] *)
Definition prefix (n : nat) (s : string) : string := str (firstn n (chars s)).
Definition suffix (n : nat) (s : string) : string :=
  str (skipn (len s - n) (chars s)).

(** [re.sub(r"\D", "", s)] and [re.sub(r'[^0-9]', '', s)]: the digits of
    [s], in order.  The two agree on ASCII text; outside ASCII [\D] keeps
    every decimal digit of Unicode and [[^0-9]] only the ten of ASCII. *)
Definition digits_only (s : string) : string :=
  str (List.filter is_digit (chars s)).

(** ["".join(parts)] *)
Definition concat (parts : list string) : string :=
  fold_right String.append "" parts.

(** [s.isascii()]: the text on which the predicates above are those of
    Python *)
Definition isascii (s : string) : bool :=
  forallb (fun c => code c <? 128) (chars s).

End PyStr.

(** ** A backtracking matcher for the regular expressions of [patterns.py]

    The constructors are the constructs the five patterns (and the two
    patterns of the validators) use.  Matching is by backtracking with a
    continuation, in the priority order of Python's [re]: the left branch
    of an alternative first, a greedy repetition as long as possible
    first, a lazy one as short as possible first.  A repetition without
    an upper bound is tried at most as many times as there are characters
    left: the body of each such repetition in the patterns consumes a
    character. *)

Module Re.
Import PyStr.

Inductive regex : Type :=
| Eps
| Cls (p : ascii -> bool)
| Seq (a b : regex)
| Alt (a b : regex)
| Rep (r : regex) (lo : nat) (hi : option nat) (greedy : bool)
| Grp (n : nat) (r : regex)
| Bref (n : nat)
| WordB
| Bol
| Eol
| NotBehind (p : ascii -> bool)
| NotAhead (r : regex).

(** The cursor: the text before it (nearest character first), the text
    after it, and the groups captured so far. *)
Record cursor : Type := Cursor {
  before : list ascii;
  after : list ascii;
  caps : list (nat * list ascii)
}.

Definition word_at (l : list ascii) : bool :=
  match l with c :: _ => is_word c | [] => false end.

Fixpoint is_prefix (w l : list ascii) : option (list ascii) :=
  match w, l with
  | [], _ => Some l
  | a :: w', b :: l' => if Ascii.eqb a b then is_prefix w' l' else None
  | _ :: _, [] => None
  end.

Fixpoint cap_lookup (n : nat) (cs : list (nat * list ascii)) : option (list ascii) :=
  match cs with
  | [] => None
  | (i, w) :: cs' => if Nat.eqb i n then Some w else cap_lookup n cs'
  end.

Definition consumed (c c' : cursor) : list ascii :=
  firstn (length (after c) - length (after c')) (after c).

Fixpoint run (r : regex) (c : cursor) (k : cursor -> option cursor)
  {struct r} : option cursor :=
  match r with
  | Eps => k c
  | Cls p =>
      match after c with
      | x :: rest =>
          if p x then k (Cursor (x :: before c) rest (caps c)) else None
      | [] => None
      end
  | Seq a b => run a c (fun c' => run b c' k)
  | Alt a b =>
      match run a c k with
      | Some c' => Some c'
      | None => run b c k
      end
  | Rep body lo hi greedy =>
      let optional :=
        fix optional (extra : nat) (c : cursor) {struct extra} : option cursor :=
          match extra with
          | 0 => k c
          | S extra' =>
              if greedy
              then match run body c (fun c' => optional extra' c') with
                   | Some c' => Some c'
                   | None => k c
                   end
              else match k c with
                   | Some c' => Some c'
                   | None => run body c (fun c' => optional extra' c')
                   end
          end in
      let extra :=
        match hi with
        | Some h => h - lo
        | None => length (after c)
        end in
      let mandatory :=
        fix mandatory (n : nat) (c : cursor) {struct n} : option cursor :=
          match n with
          | 0 => optional extra c
          | S n' => run body c (fun c' => mandatory n' c')
          end in
      mandatory lo c
  | Grp n body =>
      run body c (fun c' =>
        k (Cursor (before c') (after c') ((n, consumed c c') :: caps c')))
  | Bref n =>
      match cap_lookup n (caps c) with
      | None => None
      | Some w =>
          match is_prefix w (after c) with
          | Some rest => k (Cursor (rev w ++ before c) rest (caps c))
          | None => None
          end
      end
  | WordB =>
      if xorb (word_at (before c)) (word_at (after c)) then k c else None
  | Bol => match before c with [] => k c | _ => None end
  | Eol =>
      match after c with
      | [] => k c
      | [x] => if Ascii.eqb x "010" then k c else None
      | _ => None
      end
  | NotBehind p =>
      match before c with
      | x :: _ => if p x then None else k c
      | [] => k c
      end
  | NotAhead body =>
      match run body c Some with
      | Some _ => None
      | None => k c
      end
  end.

(** [pattern.match(s)] as a truth value *)
Definition matches (r : regex) (s : string) : bool :=
  match run r (Cursor [] (chars s) []) Some with Some _ => true | None => false end.

(** [pattern.fullmatch(s)] as a truth value *)
Definition fullmatch (r : regex) (s : string) : bool :=
  match run r (Cursor [] (chars s) [])
          (fun c => match after c with [] => Some c | _ => None end) with
  | Some _ => true
  | None => false
  end.

(** One match of [finditer]: [m.group(0)], [m.start()], [m.end()]. *)
Definition span : Type := (string * nat * nat)%type.

(** The scan of [pattern.finditer]: the leftmost match from the cursor,
    then on from its end (one character further after an empty match).
    [fuel] bounds the number of positions tried. *)
Fixpoint scan (fuel : nat) (r : regex) (bef aft : list ascii) (pos : nat)
  : list span :=
  match fuel with
  | 0 => []
  | S fuel' =>
      let here := Cursor bef aft [] in
      match run r here Some with
      | Some c' =>
          let w := consumed here c' in
          let n := length w in
          (str w, pos, pos + n) ::
            match n, aft with
            | 0, [] => []
            | 0, x :: rest => scan fuel' r (x :: bef) rest (S pos)
            | _, _ => scan fuel' r (before c') (after c') (pos + n)
            end
      | None =>
          match aft with
          | [] => []
          | x :: rest => scan fuel' r (x :: bef) rest (S pos)
          end
      end
  end.

Definition finditer (r : regex) (s : string) : list span :=
  scan (S (len s)) r [] (chars s) 0.

(** Abbreviations for bounded repetitions *)
Definition times (n : nat) (r : regex) : regex := Rep r n (Some n) true.
Definition opt (r : regex) : regex := Rep r 0 (Some 1) true.
Definition star (r : regex) : regex := Rep r 0 None true.
Definition plus (r : regex) : regex := Rep r 1 None true.
Definition lazy_star (r : regex) : regex := Rep r 0 None false.

Fixpoint chain (rs : list regex) : regex :=
  match rs with
  | [] => Eps
  | [r] => r
  | r :: rs' => Seq r (chain rs')
  end.

End Re.

(** ** The pattern registry ([config/patterns.py]) *)

Module Patterns.
Import PyStr Re.

(** [\d], which on ASCII text is [[0-9]] *)
Definition d : regex := Cls is_digit.
Definition upper_letter : regex := Cls is_upper.
Definition alnum : regex := Cls is_alnum.
Definition alnum_dash : regex := Cls (fun c => is_alnum c || Ascii.eqb c "-").

(** [(?<!\d)(?:\d{12}|(\d{4})([\-\s])\d{4}\2\d{4})(?![\d-])] *)
Definition re_aadhaar : regex :=
  chain [ NotBehind is_digit;
        Alt (times 12 d)
            (chain [ Grp 1 (times 4 d);
                   Grp 2 (Cls (fun c => Ascii.eqb c "-" || is_space c));
                   times 4 d; Bref 2; times 4 d ]);
        NotAhead (Cls (fun c => is_digit c || Ascii.eqb c "-")) ].

(** [\b[A-Z]{5}[0-9]{4}[A-Z]{1}\b] *)
Definition re_pan : regex :=
  chain [ WordB; times 5 upper_letter; times 4 d; times 1 upper_letter; WordB ].

(** [\b(?:\d[ -]*?){13,19}\b] *)
Definition re_credit_card : regex :=
  chain [ WordB;
        Rep (Seq d (lazy_star (Cls (char_in " -")))) 13 (Some 19) true;
        WordB ].

(** a domain label, [[a-zA-Z0-9](?:[a-zA-Z0-9-]{0,61}[a-zA-Z0-9])?] *)
Definition re_label : regex :=
  Seq alnum (opt (Seq (Rep alnum_dash 0 (Some 61) true) alnum)).

(** [\b[a-zA-Z0-9.!#$%&'*+/=?^_`{|}~-]+@label(?:\.label)*\b] *)
Definition re_email : regex :=
  chain [ WordB;
        plus (Cls (fun c => is_alnum c || char_in ".!#$%&'*+/=?^_`{|}~-" c));
        Cls (Ascii.eqb "@");
        re_label;
        star (Seq (Cls (Ascii.eqb ".")) re_label);
        WordB ].

(** [\b[6-9]\d{9}\b] *)
Definition re_phone : regex :=
  chain [ WordB; Cls (in_range "6" "9"); times 9 d; WordB ].

(** [patterns], in the order of the dict literal *)
Definition patterns : list (string * regex) :=
  [ ("aadhaar", re_aadhaar);
    ("pan", re_pan);
    ("credit_card", re_credit_card);
    ("email", re_email);
    ("phone", re_phone) ].

(** [TYPE_MAPPING] *)
Definition TYPE_MAPPING : gmap string string :=
  <["Credit Card" := "credit_card"]>
  (<["Email" := "email"]>
  (<["Aadhaar" := "aadhaar"]>
  (<["PAN" := "pan"]>
  (<["Phone" := "phone"]> ∅)))).

(** [TYPE_MAPPING.get(pii_type, pii_type.lower())] *)
Definition mapped_type (pii_type : string) : string :=
  default (lower pii_type) (TYPE_MAPPING !! pii_type).

End Patterns.

(** ** The detector ([src/detection/detector.py]) *)

Module Detector.
Import PyStr Re Patterns.

(** a candidate with its span: [(type, value, start, end)] *)
Definition span_result : Type := (string * string * nat * nat)%type.

Definition sr_type (x : span_result) : string := x.1.1.1.
Definition sr_value (x : span_result) : string := x.1.1.2.
Definition sr_start (x : span_result) : nat := x.1.2.
Definition sr_end (x : span_result) : nat := x.2.

(** the first loop: every match of every pattern, pattern by pattern *)
Definition collect (safe_text : string) : list span_result :=
  flat_map
    (fun '(pii_type, pattern) =>
       map (fun m : span => (pii_type, m.1.1, m.1.2, m.2))
           (finditer pattern safe_text))
    patterns.

(** the comprehension guard [not (t == "credit_card" and len(digits) == 12)] *)
Definition not_twelve_digit_card (x : span_result) : bool :=
  negb (String.eqb (sr_type x) "credit_card"
        && Nat.eqb (len (digits_only (sr_value x))) 12).

Definition credit_spans (l : list span_result) : list (nat * nat) :=
  map (fun x => (sr_start x, sr_end x))
      (List.filter (fun x => String.eqb (sr_type x) "credit_card") l).

(** [t == "aadhaar" and any(s >= cs and e <= ce ...)] *)
Definition contained_aadhaar (cspans : list (nat * nat)) (x : span_result) : bool :=
  String.eqb (sr_type x) "aadhaar"
  && existsb (fun '(cs, ce) => (cs <=? sr_start x) && (sr_end x <=? ce)) cspans.

(** [values_by_type.setdefault(v, set()).add(t)] *)
Definition add_type (m : gmap string (gset string)) (x : span_result)
  : gmap string (gset string) :=
  <[sr_value x := default ∅ (m !! sr_value x) ∪ {[sr_type x]}]> m.

Definition values_by_type (l : list span_result) : gmap string (gset string) :=
  fold_left add_type l ∅.

(** the guard of the last loop: the candidate is kept unless it is the
    aadhaar reading of a string also read as a credit card *)
Definition keeps (vbt : gmap string (gset string)) (x : span_result) : bool :=
  let types_for_v := default ∅ (vbt !! sr_value x) in
  negb (bool_decide ("credit_card" ∈ types_for_v)
        && bool_decide ("aadhaar" ∈ types_for_v)
        && String.eqb (sr_type x) "aadhaar").

(** [detect_pii(text)]; [None] is Python's [None] *)
Definition detect_pii (text : option string) : list (string * string) :=
  let safe_text := default "" text in
  let span_results := collect safe_text in
  match span_results with
  | [] => []
  | _ =>
      let span_results := List.filter not_twelve_digit_card span_results in
      let cspans := credit_spans span_results in
      let filtered_spans :=
        List.filter (fun x => negb (contained_aadhaar cspans x)) span_results in
      let vbt := values_by_type filtered_spans in
      map (fun x => (sr_type x, sr_value x)) (List.filter (keeps vbt) filtered_spans)
  end.

End Detector.

(** ** Exceptions *)

Inductive pyerr : Type :=
| KeyError (key : string)
| IndexError
| ValueError.

(** The outcome of a call: a returned value or a raised exception. *)
Inductive res (A : Type) : Type :=
| Ok (a : A)
| Raise (e : pyerr).
Arguments Ok {A} a.
Arguments Raise {A} e.

#[global] Instance res_ret : MRet res := fun A a => Ok a.
#[global] Instance res_bind : MBind res := fun A B f m =>
  match m with
  | Ok a => f a
  | Raise e => Raise e
  end.

Definition returns {A} (m : res A) : Prop := exists a, m = Ok a.

(** ** The validators ([src/validation/validators.py]) *)

Module Validators.
Import PyStr Re Patterns.

(** A candidate value as [is_valid_pii] may receive it: a string, [None],
    an integer, or a tuple of regex groups. *)
Inductive pyatom : Type :=
| ANone
| AStr (s : string)
| AInt (z : Z).

Inductive pyval : Type :=
| VAtom (a : pyatom)
| VTuple (parts : list pyatom).

Definition VNone : pyval := VAtom ANone.
Definition VStr (s : string) : pyval := VAtom (AStr s).

(** [str(p)] *)
Definition py_str (a : pyatom) : string :=
  match a with
  | ANone => "None"
  | AStr s => s
  | AInt z => pretty z
  end.

(** the truth value of [p] *)
Definition truthy (a : pyatom) : bool :=
  match a with
  | ANone => false
  | AStr s => negb (String.eqb s "")
  | AInt z => negb (Z.eqb z 0)
  end.

(** the first loop of the tuple branch: the first non-empty string part *)
Fixpoint first_str (parts : list pyatom) : option string :=
  match parts with
  | [] => None
  | AStr s :: parts' => if String.eqb s "" then first_str parts' else Some s
  | _ :: parts' => first_str parts'
  end.

(** [_normalize_match_value(raw_value)] (defined in [detector.py]) *)
Definition _normalize_match_value (raw_value : pyval) : string :=
  match raw_value with
  | VAtom ANone => ""
  | VTuple parts =>
      match first_str parts with
      | Some part => part
      | None => concat (map py_str (List.filter truthy parts))
      end
  | VAtom a => py_str a
  end.

(** [^[A-Z]{5}[0-9]{4}[A-Z]{1}$] *)
Definition re_pan_shape : regex :=
  chain [ Bol; times 5 upper_letter; times 4 (Cls is_digit); times 1 upper_letter; Eol ].

(** [[6-9][0-9]{9}] *)
Definition re_phone_digits : regex :=
  Seq (Cls (in_range "6" "9")) (times 9 (Cls is_digit)).

Definition weights : list Z := [1; 3; 7; 1; 3; 7; 1; 3; 7]%Z.

(** [ord(c)] *)
Definition ord (c : ascii) : Z := Z.of_nat (code c).
(** [chr(n)] *)
Definition chr (n : Z) : ascii := ascii_of_nat (Z.to_nat n).

(** [int(char)] of a one-character string: [ValueError] unless a digit *)
Definition int_of_char (c : ascii) : res Z :=
  if is_digit c then Ok (ord c - ord "0")%Z else Raise ValueError.

(** one turn of the loop of [validate_pan_check_digit] *)
Definition check_digit_step (acc : res Z) (ic : nat * ascii) : res Z :=
  sum_total ← acc;
  char_value ← (if is_alpha ic.2
                then Ok (ord (upper_char ic.2) - ord "A" + 10)%Z
                else int_of_char ic.2);
  weight ← (match weights !! ic.1 with
            | Some w => Ok w
            | None => Raise IndexError
            end);
  let weighted_value := (char_value * weight)%Z in
  let weighted_value :=
    if (9 <? weighted_value)%Z
    then (weighted_value / 10 + weighted_value mod 10)%Z
    else weighted_value in
  Ok (sum_total + weighted_value)%Z.

(** [enumerate(s)] *)
Definition enumerate (l : list ascii) : list (nat * ascii) :=
  combine (List.seq 0 (length l)) l.

(** the sum the loop leaves in [sum_total] *)
Definition pan_sum (first_nine : string) : res Z :=
  fold_left check_digit_step (enumerate (chars first_nine)) (Ok 0%Z).

(** [validate_pan_check_digit(pan)] *)
Definition validate_pan_check_digit (pan : string) : res bool :=
  if negb (Nat.eqb (len pan) 10) then Ok false
  else
    let first_nine := prefix 9 pan in
    sum_total ← pan_sum first_nine;
    let check_digit_value := ((10 - sum_total mod 10) mod 10)%Z in
    let expected_check_digit := chr (ord "A" + check_digit_value) in
    match index pan 9 with
    | Some c => Ok (Ascii.eqb c expected_check_digit)
    | None => Raise IndexError
    end.

(** the test [pan[3] == 'P' and surname] with the comparison under it:
    [true] when the function goes on past it *)
Definition surname_agrees (entity_char name_initial : ascii)
    (surname : option string) : res bool :=
  match surname with
  | Some sn =>
      if Ascii.eqb entity_char "P" && negb (String.eqb sn "")
      then match index (upper (strip sn)) 0 with
           | Some c => Ok (Ascii.eqb name_initial c)
           | None => Raise IndexError
           end
      else Ok true
  | None => Ok true
  end.

(** [validate_pan(pan, surname=None)] *)
Definition validate_pan (pan : string) (surname : option string) : res bool :=
  if String.eqb pan "" then Ok false
  else
    let pan := upper (strip pan) in
    if negb (Nat.eqb (len pan) 10) then Ok false
    else if negb (matches re_pan_shape pan) then Ok false
    else
      match index pan 3, index pan 4 with
      | Some entity_char, Some name_initial =>
          if negb (char_in "ABCFGHLJPT" entity_char) then Ok false
          else
            agrees ← surname_agrees entity_char name_initial surname;
            if negb agrees then Ok false
            else if char_in "CFHATBLJG" entity_char && negb (is_alpha name_initial)
            then Ok false
            else
              check ← validate_pan_check_digit pan;
              if negb check then Ok false else Ok true
      | _, _ => Raise IndexError
      end.

Definition valid_local_chars : string :=
  "abcdefghijklmnopqrstuvwxyzABCDEFGHIJKLMNOPQRSTUVWXYZ0123456789.!#$%&'*+/=?^_`{|}~-".
Definition valid_domain_chars : string :=
  "abcdefghijklmnopqrstuvwxyzABCDEFGHIJKLMNOPQRSTUVWXYZ0123456789.-".

Definition starts_with (c : ascii) (s : string) : bool :=
  match chars s with x :: _ => Ascii.eqb x c | [] => false end.
Definition ends_with (c : ascii) (s : string) : bool :=
  match rev (chars s) with x :: _ => Ascii.eqb x c | [] => false end.

(** [validate_email(email)] *)
Definition validate_email (email : string) : res bool :=
  if String.eqb email "" then Ok false
  else
    let email := strip email in
    if (len email <? 5) || (254 <? len email) then Ok false
    else if negb (Nat.eqb (count_char "@" email) 1) then Ok false
    else
      match split "@" email with
      | [local_part; domain_part] =>
          if (len local_part <? 1) || (64 <? len local_part) then Ok false
          else if (len domain_part <? 1) || (253 <? len domain_part) then Ok false
          else if has_pair "." "." (chars email) then Ok false
          else if negb (forallb (char_in valid_local_chars) (chars local_part))
          then Ok false
          else if negb (forallb (char_in valid_domain_chars) (chars domain_part))
          then Ok false
          else if negb (char_in domain_part ".") then Ok false
          else if starts_with "." domain_part || ends_with "." domain_part
                  || starts_with "-" domain_part || ends_with "-" domain_part
          then Ok false
          else
            let tld := List.last (split "." domain_part) "" in
            if len tld <? 2 then Ok false else Ok true
      | _ => Raise ValueError
      end.

Section Checksums.
(** [luhn_check] and [verhoeff_check] live in [validation/algorithms.py];
    the validators only call them, so they are parameters here. *)
Variables luhn_check verhoeff_check : string -> bool.

(** [is_valid_pii(pii_type, value)] *)
Definition is_valid_pii (pii_type : string) (value : pyval) : res bool :=
  let value := _normalize_match_value value in
  let digits := digits_only value in
  let mapped := mapped_type pii_type in
  if String.eqb mapped "aadhaar" then
    Ok (Nat.eqb (len digits) 12
        && match index digits 0 with
           | Some c => char_in "23456789" c
           | None => false
           end
        && verhoeff_check digits)
  else if String.eqb mapped "pan" then validate_pan value None
  else if String.eqb mapped "credit_card" then
    Ok ((13 <=? len digits) && (len digits <=? 19) && luhn_check value)
  else if String.eqb mapped "email" then validate_email value
  else if String.eqb mapped "phone" then Ok (fullmatch re_phone_digits digits)
  else Ok false.

End Checksums.

End Validators.

(** ** The random generator

    [random.choices] and [random.choice] draw from the module-level
    generator of [random].  The generator is a stream of draws and a
    position in it; a draw picks an element of the population. *)

Module Random.
Import PyStr.

Record rng : Type := Rng { draws : nat -> nat; position : nat }.

(** [random.choice(population)] for a non-empty population *)
Definition choice (population : string) (g : rng) : ascii * rng :=
  (nth (draws g (position g) mod len population) (chars population) "000"%char,
   Rng (draws g) (S (position g))).

(** [random.choices(population, k=k)] *)
Fixpoint choices (population : string) (k : nat) (g : rng) : list ascii * rng :=
  match k with
  | 0 => ([], g)
  | S k' =>
      let '(c, g1) := choice population g in
      let '(cs, g2) := choices population k' g1 in
      (c :: cs, g2)
  end.

Definition ascii_lowercase : string := "abcdefghijklmnopqrstuvwxyz".
Definition ascii_uppercase : string := "ABCDEFGHIJKLMNOPQRSTUVWXYZ".
Definition ascii_letters : string := ascii_lowercase ++ ascii_uppercase.
Definition digits : string := "0123456789".

End Random.

(** ** Masking ([src/deidentification/masking.py]) *)

Module Masking.
Import PyStr.

(** ["x" * n] *)
Definition repeat_char (c : ascii) (n : nat) : string := str (repeat c n).

Definition mask_aadhaar (aadhaar : string) : string :=
  if Nat.eqb (len (digits_only aadhaar)) 12
  then prefix 4 aadhaar ++ "-XXXX-" ++ suffix 4 aadhaar
  else aadhaar.

Definition mask_pan (pan : string) : string :=
  if Nat.eqb (len pan) 10
  then prefix 5 pan ++ "****" ++ suffix 1 pan
  else pan.

Definition mask_credit_card (card_number : string) : string :=
  let digits := digits_only card_number in
  if len digits <? 13 then card_number
  else "XXXX-XXXX-XXXX-" ++ suffix 4 digits.

(** the unpacking [u, d = email.split("@")] fails unless there are two
    parts; the bare [except] turns the failure into a passthrough *)
Definition mask_email (email : string) : string :=
  match split "@" email with
  | [u; d] => repeat_char "x" (len u) ++ "@" ++ d
  | _ => email
  end.

Definition mask_phone (phone : string) : string :=
  let digits := digits_only phone in
  if Nat.eqb (len digits) 10 then "XXXXXX" ++ suffix 4 digits
  else "XXXXXXXXXX".

End Masking.

(** ** Anonymization ([src/deidentification/anonymization.py]) *)

Module Anonymization.
Import PyStr Patterns Random.

(** the local [random_string(length)] *)
Definition random_string (length : nat) (g : rng) : string * rng :=
  let '(cs, g') := choices (ascii_letters ++ digits) length g in (str cs, g').

(** [anonymize_pii(pii_type, value)]: the generator is all it reads and
    all it changes *)
Definition anonymize_pii (pii_type value : string) (g : rng) : string * rng :=
  let mapped := mapped_type pii_type in
  if String.eqb mapped "credit_card" then random_string 16 g
  else if String.eqb mapped "email" then
    let '(a, g1) := random_string 8 g in
    let '(b, g2) := random_string 5 g1 in
    (a ++ "@" ++ b ++ ".com", g2)
  else if String.eqb mapped "aadhaar" then random_string 12 g
  else if String.eqb mapped "pan" then
    let '(a, g1) := random_string 5 g in
    let '(b, g2) := random_string 4 g1 in
    let '(c, g3) := random_string 1 g2 in
    (upper a ++ b ++ upper c, g3)
  else if String.eqb mapped "phone" then
    let '(a, g1) := random_string 9 g in ("9" ++ a, g1)
  else random_string 10 g.

End Anonymization.

(** ** Pseudonymization and the selective strategy
       ([src/deidentification/pseudonymization.py]) *)

Module Pseudonymization.
Import PyStr Patterns Random.

(** The module-level state: the two dicts [pseudo_counters] and
    [pseudo_maps], and the two attributes [selective_deidentify] hangs
    on itself at its first call ([None] before that). *)
Record deid_state : Type := DeidState {
  pseudo_counters : gmap string N;
  pseudo_maps : gmap string (gmap string string);
  email_map : option (gmap string string);
  email_counter : option N
}.

(** the state at import time: [{t: 1 for t in patterns}] and
    [{t: {} for t in patterns}] *)
Definition initial_state : deid_state :=
  DeidState
    (list_to_map (map (fun p : string * Re.regex => (p.1, 1%N)) patterns))
    (list_to_map (map (fun p : string * Re.regex => (p.1, ∅)) patterns))
    None None.

Definition set_pseudo (st : deid_state)
    (cs : gmap string N) (ms : gmap string (gmap string string)) : deid_state :=
  DeidState cs ms (email_map st) (email_counter st).

(** the insertion and increment both branches share:
    [pseudo_maps[t][value] = replacement; pseudo_counters[t] += 1] *)
Definition record_pseudonym (t value replacement : string)
    (m : gmap string string) (c : N) (st : deid_state) : deid_state :=
  set_pseudo st
    (<[t := (c + 1)%N]> (pseudo_counters st))
    (<[t := <[value := replacement]> m]> (pseudo_maps st)).

(** [pseudo_anonymize(value, pii_type)] *)
Definition pseudo_anonymize (value pii_type : string) (st : deid_state)
  : res string * deid_state :=
  match pseudo_maps st !! pii_type with
  | None => (Raise (KeyError pii_type), st)
  | Some m =>
      match m !! value with
      | Some r => (Ok r, st)
      | None =>
          match pseudo_counters st !! pii_type with
          | None => (Raise (KeyError pii_type), st)
          | Some c =>
              let r := pii_type ++ "_" ++ pretty c in
              (Ok r, record_pseudonym pii_type value r m c st)
          end
      end
  end.

(** [_, domain = value.strip().split("@")], with the fallback of the
    [except] clause *)
Definition email_domain (value : string) : string :=
  match split "@" (strip value) with
  | [_; domain] => domain
  | _ => "gmail.com"
  end.

(** [pseudo_anonymize_pii(pii_type, value)] *)
Definition pseudo_anonymize_pii (pii_type value : string) (st : deid_state)
  : res string * deid_state :=
  let mapped := mapped_type pii_type in
  if String.eqb mapped "email" then
    let domain := email_domain value in
    match pseudo_maps st !! "email" with
    | None => (Raise (KeyError "email"), st)
    | Some m =>
        match m !! value with
        | Some r => (Ok r, st)
        | None =>
            match pseudo_counters st !! "email" with
            | None => (Raise (KeyError "email"), st)
            | Some c =>
                let r := "user" ++ pretty c ++ "@" ++ domain in
                (Ok r, record_pseudonym "email" value r m c st)
            end
        end
    end
  else pseudo_anonymize value mapped st.

(** the two [hasattr] tests at the head of [selective_deidentify] *)
Definition init_selective (st : deid_state) : deid_state :=
  DeidState (pseudo_counters st) (pseudo_maps st)
    (Some (default ∅ (email_map st)))
    (Some (default 1%N (email_counter st))).

Definition sel_map (st : deid_state) : gmap string string := default ∅ (email_map st).
Definition sel_counter (st : deid_state) : N := default 1%N (email_counter st).

(** [selective_deidentify(pii_type, value)] *)
Definition selective_deidentify (pii_type value : string)
    (st : deid_state) (g : rng) : string * deid_state * rng :=
  let st := init_selective st in
  let t := lower pii_type in
  if String.eqb t "credit_card" then
    let digits := digits_only value in
    if len digits <? 13 then (value, st, g)
    else ("XXXX-XXXX-XXXX-" ++ suffix 4 digits, st, g)
  else if String.eqb t "email" then
    let domain := email_domain value in
    match sel_map st !! value with
    | Some r => (r, st, g)
    | None =>
        let pseudo_email := "email" ++ pretty (sel_counter st) ++ "@" ++ domain in
        (pseudo_email,
         DeidState (pseudo_counters st) (pseudo_maps st)
           (Some (<[value := pseudo_email]> (sel_map st)))
           (Some (sel_counter st + 1)%N),
         g)
    end
  else if String.eqb t "aadhaar" then
    let digits := digits_only value in
    if Nat.eqb (len digits) 12
    then (prefix 4 digits ++ "XXXX" ++ str (skipn 8 (chars digits)), st, g)
    else (value, st, g)
  else if String.eqb t "pan" then
    let '(a, g1) := choices ascii_uppercase 5 g in
    let '(b, g2) := choices digits 4 g1 in
    let '(c, g3) := choice ascii_uppercase g2 in
    (str a ++ str b ++ String c "", st, g3)
  else (value, st, g).

End Pseudonymization.

(** ** The dispatcher ([src/deidentification/deidentifier.py]) *)

Module Deidentifier.
Import PyStr Patterns Random Masking Anonymization Pseudonymization.

(** [mask_pii(pii_type, value)] *)
Definition mask_pii (pii_type value : string) : string :=
  let mapped := mapped_type pii_type in
  if String.eqb mapped "aadhaar" then mask_aadhaar value
  else if String.eqb mapped "pan" then mask_pan value
  else if String.eqb mapped "credit_card" then mask_credit_card value
  else if String.eqb mapped "email" then mask_email value
  else if String.eqb mapped "phone" then mask_phone value
  else value.

(** [deidentify_value(method, pii_type, value)] *)
Definition deidentify_value (method pii_type value : string)
    (st : deid_state) (g : rng) : res string * deid_state * rng :=
  if String.eqb method "Masking" then (Ok (mask_pii pii_type value), st, g)
  else if String.eqb method "Anonymization" then
    let '(r, g') := anonymize_pii pii_type value g in (Ok r, st, g')
  else if String.eqb method "Pseudo-Anonymization" then
    let '(r, st') := pseudo_anonymize_pii pii_type value st in (r, st', g)
  else if String.eqb method "Selective" then
    let '(r, st', g') := selective_deidentify pii_type value st g in (Ok r, st', g')
  else (Ok value, st, g).

End Deidentifier.

(** ** The ground truth and the classification of a cell
       ([any_true_pii] of [detector.py], [analyze_dataframe] of [main.py])

    [analyze_dataframe] does two things to every cell: it classifies it
    (writing [metrics] and [metric_data]) and it rewrites it (writing
    [deidentified_data] and [pii_detection_summary]).  This is the
    classifying half. *)

Module Orchestrator.
Import PyStr Patterns Detector Validators.

Inductive outcome : Type := TP | TN | FP | FN.

(** what [metric_data] keeps next to [(idx, col, value)] *)
Inductive detail : Type :=
| Detections (valid_detections : list (string * string))
| Message (text : string)
| NoDetail.

Definition metric_row : Type := (nat * string * string * detail)%type.

(** [metrics] and [metric_data] *)
Record metrics : Type := Metrics {
  count_TP : N; count_TN : N; count_FP : N; count_FN : N;
  data_TP : list metric_row; data_TN : list metric_row;
  data_FP : list metric_row; data_FN : list metric_row
}.

Definition no_metrics : metrics := Metrics 0 0 0 0 [] [] [] [].

(** [metrics[o] += 1; metric_data[o].append(row)] *)
Definition record (o : outcome) (row : metric_row) (m : metrics) : metrics :=
  match o with
  | TP => Metrics (count_TP m + 1) (count_TN m) (count_FP m) (count_FN m)
            (data_TP m ++ [row]) (data_TN m) (data_FP m) (data_FN m)
  | TN => Metrics (count_TP m) (count_TN m + 1) (count_FP m) (count_FN m)
            (data_TP m) (data_TN m ++ [row]) (data_FP m) (data_FN m)
  | FP => Metrics (count_TP m) (count_TN m) (count_FP m + 1) (count_FN m)
            (data_TP m) (data_TN m) (data_FP m ++ [row]) (data_FN m)
  | FN => Metrics (count_TP m) (count_TN m) (count_FP m) (count_FN m + 1)
            (data_TP m) (data_TN m) (data_FP m) (data_FN m ++ [row])
  end.


Section Checksums.
Variables luhn_check verhoeff_check : string -> bool.

(** [is_valid_pii(pii_type, match)] on a candidate of the detector *)
Definition valid (d : string * string) : res bool :=
  is_valid_pii luhn_check verhoeff_check d.1 (VStr d.2).

(** the loop [for pii_type, match in detections: if is_valid_pii(...):
    ... break], shared by [any_true_pii] and [analyze_dataframe] *)
Fixpoint any_valid (detections : list (string * string)) : res bool :=
  match detections with
  | [] => Ok false
  | d :: rest => b ← valid d; if b : bool then Ok true else any_valid rest
  end.

(** [[d for d in detections if is_valid_pii(d[0], d[1])]] *)
Fixpoint valid_only (detections : list (string * string))
  : res (list (string * string)) :=
  match detections with
  | [] => Ok []
  | d :: rest =>
      b ← valid d; vs ← valid_only rest; Ok (if b : bool then d :: vs else vs)
  end.

(** [any_true_pii(text)] *)
Definition any_true_pii (text : option string) : res bool :=
  match text with
  | None => Ok false
  | Some t =>
      if String.eqb t "" then Ok false else any_valid (detect_pii (Some t))
  end.

Definition not_detected : detail := Message "Actual PII present but not detected".

(** the [# Update metrics] block, for given [detections] and
    [has_ground_truth] *)
Definition classify (detections : list (string * string))
    (has_ground_truth : bool) : res (outcome * detail) :=
  let has_detection := negb (bool_decide (detections = [])) in
  if has_detection then
    valid_detection ← any_valid detections;
    if (valid_detection : bool) && has_ground_truth then
      vs ← valid_only detections; Ok (TP, Detections vs)
    else if valid_detection && negb has_ground_truth then
      vs ← valid_only detections; Ok (FP, Detections vs)
    else if negb valid_detection && has_ground_truth then
      Ok (FN, not_detected)
    else
      vs ← valid_only detections; Ok (FP, Detections vs)
  else if has_ground_truth then Ok (FN, not_detected)
  else Ok (TN, NoDetail).

(** the classification of one cell of the loop *)
Definition classify_cell (value : string) : res (outcome * detail) :=
  let detections := detect_pii (Some value) in
  has_ground_truth ← any_true_pii (Some value);
  classify detections has_ground_truth.

(** the inner loop, over [enumerate(df[col].astype(str))] *)
Fixpoint analyze_column (col : string) (idx : nat) (cells : list string)
    (m : metrics) : res metrics :=
  match cells with
  | [] => Ok m
  | value :: cells' =>
      '(o, det) ← classify_cell value;
      analyze_column col (S idx) cells' (record o (idx, col, value, det) m)
  end.

(** the outer loop, over [df.columns]; a dataframe is its columns,
    each a name and its cells as [astype(str)] renders them *)
Fixpoint analyze_columns (df : list (string * list string)) (m : metrics)
  : res metrics :=
  match df with
  | [] => Ok m
  | (col, cells) :: df' =>
      m' ← analyze_column col 0 cells m; analyze_columns df' m'
  end.

(** [metrics] and [metric_data] as [analyze_dataframe] returns them *)
Definition analyze_dataframe (df : list (string * list string)) : res metrics :=
  analyze_columns df no_metrics.

End Checksums.

(** what the loop keeps true of [metrics] and [metric_data] *)
Definition no_false_negative (m : metrics) : Prop :=
  count_FN m = 0%N /\ data_FN m = []
  /\ Forall (fun row : metric_row => row.2 = Detections []) (data_FP m).

End Orchestrator.

(** ** The checksums

    Modelled from the spec: [validation/algorithms.py], the module of
    [luhn_check] and [verhoeff_check], is not among the sources.  The
    development above takes the two functions as parameters; these two
    definitions, the standard mod-10 double-and-sum checksum over the
    digits of the candidate and the dihedral-group checksum with the
    classic tables, instantiate them in the examples. *)

Module Algorithms.
Import PyStr.

Definition digit_values (s : string) : list nat :=
  map (fun c => code c - code "0") (List.filter is_digit (chars s)).

(** doubling every second digit from the right, the rightmost one not *)
Fixpoint luhn_sum (double : bool) (rev_digits : list nat) : nat :=
  match rev_digits with
  | [] => 0
  | x :: rest =>
      (if double then (if 4 <? x then 2 * x - 9 else 2 * x) else x)
      + luhn_sum (negb double) rest
  end.

Definition luhn_check (s : string) : bool :=
  let ds := digit_values s in
  negb (bool_decide (ds = [])) && Nat.eqb (luhn_sum false (rev ds) mod 10) 0.

Definition verhoeff_d : list (list nat) :=
  [ [0;1;2;3;4;5;6;7;8;9]; [1;2;3;4;0;6;7;8;9;5]; [2;3;4;0;1;7;8;9;5;6];
    [3;4;0;1;2;8;9;5;6;7]; [4;0;1;2;3;9;5;6;7;8]; [5;9;8;7;6;0;4;3;2;1];
    [6;5;9;8;7;1;0;4;3;2]; [7;6;5;9;8;2;1;0;4;3]; [8;7;6;5;9;3;2;1;0;4];
    [9;8;7;6;5;4;3;2;1;0] ].

Definition verhoeff_p : list (list nat) :=
  [ [0;1;2;3;4;5;6;7;8;9]; [1;5;7;6;2;8;3;0;9;4]; [5;8;0;3;7;9;6;1;4;2];
    [8;9;1;6;0;4;3;5;2;7]; [9;4;5;3;1;2;6;8;7;0]; [4;2;8;6;5;7;3;9;0;1];
    [2;7;9;3;8;0;6;4;1;5]; [7;0;4;6;9;1;3;2;5;8] ].

Definition table (t : list (list nat)) (i j : nat) : nat :=
  nth j (nth i t []) 0.

Fixpoint verhoeff_fold (i c : nat) (rev_digits : list nat) : nat :=
  match rev_digits with
  | [] => c
  | x :: rest =>
      verhoeff_fold (S i) (table verhoeff_d c (table verhoeff_p (i mod 8) x)) rest
  end.

Definition verhoeff_check (s : string) : bool :=
  Nat.eqb (verhoeff_fold 0 0 (rev (digit_values s))) 0.

End Algorithms.

(** ** The check digit of a PAN, as the specification words it *)

Module PanCheckDigit.
Import PyStr Re Patterns Validators.

(** digits as their value, letters as A=10 .. Z=35 *)
Definition char_value (c : ascii) : Z :=
  if is_digit c then (ord c - ord "0")%Z else (ord c - ord "A" + 10)%Z.

(** "digit-sum any two-digit product", read to the letter: a product
    from 10 to 99 becomes the sum of its two digits, any other product
    stays *)
Definition two_digit_sum (p : Z) : Z :=
  if ((10 <=? p) && (p <=? 99))%Z then (p / 10 + p mod 10)%Z else p.

(** the same with the digit sum taken of every product (a product of a
    character value and a weight has at most three digits) *)
Definition digit_sum (p : Z) : Z :=
  (p / 100 + (p / 10) mod 10 + p mod 10)%Z.

(** what the loop of [validate_pan_check_digit] does to a product: above
    9 it becomes its quotient by ten plus its last digit, which is the
    digit sum of a two-digit product, and 24 + 5 for 245 *)
Definition tens_plus_unit (p : Z) : Z :=
  if (9 <? p)%Z then (p / 10 + p mod 10)%Z else p.

Definition sum_Z (l : list Z) : Z := fold_right Z.add 0%Z l.

(** value, weight, reduce, sum, [(10 - (sum mod 10)) mod 10], letter *)
Definition check_letter (reduce : Z -> Z) (first_nine : list ascii) : ascii :=
  let products := zip_with Z.mul (map char_value first_nine) weights in
  let total := sum_Z (map reduce products) in
  nth (Z.to_nat ((10 - total mod 10) mod 10)) (chars "ABCDEFGHIJ") "A"%char.

(** the tenth character, or ["A"] on a shorter string *)
Definition tenth (s : string) : ascii := nth 9 (chars s) "A"%char.

(** [validate_pan] past the normalisation of its argument. *)
Definition pan_rules (pan : string) (surname : option string) : res bool :=
  if negb (Nat.eqb (len pan) 10) then Ok false
  else if negb (matches re_pan_shape pan) then Ok false
  else
    match index pan 3, index pan 4 with
    | Some entity_char, Some name_initial =>
        if negb (char_in "ABCFGHLJPT" entity_char) then Ok false
        else
          agrees ← surname_agrees entity_char name_initial surname;
          if negb agrees then Ok false
          else if char_in "CFHATBLJG" entity_char && negb (is_alpha name_initial)
          then Ok false
          else
            check ← validate_pan_check_digit pan;
            if negb check then Ok false else Ok true
    | _, _ => Raise IndexError
    end.

End PanCheckDigit.

(** ** Processing runs

    A run is any sequence of calls of the three functions of
    [pseudonymization.py] (directly, as [data_processor.py] calls
    [pseudo_anonymize], or through [deidentify_value]) from the state the
    module has when it is imported. *)

Module Runs.
Import PyStr Patterns Random Pseudonymization.

Inductive call : deid_state -> deid_state -> Prop :=
| call_pseudo_anonymize value pii_type st :
    call st (pseudo_anonymize value pii_type st).2
| call_pseudo_anonymize_pii pii_type value st :
    call st (pseudo_anonymize_pii pii_type value st).2
| call_selective_deidentify pii_type value st g :
    call st (selective_deidentify pii_type value st g).1.2.

Inductive reachable : deid_state -> Prop :=
| reachable_initial : reachable initial_state
| reachable_call st st' : reachable st -> call st st' -> reachable st'.

(** the replacement a first occurrence gets when the counter of its
    type is [c] *)
Definition first_pseudonym (t : string) (c : N) (value : string) : string :=
  if String.eqb t "email"
  then "user" ++ pretty c ++ "@" ++ email_domain value
  else t ++ "_" ++ pretty c.


(** the value has no entry yet in the map of type [t], whose counter
    is [c] *)
Definition unseen (st : deid_state) (t value : string) (c : N) : Prop :=
  (exists m, pseudo_maps st !! t = Some m /\ m !! value = None)
  /\ pseudo_counters st !! t = Some c.

Definition all_digits (s : string) : Prop :=
  Forall (fun c => is_digit c = true) (chars s).




End Runs.

(** ** What a successful match of the matcher consists of

    [sem r c c1]: the pattern [r], started at the cursor [c], can end at
    the cursor [c1].  Every success of [run] is one of these
    ([ReProps.run_sound]); the relation does not order the alternatives,
    so it says what a match is made of and not which one comes first. *)

Module ReSem.
Import PyStr Re.

Fixpoint iter (step : cursor -> cursor -> Prop) (n : nat) (c c1 : cursor) : Prop :=
  match n with
  | 0 => c1 = c
  | S n' => exists c2, step c c2 /\ iter step n' c2 c1
  end.

Fixpoint sem (r : regex) (c c1 : cursor) {struct r} : Prop :=
  match r with
  | Eps => c1 = c
  | Cls p =>
      exists x rest,
        after c = x :: rest /\ p x = true
        /\ c1 = Cursor (x :: before c) rest (caps c)
  | Seq a b => exists c2, sem a c c2 /\ sem b c2 c1
  | Alt a b => sem a c c1 \/ sem b c c1
  | Rep body lo hi _ =>
      exists n,
        lo <= n
        /\ n <= lo + match hi with Some h => h - lo | None => length (after c) end
        /\ iter (sem body) n c c1
  | Grp n body =>
      exists c2,
        sem body c c2
        /\ c1 = Cursor (before c2) (after c2) ((n, consumed c c2) :: caps c2)
  | Bref n =>
      exists w rest,
        cap_lookup n (caps c) = Some w
        /\ is_prefix w (after c) = Some rest
        /\ c1 = Cursor (rev w ++ before c) rest (caps c)
  | WordB => xorb (word_at (before c)) (word_at (after c)) = true /\ c1 = c
  | Bol => before c = [] /\ c1 = c
  | Eol => (after c = [] \/ after c = ["010"%char]) /\ c1 = c
  | NotBehind p =>
      match before c with x :: _ => p x = false | [] => True end /\ c1 = c
  | NotAhead body => run body c Some = None /\ c1 = c
  end.

(** the cursor [c1] is the cursor [c] moved over the text [w] *)
Definition advance (w : list ascii) (c c1 : cursor) : Prop :=
  after c = (w ++ after c1)%list /\ before c1 = (rev w ++ before c)%list.

(** every character class of the pattern lies within [Q], and the pattern
    has no backreference *)
Fixpoint classes_in (Q : ascii -> bool) (r : regex) : Prop :=
  match r with
  | Cls p => forall x, p x = true -> Q x = true
  | Seq a b | Alt a b => classes_in Q a /\ classes_in Q b
  | Rep body _ _ _ | Grp _ body => classes_in Q body
  | Bref _ => False
  | _ => True
  end.

(** the two loops of a repetition, over any way [step] of running the
    body *)
Definition optional_loop (step : cursor -> (cursor -> option cursor) -> option cursor)
    (greedy : bool) (k : cursor -> option cursor) : nat -> cursor -> option cursor :=
  fix optional (extra : nat) (c : cursor) {struct extra} : option cursor :=
    match extra with
    | 0 => k c
    | S extra' =>
        if greedy
        then match step c (fun c' => optional extra' c') with
             | Some c' => Some c'
             | None => k c
             end
        else match k c with
             | Some c' => Some c'
             | None => step c (fun c' => optional extra' c')
             end
    end.

Definition mandatory_loop (step : cursor -> (cursor -> option cursor) -> option cursor)
    (greedy : bool) (k : cursor -> option cursor) (extra : nat)
  : nat -> cursor -> option cursor :=
  fix mandatory (n : nat) (c : cursor) {struct n} : option cursor :=
    match n with
    | 0 => optional_loop step greedy k extra c
    | S n' => step c (fun c' => mandatory n' c')
    end.

End ReSem.

(** ** Character classes of the candidates *)

Module CandidateChars.
Import PyStr.

(** a digit, a blank or a dash: the characters of a credit card span *)
Definition card_char (c : ascii) : bool := is_digit c || char_in " -" c.

(** neither an at sign nor white space: the characters of an email span
    on either side of its at sign *)
Definition email_char (c : ascii) : bool :=
  negb (Ascii.eqb c "@") && negb (is_space c).

End CandidateChars.

(** ** More of what the states of a run satisfy *)

Module RunInvariants.
Import PyStr Patterns Random Pseudonymization Runs.

(** the counter of every type of [patterns] is one more than the number
    of values its map holds *)
Definition counted (st : deid_state) : Prop :=
  forall t, In t (map fst patterns) ->
    exists m c,
      pseudo_maps st !! t = Some m
      /\ pseudo_counters st !! t = Some c
      /\ c = (N.of_nat (size m) + 1)%N.

(** the two dicts have no other keys than the types of [patterns] *)
Definition only_pattern_keys (st : deid_state) : Prop :=
  forall t, ~ In t (map fst patterns) ->
    pseudo_maps st !! t = None /\ pseudo_counters st !! t = None.

(** [r] is the replacement the selective strategy hands out when its
    counter is [n] *)
Definition selective_numbered (n : N) (r : string) : Prop :=
  exists d, r = "email" ++ pretty n ++ "@" ++ d.

(** every replacement in the map of the selective strategy carries a
    number below its counter, and no two emails share one *)
Definition selective_consistent (st : deid_state) : Prop :=
  (forall v r, sel_map st !! v = Some r ->
     exists n, (n < sel_counter st)%N /\ selective_numbered n r)
  /\ (forall v1 v2 r, sel_map st !! v1 = Some r -> sel_map st !! v2 = Some r -> v1 = v2).

(** the lengths of the replacements of [anonymize_pii], by mapped type *)
Definition anonymized_length (mapped : string) : nat :=
  if String.eqb mapped "credit_card" then 16
  else if String.eqb mapped "email" then 18
  else if String.eqb mapped "aadhaar" then 12
  else 10.

(** a letter, a digit, an at sign or a dot *)
Definition anonymized_char (c : ascii) : bool :=
  is_alnum c || Ascii.eqb c "@" || Ascii.eqb c ".".

End RunInvariants.

(** ** The PAN helpers ([src/validation/validators.py]) *)

Module PanHelpers.
Import PyStr.

(** the dict [entity_types], keyed by one-character strings *)
Definition entity_types : gmap string string :=
  list_to_map
    [ ("P", "Individual");
      ("C", "Company");
      ("H", "HUF (Hindu Undivided Family)");
      ("F", "Firm");
      ("A", "Association of Persons (AOP)");
      ("T", "Trust");
      ("B", "Body of Individuals (BOI)");
      ("L", "Local Authority");
      ("J", "Artificial Juridical Person");
      ("G", "Government") ].

(** [get_pan_entity_type(pan)] *)
Definition get_pan_entity_type (pan : string) : res string :=
  if String.eqb pan "" || (len pan <? 4) then Ok "Unknown"
  else
    match index pan 3 with
    | Some c => Ok (default "Unknown" (entity_types !! String c ""))
    | None => Raise IndexError
    end.

(** [get_pan_holder_name_initial(pan)] *)
Definition get_pan_holder_name_initial (pan : string) : res string :=
  if String.eqb pan "" || (len pan <? 5) then Ok "Unknown"
  else
    match index pan 4 with
    | Some c => Ok (String c "")
    | None => Raise IndexError
    end.

(** [get_pan_serial_number(pan)], the slice [pan[5:9]] *)
Definition get_pan_serial_number (pan : string) : string :=
  if String.eqb pan "" || (len pan <? 9) then "Unknown"
  else str (firstn 4 (skipn 5 (chars pan))).

End PanHelpers.

(** ** Joining what [split] separated *)

Module Join.
Import PyStr.

(** [sep.join(parts)], on lists of characters *)
Fixpoint join_chars (sep : ascii) (parts : list (list ascii)) : list ascii :=
  match parts with
  | [] => []
  | p :: ps =>
      match ps with
      | [] => p
      | _ => (p ++ sep :: join_chars sep ps)%list
      end
  end.

End Join.

(** ** The rewriting of a cell ([analyze_dataframe] of [main.py])

    The other half of the loop body of [analyze_dataframe], the
    [# Apply de-identification] block.  [re.sub] is the library's: the
    call [re.sub(re.escape(match), replacement, text)] is a parameter,
    which may raise. *)

Module Rewriting.
Import PyStr Re Patterns Detector Validators Random Pseudonymization Deidentifier.
Import Orchestrator.

(** [needle in s] *)
Fixpoint contains_chars (needle l : list ascii) : bool :=
  match is_prefix needle l with
  | Some _ => true
  | None =>
      match l with
      | [] => false
      | _ :: l' => contains_chars needle l'
      end
  end.

Definition contains (needle s : string) : bool :=
  contains_chars (chars needle) (chars s).

(** [detections.sort(key=lambda x: len(x[1]), reverse=True)]: the sort
    is stable, candidates of equal length keep their order *)
Fixpoint insert_by_length (x : string * string) (l : list (string * string))
  : list (string * string) :=
  match l with
  | [] => [x]
  | y :: l' =>
      if len x.2 <? len y.2 then y :: insert_by_length x l' else x :: y :: l'
  end.

Definition sort_by_length (l : list (string * string)) : list (string * string) :=
  fold_right insert_by_length [] l.

(** what the loop over the candidates of a cell carries: the text being
    rewritten, the matches replaced so far, the state and the generator
    of the de-identification, and [pii_detection_summary] *)
Record rewrite_state : Type := RewriteState {
  original_value : string;
  replaced_matches : gset string;
  deid : deid_state;
  generator : rng;
  pii_detection_summary : gmap string Z
}.

(** [any(match in rm for rm in replaced_matches)] *)
Definition already_replaced (m : string) (replaced : gset string) : bool :=
  bool_decide (set_Exists (fun rm => contains m rm = true) replaced).

Section Rewrite.
Variables luhn_check verhoeff_check : string -> bool.
Variable re_sub_escaped : string -> string -> string -> res string.

(** one turn of the loop over the sorted candidates *)
Definition rewrite_step (method col : string)
    (acc : res rewrite_state) (d : string * string) : res rewrite_state :=
  s ← acc;
  if already_replaced d.2 (replaced_matches s) then Ok s
  else
    ok ← valid luhn_check verhoeff_check d;
    if negb ok then Ok s
    else
      let '(r, st', g') := deidentify_value method d.1 d.2 (deid s) (generator s) in
      deidentified_value ← r;
      new_value ← re_sub_escaped d.2 deidentified_value (original_value s);
      Ok (RewriteState new_value ({[d.2]} ∪ replaced_matches s) st' g'
            (<[col := (default 0 (pii_detection_summary s !! col) + 1)%Z]>
               (pii_detection_summary s))).

(** the block for one cell; the text of the result is what is written
    to [deidentified_data.at[idx, col]] *)
Definition rewrite_cell (method col value : string)
    (st : deid_state) (g : rng) (summary : gmap string Z) : res rewrite_state :=
  let detections := detect_pii (Some value) in
  let start := RewriteState value ∅ st g summary in
  if bool_decide (detections = []) then Ok start
  else fold_left (rewrite_step method col) (sort_by_length detections) (Ok start).

End Rewrite.

(** the replacements counted for a column *)
Definition counted_for (col : string) (s : rewrite_state) : Z :=
  default 0%Z (pii_detection_summary s !! col).

End Rewriting.
(** * Properties *)

(** ** The detector *)

Module DetectorProps.
Import PyStr Re Patterns Detector.

Example checksum_vectors :
  Algorithms.luhn_check "4532015112830366" = true
  /\ Algorithms.luhn_check "4532015112830367" = false
  /\ Algorithms.verhoeff_check "2363" = true
  /\ Algorithms.verhoeff_check "123451" = true
  /\ Algorithms.verhoeff_check "123452" = false.
Proof. vm_compute. auto. Qed.

Example detect_mixed :
  detect_pii (Some "card 4532-0151-1283-0366 mail bob.smith@example.co.in ph 9876543210 pan ABCPE1234F x 1234 5678 9012")
  = [ ("aadhaar", "1234 5678 9012"); ("pan", "ABCPE1234F");
      ("credit_card", "4532-0151-1283-0366");
      ("email", "bob.smith@example.co.in"); ("phone", "9876543210") ].
Proof. vm_compute. reflexivity. Qed.

(** Every candidate the detector returns went through the three filters. *)
Lemma detect_pii_survivor text t v :
  In (t, v) (detect_pii text) ->
  exists x, sr_type x = t /\ sr_value x = v
            /\ In x (collect (default "" text))
            /\ not_twelve_digit_card x = true.
Proof.
  unfold detect_pii.
  destruct (collect (default "" text)) as [|y l] eqn:E; [intros []|].
  rewrite <- E. intros H.
  apply in_map_iff in H as (x & Hx & Hin).
  apply filter_In in Hin as [Hin _].
  apply filter_In in Hin as [Hin _].
  apply filter_In in Hin as [Hin Hn].
  exists x. inversion Hx; subst. auto.
Qed.

(** C6.  For every input text, [detect_pii] returns no [credit_card]
    candidate whose digits, separators stripped, number exactly 12; and
    the text ["123456789012"] comes back as one candidate, an aadhaar. *)
Theorem detect_pii_no_twelve_digit_card :
  (forall (text : option string) (v : string),
      In ("credit_card", v) (detect_pii text) ->
      len (digits_only v) <> 12)
  /\ detect_pii (Some "123456789012") = [("aadhaar", "123456789012")].
Proof.
  split; [|vm_compute; reflexivity].
  intros text v H.
  apply detect_pii_survivor in H as (x & Ht & Hv & _ & Hn).
  unfold not_twelve_digit_card in Hn. rewrite Ht, Hv in Hn.
  simpl in Hn. apply negb_true_iff, Nat.eqb_neq in Hn. exact Hn.
Qed.

Lemma detect_pii_no_twelve_digit_card_witness :
  In ("credit_card", "4532015112830366") (detect_pii (Some "4532015112830366"))
  /\ len (digits_only "4532015112830366") <> 12.
Proof.
  split.
  - vm_compute. left. reflexivity.
  - apply (proj1 detect_pii_no_twelve_digit_card (Some "4532015112830366")).
    vm_compute. left. reflexivity.
Defined.

(** C9.  On the empty text and on [None] the detector returns the empty
    list and the ground-truth check returns [False]; neither raises,
    whatever the checksum functions are. *)
Theorem empty_text_no_candidates :
  forall luhn_check verhoeff_check : string -> bool,
    detect_pii None = []
    /\ detect_pii (Some "") = []
    /\ Orchestrator.any_true_pii luhn_check verhoeff_check None = Ok false
    /\ Orchestrator.any_true_pii luhn_check verhoeff_check (Some "") = Ok false.
Proof.
  intros. repeat split; vm_compute; reflexivity.
Qed.

End DetectorProps.

(** ** The validators *)

Module ValidatorProps.
Import PyStr Re Patterns Validators.

Lemma chars_str l : chars (str l) = l.
Proof. apply list_ascii_of_string_of_list_ascii. Qed.

Lemma str_chars s : str (chars s) = s.
Proof. apply string_of_list_ascii_of_string. Qed.

Lemma returns_ok {A} (a : A) : returns (Ok a).
Proof. exists a. reflexivity. Qed.
#[export] Hint Resolve returns_ok : core.

Lemma split_chars_length sep cur l :
  length (split_chars sep cur l) = S (length (List.filter (Ascii.eqb sep) l)).
Proof.
  revert cur. induction l as [|c l IH]; intros cur; simpl; [reflexivity|].
  rewrite (Ascii.eqb_sym sep c).
  destruct (Ascii.eqb c sep); simpl; rewrite IH; reflexivity.
Qed.

Lemma split_one sep s :
  count_char sep s = 1 -> exists a b, split sep s = [a; b].
Proof.
  unfold count_char, split. intros H.
  pose proof (split_chars_length sep [] (chars s)) as L. rewrite H in L.
  destruct (split_chars sep [] (chars s)) as [|a [|b [|c r]]]; try discriminate.
  eauto.
Qed.

Lemma str_app l1 l2 : str (l1 ++ l2)%list = (str l1 ++ str l2)%string.
Proof.
  induction l1 as [|x l1 IH]; [reflexivity|].
  change (String x (str (l1 ++ l2)%list) = String x (str l1 ++ str l2)%string).
  rewrite IH. reflexivity.
Qed.

Lemma chars_app (a b : string) :
  chars (a ++ b)%string = (chars a ++ chars b)%list.
Proof. induction a as [|x a IH]; simpl; [reflexivity|]. f_equal. exact IH. Qed.

Lemma len_app (a b : string) : len (a ++ b)%string = len a + len b.
Proof. unfold len. rewrite chars_app. apply length_app. Qed.

Lemma split_chars_none sep l :
  forallb (fun x => negb (Ascii.eqb x sep)) l = true ->
  forall cur, split_chars sep cur l = [(rev cur ++ l)%list].
Proof.
  induction l as [|x l IH]; intros F cur; simpl.
  - rewrite app_nil_r. reflexivity.
  - simpl in F. apply andb_true_iff in F as [Fx F].
    apply negb_true_iff in Fx. rewrite Fx, (IH F). simpl.
    rewrite <- app_assoc. reflexivity.
Qed.

Lemma split_chars_one sep u l :
  forallb (fun x => negb (Ascii.eqb x sep)) u = true ->
  forall cur, split_chars sep cur (u ++ sep :: l)%list
              = (rev cur ++ u)%list :: split_chars sep [] l.
Proof.
  induction u as [|x u IH]; intros F cur; simpl.
  - rewrite Ascii.eqb_refl, app_nil_r. reflexivity.
  - simpl in F. apply andb_true_iff in F as [Fx F].
    apply negb_true_iff in Fx. rewrite Fx, (IH F). simpl.
    rewrite <- app_assoc. reflexivity.
Qed.






(** [validate_email] returns on every string. *)
Lemma validate_email_returns s : returns (validate_email s).
Proof.
  unfold validate_email.
  destruct (String.eqb s ""); [auto|].
  destruct (_ || _); [auto|].
  destruct (Nat.eqb (count_char "@" (strip s)) 1) eqn:E; simpl; [|auto].
  apply Nat.eqb_eq, split_one in E as (a & b & ->).
  repeat (match goal with |- returns (if ?c then _ else _) => destruct c end; auto).
Qed.
End ValidatorProps.

Module PanProps.
Import PyStr Re Patterns Validators ValidatorProps PanCheckDigit.

Example pan_vectors :
  validate_pan "ABCPE1234A" None = Ok true
  /\ validate_pan "ABCPE1234B" None = Ok false
  /\ validate_pan " abcpe1234a " None = Ok true
  /\ validate_pan "ABCPE1234A" (Some "Evans") = Ok true
  /\ validate_pan "ABCPE1234A" (Some "Smith") = Ok false
  /\ validate_pan "ABCPE1234A" (Some " ") = Raise IndexError
  /\ validate_pan "ABCDE1234A" None = Ok false.
Proof. vm_compute. repeat split. Qed.

Lemma length10 {A} (l : list A) : length l = 10 ->
  exists c0 c1 c2 c3 c4 c5 c6 c7 c8 c9, l = [c0;c1;c2;c3;c4;c5;c6;c7;c8;c9].
Proof.
  intros H. do 10 (destruct l as [|? l]; [discriminate|]).
  destruct l; [|discriminate]. do 10 eexists. reflexivity.
Qed.

(** What the shape pattern accepts among the strings of length 10. *)
Lemma pan_shape p :
  len p = 10 -> matches re_pan_shape p = true ->
  exists c0 c1 c2 c3 c4 c5 c6 c7 c8 c9,
    chars p = [c0;c1;c2;c3;c4;c5;c6;c7;c8;c9]
    /\ Forall (fun c => is_upper c = true) [c0;c1;c2;c3;c4;c9]
    /\ Forall (fun c => is_digit c = true) [c5;c6;c7;c8].
Proof.
  unfold len, matches. intros L H.
  apply length10 in L as (c0&c1&c2&c3&c4&c5&c6&c7&c8&c9&E).
  rewrite E in H. exists c0,c1,c2,c3,c4,c5,c6,c7,c8,c9. split; [exact E|].
  cbn -[is_upper is_digit] in H.
  repeat match type of H with
         | context [if is_upper ?c then _ else _] =>
             destruct (is_upper c) eqn:?; [|discriminate H]
         | context [if is_digit ?c then _ else _] =>
             destruct (is_digit c) eqn:?; [|discriminate H]
         end.
  split; repeat constructor; assumption.
Qed.

(** Facts about the character classes, by enumeration of the characters. *)
Lemma upper_facts c :
  is_upper c = true ->
  is_alpha c = true /\ is_digit c = false /\ upper_char c = c /\ is_space c = false.
Proof.
  destruct c as [[] [] [] [] [] [] [] []]; vm_compute; intros H;
    try discriminate H; repeat split.
Qed.

Lemma digit_facts c :
  is_digit c = true -> is_alpha c = false /\ is_space c = false /\ upper_char c = c.
Proof.
  destruct c as [[] [] [] [] [] [] [] []]; vm_compute; intros H;
    try discriminate H; repeat split.
Qed.

Lemma space_facts c : is_space c = true -> is_upper (upper_char c) = false.
Proof.
  destruct c as [[] [] [] [] [] [] [] []]; vm_compute; intros H;
    try discriminate H; reflexivity.
Qed.

Lemma upper_char_idem c : upper_char (upper_char c) = upper_char c.
Proof. destruct c as [[] [] [] [] [] [] [] []]; vm_compute; reflexivity. Qed.

Lemma lstrip_cons c l :
  lstrip_chars (c :: l) = if is_space c then lstrip_chars l else c :: l.
Proof. reflexivity. Qed.

Lemma lstrip_length l : length (lstrip_chars l) <= length l.
Proof.
  induction l as [|c l IH]; simpl; [lia|]. destruct (is_space c); simpl; lia.
Qed.

Lemma lstrip_id l : length (lstrip_chars l) = length l -> lstrip_chars l = l.
Proof.
  destruct l as [|c l]; simpl; [reflexivity|].
  destruct (is_space c); [|reflexivity].
  pose proof (lstrip_length l). lia.
Qed.

Lemma strip_length l : length (strip_chars l) <= length l.
Proof.
  unfold strip_chars. rewrite length_rev.
  pose proof (lstrip_length (rev (lstrip_chars l))) as H.
  rewrite length_rev in H. pose proof (lstrip_length l). lia.
Qed.

Lemma strip_id l : length (strip_chars l) = length l -> strip_chars l = l.
Proof.
  unfold strip_chars. rewrite length_rev. intros H.
  pose proof (lstrip_length (rev (lstrip_chars l))) as H1.
  rewrite length_rev in H1. pose proof (lstrip_length l) as H2.
  assert (E1 : lstrip_chars l = l) by (apply lstrip_id; lia).
  rewrite E1 in *. rewrite lstrip_id by (rewrite length_rev; lia).
  apply rev_involutive.
Qed.

Lemma len_upper s : len (upper s) = len s.
Proof. unfold len, upper. rewrite chars_str. apply length_map. Qed.

Lemma len_strip s : len (strip s) <= len s.
Proof. unfold len, strip. rewrite chars_str. apply strip_length. Qed.

Lemma chr_letter v :
  (0 <= v < 10)%Z ->
  chr (ord "A" + v) = nth (Z.to_nat v) (chars "ABCDEFGHIJ") "A"%char.
Proof.
  intros H.
  assert (v = 0 \/ v = 1 \/ v = 2 \/ v = 3 \/ v = 4 \/ v = 5 \/ v = 6
          \/ v = 7 \/ v = 8 \/ v = 9)%Z as C by lia.
  repeat (destruct C as [->|C]; [reflexivity|]). subst. reflexivity.
Qed.

(** On a string of the PAN shape the loop of [validate_pan_check_digit]
    returns, and its sum is the sum of the reduced products. *)
Lemma pan_sum_shape c0 c1 c2 c3 c4 c5 c6 c7 c8 :
  Forall (fun c => is_upper c = true) [c0;c1;c2;c3;c4] ->
  Forall (fun c => is_digit c = true) [c5;c6;c7;c8] ->
  pan_sum (str [c0;c1;c2;c3;c4;c5;c6;c7;c8])
  = Ok (sum_Z (map tens_plus_unit
                 (zip_with Z.mul (map char_value [c0;c1;c2;c3;c4;c5;c6;c7;c8])
                    weights))).
Proof.
  intros HU HD.
  repeat match goal with
         | H : Forall _ (_ :: _) |- _ => inversion H; clear H; subst
         | H : Forall _ [] |- _ => clear H
         end.
  unfold pan_sum. rewrite chars_str.
  unfold enumerate, check_digit_step, int_of_char, char_value, tens_plus_unit, weights.
  cbn -[is_alpha is_digit upper_char ord Z.mul Z.add Z.div Z.modulo Z.ltb Z.sub].
  repeat match goal with
         | H : is_upper ?c = true |- _ =>
             destruct (upper_facts c H) as (-> & -> & -> & _); clear H
         | H : is_digit ?c = true |- _ =>
             destruct (digit_facts c H) as (-> & _ & _); rewrite H; clear H
         end.
  cbn -[ord Z.mul Z.add Z.div Z.modulo Z.ltb Z.sub].
  f_equal. lia.
Qed.


Lemma validate_pan_unfold pan surname :
  validate_pan pan surname
  = if String.eqb pan "" then Ok false else pan_rules (upper (strip pan)) surname.
Proof. reflexivity. Qed.

Lemma check_digit_shape c0 c1 c2 c3 c4 c5 c6 c7 c8 c9 :
  Forall (fun c => is_upper c = true) [c0;c1;c2;c3;c4] ->
  Forall (fun c => is_digit c = true) [c5;c6;c7;c8] ->
  validate_pan_check_digit (str [c0;c1;c2;c3;c4;c5;c6;c7;c8;c9])
  = Ok (Ascii.eqb c9 (check_letter tens_plus_unit [c0;c1;c2;c3;c4;c5;c6;c7;c8])).
Proof.
  intros HU HD. unfold validate_pan_check_digit, len, prefix, index.
  rewrite chars_str. cbn [length Nat.eqb negb firstn nth_error].
  rewrite (pan_sum_shape _ _ _ _ _ _ _ _ _ HU HD).
  cbn [mbind res_bind]. unfold check_letter.
  rewrite chr_letter; [reflexivity|].
  apply Z.mod_pos_bound. lia.
Qed.

(** The rules on a string of the PAN shape: the entity code, the
    surname, and the comparison of the tenth character. *)
Lemma pan_rules_shape c0 c1 c2 c3 c4 c5 c6 c7 c8 c9 surname :
  Forall (fun c => is_upper c = true) [c0;c1;c2;c3;c4;c9] ->
  Forall (fun c => is_digit c = true) [c5;c6;c7;c8] ->
  pan_rules (str [c0;c1;c2;c3;c4;c5;c6;c7;c8;c9]) surname
  = if negb (char_in "ABCFGHLJPT" c3) then Ok false
    else
      agrees ← surname_agrees c3 c4 surname;
      if negb agrees then Ok false
      else Ok (Ascii.eqb c9 (check_letter tens_plus_unit [c0;c1;c2;c3;c4;c5;c6;c7;c8])).
Proof.
  intros HU HD. unfold pan_rules, len, index, matches.
  rewrite chars_str.
  assert (HU5 : Forall (fun c => is_upper c = true) [c0;c1;c2;c3;c4]).
  { repeat match goal with
           | H : Forall _ (_ :: _) |- _ => inversion H; clear H; subst
           end.
    repeat constructor; assumption. }
  rewrite (check_digit_shape _ _ _ _ _ _ _ _ _ c9 HU5 HD).
  repeat match goal with
         | H : Forall _ (_ :: _) |- _ => inversion H; clear H; subst
         | H : Forall _ [] |- _ => clear H
         end.
  cbn -[is_upper is_digit is_alpha char_in surname_agrees check_letter].
  repeat match goal with
         | H : _ = true |- _ => rewrite H
         end.
  destruct (upper_facts c4 ltac:(assumption)) as (-> & _).
  rewrite andb_false_r.
  destruct (negb (char_in "ABCFGHLJPT" c3)); [reflexivity|].
  destruct (surname_agrees c3 c4 surname) as [[]|]; cbn; try reflexivity.
  destruct (Ascii.eqb c9 _); reflexivity.
Qed.

(** [validate_pan] without a surname returns on every string. *)
Lemma validate_pan_returns pan : returns (validate_pan pan None).
Proof.
  rewrite validate_pan_unfold. destruct (String.eqb pan ""); [auto|].
  generalize (upper (strip pan)). intros P.
  destruct (Nat.eqb (len P) 10) eqn:L;
    [|unfold pan_rules; rewrite L; cbn; auto].
  destruct (matches re_pan_shape P) eqn:M;
    [|unfold pan_rules; rewrite L, M; cbn; auto].
  apply Nat.eqb_eq in L.
  destruct (pan_shape P L M) as (c0&c1&c2&c3&c4&c5&c6&c7&c8&c9&E&HU&HD).
  rewrite <- (str_chars P), E, (pan_rules_shape _ _ _ _ _ _ _ _ _ _ _ HU HD).
  destruct (negb _); cbn; auto.
Qed.

(** On a product of at most two digits the three readings of "digit-sum
    any two-digit product" agree: the test [> 9] of the loop differs from
    them on three-digit products only. *)
Lemma two_digit_products_agree (p : Z) :
  (0 <= p <= 99)%Z ->
  tens_plus_unit p = two_digit_sum p /\ tens_plus_unit p = digit_sum p.
Proof.
  intros B. unfold tens_plus_unit, two_digit_sum, digit_sum.
  assert (H100 : (p / 100 = 0)%Z) by (apply Z.div_small; lia).
  destruct (Z.ltb_spec 9 p) as [G|G].
  - replace ((10 <=? p)%Z) with true by (symmetry; apply Z.leb_le; lia).
    replace ((p <=? 99)%Z) with true by (symmetry; apply Z.leb_le; lia).
    split; [reflexivity|].
    rewrite H100, (Z.mod_small (p / 10) 10);
      [lia|split; [apply Z.div_pos; lia|apply Z.div_lt_upper_bound; lia]].
  - replace ((10 <=? p)%Z) with false by (symmetry; apply Z.leb_gt; lia).
    split; [reflexivity|].
    rewrite H100, (Z.div_small p 10), (Z.mod_small p 10) by lia. reflexivity.
Qed.

(** C3.  [validate_pan] accepts ["ABZPE1234D"], whose tenth character
    is not the check letter of the specified algorithm.  The nine
    products are 10, 33, 245, 25, 42, 7, 2, 9 and 28: the third
    character, ["Z"], is worth 35 and its weight is 7.  The loop of
    [validate_pan_check_digit], whose comment reads "If result is two
    digits, add them together", tests [> 9] and so turns 245 into
    24 + 5 = 29; the sum is 77 and the letter ["D"].  With 245 left as
    it is (it does not have two digits) the sum is 293 and the letter
    ["H"]; with its digits summed, 2 + 4 + 5 = 11, the sum is 59 and the
    letter ["B"].  The code accepts the first and rejects the other
    two. *)
Theorem pan_check_digit_three_digit_product :
  zip_with Z.mul (map char_value (chars "ABZPE1234")) weights
  = [10; 33; 245; 25; 42; 7; 2; 9; 28]%Z
  /\ tens_plus_unit 245 = 29%Z
  /\ two_digit_sum 245 = 245%Z
  /\ digit_sum 245 = 11%Z
  /\ validate_pan_check_digit "ABZPE1234D" = Ok true
  /\ validate_pan "ABZPE1234D" None = Ok true
  /\ check_letter tens_plus_unit (chars "ABZPE1234") = "D"%char
  /\ check_letter two_digit_sum (chars "ABZPE1234") = "H"%char
  /\ check_letter digit_sum (chars "ABZPE1234") = "B"%char
  /\ validate_pan "ABZPE1234H" None = Ok false
  /\ validate_pan "ABZPE1234B" None = Ok false.
Proof. vm_compute. repeat split. Qed.

End PanProps.

Module ValidProps.
Import PyStr Re Patterns Validators ValidatorProps PanProps.

Example normalize_vectors :
  _normalize_match_value VNone = ""
  /\ _normalize_match_value (VStr "a@b.co") = "a@b.co"
  /\ _normalize_match_value (VAtom (AInt 42)) = "42"
  /\ _normalize_match_value (VTuple [ANone; AStr ""; AStr "1234"; AStr "-"]) = "1234"
  /\ _normalize_match_value (VTuple [ANone; AInt 5; AStr ""; AInt (-12)]) = "5-12"
  /\ _normalize_match_value (VTuple [ANone; AStr ""]) = "".
Proof. vm_compute. repeat split. Qed.

Section Checksums.
Variables luhn_check verhoeff_check : string -> bool.

Lemma is_valid_pii_returns pii_type value :
  returns (is_valid_pii luhn_check verhoeff_check pii_type value).
Proof.
  unfold is_valid_pii.
  repeat match goal with
         | |- returns (if ?b then _ else _) => destruct b
         end;
    auto using validate_pan_returns, validate_email_returns.
Qed.

(** C10.  [is_valid_pii] returns on every type string and every
    candidate value, a string or not; its answer is the one for the
    string [_normalize_match_value] makes of the value; and for a type
    that maps to none of the five keys of [patterns] the answer is
    [False]. *)
Theorem is_valid_pii_unknown_type (pii_type : string) (value : pyval) :
  returns (is_valid_pii luhn_check verhoeff_check pii_type value)
  /\ is_valid_pii luhn_check verhoeff_check pii_type value
     = is_valid_pii luhn_check verhoeff_check pii_type
         (VStr (_normalize_match_value value))
  /\ (~ In (mapped_type pii_type) (map fst patterns) ->
      is_valid_pii luhn_check verhoeff_check pii_type value = Ok false).
Proof.
  split; [apply is_valid_pii_returns|]. split; [reflexivity|].
  intros H. unfold is_valid_pii.
  repeat match goal with
         | |- (if String.eqb ?a ?b then _ else _) = _ =>
             destruct (String.eqb_spec a b) as [E|_];
             [exfalso; apply H; rewrite E; cbn; tauto|]
         end.
  reflexivity.
Qed.

End Checksums.

Lemma is_valid_pii_unknown_type_witness :
  ~ In (mapped_type "SSN") (map fst patterns)
  /\ is_valid_pii Algorithms.luhn_check Algorithms.verhoeff_check "SSN"
       (VTuple [ANone; AStr "123-45-6789"]) = Ok false.
Proof.
  assert (H : ~ In (mapped_type "SSN") (map fst patterns)).
  { vm_compute. intros [H|[H|[H|[H|[H|[]]]]]]; discriminate H. }
  split; [exact H|].
  apply (is_valid_pii_unknown_type Algorithms.luhn_check Algorithms.verhoeff_check
           "SSN" (VTuple [ANone; AStr "123-45-6789"])).
  exact H.
Defined.
End ValidProps.

(** ** The classification of a cell *)

Module OrchestratorProps.
Import PyStr Patterns Detector Validators Orchestrator ValidatorProps ValidProps.

Example classify_vectors :
  let classify_cell := classify_cell Algorithms.luhn_check Algorithms.verhoeff_check in
  classify_cell "bob@example.com" = Ok (TP, Detections [("email", "bob@example.com")])
  /\ classify_cell "card 4532015112830366" = Ok (TP, Detections [("credit_card", "4532015112830366")])
  /\ classify_cell "card 4532015112830367" = Ok (FP, Detections [])
  /\ classify_cell "123456789012" = Ok (FP, Detections [])
  /\ classify_cell "notareal@@email" = Ok (TN, NoDetail)
  /\ classify_cell "" = Ok (TN, NoDetail).
Proof. vm_compute. repeat split. Qed.

Section Checksums.
Variables luhn_check verhoeff_check : string -> bool.

Local Abbreviation valid := (Orchestrator.valid luhn_check verhoeff_check).
Local Abbreviation any_valid := (Orchestrator.any_valid luhn_check verhoeff_check).
Local Abbreviation valid_only := (Orchestrator.valid_only luhn_check verhoeff_check).
Local Abbreviation any_true_pii := (Orchestrator.any_true_pii luhn_check verhoeff_check).
Local Abbreviation classify := (Orchestrator.classify luhn_check verhoeff_check).
Local Abbreviation classify_cell := (Orchestrator.classify_cell luhn_check verhoeff_check).
Local Abbreviation analyze_column := (Orchestrator.analyze_column luhn_check verhoeff_check).
Local Abbreviation analyze_columns := (Orchestrator.analyze_columns luhn_check verhoeff_check).
Local Abbreviation analyze_dataframe := (Orchestrator.analyze_dataframe luhn_check verhoeff_check).

Lemma valid_returns d : returns (valid d).
Proof. apply is_valid_pii_returns. Qed.

Lemma any_valid_returns dets : returns (any_valid dets).
Proof.
  induction dets as [|d dets IH]; simpl; [auto|].
  destruct (valid_returns d) as [[] ->]; simpl; auto.
Qed.

Lemma valid_only_returns dets : returns (valid_only dets).
Proof.
  induction dets as [|d dets IH]; simpl; [auto|].
  destruct (valid_returns d) as [b ->], IH as [vs ->]; simpl; auto.
Qed.

(** No candidate validates: the list of the valid ones is empty. *)
Lemma valid_only_none dets : any_valid dets = Ok false -> valid_only dets = Ok [].
Proof.
  induction dets as [|d dets IH]; simpl; [reflexivity|].
  destruct (valid_returns d) as [[] ->]; simpl; [discriminate|].
  intros H. rewrite (IH H). reflexivity.
Qed.

(** The ground truth of a cell is the validation of its candidates. *)
Lemma any_true_pii_any_valid value :
  any_true_pii (Some value) = any_valid (detect_pii (Some value)).
Proof.
  unfold Orchestrator.any_true_pii.
  destruct (String.eqb_spec value "") as [->|_]; reflexivity.
Qed.

(** The loop over the candidates answers [False] only when no candidate
    validates. *)
Lemma any_valid_false dets :
  any_valid dets = Ok false -> forall d, In d dets -> valid d = Ok false.
Proof.
  induction dets as [|x dets IH]; intros H d Hd; [destruct Hd|].
  simpl in H. destruct (valid_returns x) as [[] E];
    rewrite E in H; simpl in H; [discriminate|].
  destruct Hd as [<-|Hd]; auto.
Qed.




(** The three ways a cell is classified. *)
Lemma classify_cell_cases value :
  (exists vs, classify_cell value = Ok (TP, Detections vs)
              /\ any_valid (detect_pii (Some value)) = Ok true)
  \/ (classify_cell value = Ok (FP, Detections [])
      /\ detect_pii (Some value) <> []
      /\ any_valid (detect_pii (Some value)) = Ok false)
  \/ (classify_cell value = Ok (TN, NoDetail)
      /\ detect_pii (Some value) = []).
Proof.
  unfold Orchestrator.classify_cell. rewrite any_true_pii_any_valid.
  unfold Orchestrator.classify.
  destruct (detect_pii (Some value)) as [|d dets] eqn:E.
  - right. right. split; reflexivity.
  - destruct (any_valid_returns (d :: dets)) as [[] Hc].
    + left. destruct (valid_only_returns (d :: dets)) as [vs Hvs].
      exists vs. rewrite Hc, Hvs. split; reflexivity.
    + right. left. rewrite Hc, (valid_only_none _ Hc). repeat split.
      discriminate.
Qed.


Lemma record_no_false_negative o row m :
  o = TP \/ (o = FP /\ row.2 = Detections []) \/ o = TN ->
  no_false_negative m -> no_false_negative (record o row m).
Proof.
  intros [ -> | [ [ -> Hr ] | -> ] ] (H1 & H2 & H3); repeat split; simpl; auto.
  apply Forall_app. split; [exact H3|]. repeat constructor. exact Hr.
Qed.

Lemma analyze_column_no_false_negative col cells :
  forall idx m, no_false_negative m ->
    exists m', analyze_column col idx cells m = Ok m' /\ no_false_negative m'.
Proof.
  induction cells as [|value cells IH]; intros idx m Hm; simpl; [eauto|].
  destruct (classify_cell_cases value)
    as [ (vs & -> & _) | [ (-> & _ & _) | (-> & _) ] ]; cbn [mbind res_bind];
    apply IH, record_no_false_negative; auto.
Qed.

Lemma analyze_columns_no_false_negative df :
  forall m, no_false_negative m ->
    exists m', analyze_columns df m = Ok m' /\ no_false_negative m'.
Proof.
  induction df as [|[col cells] df IH]; intros m Hm; simpl; [eauto|].
  destruct (analyze_column_no_false_negative col cells 0 m Hm) as (m1 & -> & H1).
  cbn. apply IH, H1.
Qed.

(** C2.  The ground truth of a cell being the validation of its own
    candidates, a cell is classified TP (some candidate validates), FP
    with an empty list of valid detections (candidates, none of which
    validates) or TN (no candidate); and on every dataframe
    [analyze_dataframe] returns metrics whose FN counter is 0, whose
    FN list is empty and whose FP rows all carry the empty list: the
    FN branches and the branch "valid detection, no ground truth" are
    never taken. *)
Theorem false_negative_unreachable :
  (forall value : string,
      (exists vs, classify_cell value = Ok (TP, Detections vs)
                  /\ any_valid (detect_pii (Some value)) = Ok true)
      \/ (classify_cell value = Ok (FP, Detections [])
          /\ detect_pii (Some value) <> []
          /\ any_valid (detect_pii (Some value)) = Ok false)
      \/ (classify_cell value = Ok (TN, NoDetail)
          /\ detect_pii (Some value) = []))
  /\ (forall df : list (string * list string),
        exists m, analyze_dataframe df = Ok m
                  /\ count_FN m = 0%N
                  /\ data_FN m = []
                  /\ Forall (fun row : metric_row => row.2 = Detections [])
                       (data_FP m)).
Proof.
  split; [exact classify_cell_cases|].
  intros df. apply analyze_columns_no_false_negative.
  repeat split. constructor.
Qed.

End Checksums.

End OrchestratorProps.

(** ** De-identification *)

Module DeidProps.
Import PyStr Patterns Random Masking Anonymization Pseudonymization Deidentifier Runs.
Import ValidatorProps.

Example deidentify_vectors :
  let g := Rng (fun n => n * 7) 0 in
  let run method t v := (deidentify_value method t v initial_state g).1.1 in
  run "Masking" "aadhaar" "2341 2341 2346" = Ok "2341-XXXX-2346"
  /\ run "Masking" "PAN" "ABCPE1234A" = Ok "ABCPE****A"
  /\ run "Masking" "Credit Card" "4532-0151-1283-0366" = Ok "XXXX-XXXX-XXXX-0366"
  /\ run "Masking" "email" "bob@x.org" = Ok "xxx@x.org"
  /\ run "Masking" "email" "bob@@x.org" = Ok "bob@@x.org"
  /\ run "Masking" "phone" "9876543210" = Ok "XXXXXX3210"
  /\ run "Masking" "ssn" "123-45-6789" = Ok "123-45-6789"
  /\ run "Anonymization" "ssn" "123-45-6789" = Ok "ahovCJQX4b"
  /\ run "Pseudo-Anonymization" "Phone" "9876543210" = Ok "phone_1"
  /\ run "Pseudo-Anonymization" "email" "a@b.com" = Ok "user1@b.com"
  /\ run "Pseudo-Anonymization" "email" "a@b@c" = Ok "user1@gmail.com"
  /\ run "Selective" "email" "a@b.com" = Ok "email1@b.com"
  /\ run "Selective" "aadhaar" "2341 2341 2346" = Ok "2341XXXX2346"
  /\ run "Selective" "pan" "ABCPE1234A" = Ok "AHOVC5296L"
  /\ run "Selective" "ssn" "123-45-6789" = Ok "123-45-6789"
  /\ run "Shuffle" "phone" "9876543210" = Ok "9876543210".
Proof. vm_compute. repeat split. Qed.

(** *** Anonymization *)

Lemma choice_in population g :
  len population <> 0 -> In (choice population g).1 (chars population).
Proof.
  intros H. unfold choice, len in *. simpl. apply nth_In.
  apply Nat.mod_upper_bound. exact H.
Qed.

Lemma choices_spec population k :
  len population <> 0 ->
  forall g, length (choices population k g).1 = k
            /\ Forall (fun c => In c (chars population)) (choices population k g).1.
Proof.
  intros H. induction k as [|k IH]; intros g; [simpl; split; constructor|].
  cbn [choices].
  destruct (choice population g) as [c g1] eqn:E1.
  destruct (choices population k g1) as [cs g2] eqn:E2. cbn [fst length].
  destruct (IH g1) as [L F]. rewrite E2 in L, F. cbn [fst] in L, F.
  split; [f_equal; exact L|]. constructor; [|exact F].
  pose proof (choice_in population g H) as I. rewrite E1 in I. exact I.
Qed.

(** [random_string(n)] is [n] characters, each a letter or a digit. *)
Lemma random_string_spec n g :
  len (random_string n g).1 = n
  /\ forallb is_alnum (chars (random_string n g).1) = true.
Proof.
  unfold random_string.
  destruct (choices (ascii_letters ++ digits) n g) as [cs g'] eqn:E.
  assert (P : len (ascii_letters ++ digits) <> 0) by (vm_compute; discriminate).
  destruct (choices_spec _ n P g) as [L F]. rewrite E in L, F. simpl in *.
  unfold len. rewrite chars_str. split; [exact L|].
  apply forallb_forall. intros c Hc.
  rewrite Forall_forall in F. specialize (F c).
  assert (A : forallb is_alnum (chars (ascii_letters ++ digits)) = true)
    by (vm_compute; reflexivity).
  rewrite forallb_forall in A. apply A, F, list_elem_of_In, Hc.
Qed.

(** C4, where the code departs from it.  With the generator drawing its
    first element every time, the anonymized Aadhaar number is twelve
    letters, the anonymized phone number is a 9 followed by nine
    letters, and the anonymized PAN has letters in its four digit
    places; with the generator drawing its last element every time the
    anonymized PAN is ten digits. *)
Theorem anonymize_pii_not_digits :
  let first := Rng (fun _ => 0) 0 in
  let last := Rng (fun _ => 61) 0 in
  (anonymize_pii "aadhaar" "234123412346" first).1 = "aaaaaaaaaaaa"
  /\ (anonymize_pii "phone" "9876543210" first).1 = "9aaaaaaaaa"
  /\ (anonymize_pii "pan" "ABCPE1234A" first).1 = "AAAAAaaaaA"
  /\ (anonymize_pii "pan" "ABCPE1234A" last).1 = "9999999999".
Proof. vm_compute. repeat split. Qed.

(** *** The dispatcher *)

(** Masking, anonymization, the selective strategy and an unknown
    strategy return on every type and value. *)
Lemma deidentify_value_returns method pii_type value st g :
  method <> "Pseudo-Anonymization" ->
  returns (deidentify_value method pii_type value st g).1.1.
Proof.
  intros H. unfold deidentify_value.
  destruct (String.eqb method "Masking"); [simpl; auto|].
  destruct (String.eqb method "Anonymization").
  { destruct (anonymize_pii pii_type value g). simpl. auto. }
  destruct (String.eqb_spec method "Pseudo-Anonymization") as [E|_]; [contradiction|].
  destruct (String.eqb method "Selective"); [|simpl; auto].
  destruct (selective_deidentify pii_type value st g) as [[r st'] g']. simpl. auto.
Qed.

(** An unknown strategy hands the value back and changes nothing. *)
Lemma deidentify_value_unknown_method method pii_type value st g :
  ~ In method ["Masking"; "Anonymization"; "Pseudo-Anonymization"; "Selective"] ->
  deidentify_value method pii_type value st g = (Ok value, st, g).
Proof.
  intros H. unfold deidentify_value.
  repeat match goal with
         | |- (if String.eqb ?a ?b then _ else _) = _ =>
             destruct (String.eqb_spec a b) as [E|_];
             [exfalso; apply H; rewrite E; cbn; tauto|]
         end.
  reflexivity.
Qed.

(** C7, where the code departs from it.  Under the strategy
    ["Pseudo-Anonymization"] a type that is no key of [patterns] raises
    [KeyError]: [pseudo_anonymize] indexes [pseudo_maps] with it. *)
Theorem pseudo_anonymization_unknown_type_raises :
  forall g : rng,
    deidentify_value "Pseudo-Anonymization" "ssn" "123-45-6789" initial_state g
    = (Raise (KeyError "ssn"), initial_state, g).
Proof. intros g. vm_compute. reflexivity. Qed.

End DeidProps.

(** ** Pseudonymization within a run *)

Module PseudoProps.
Import PyStr Patterns Random Pseudonymization Deidentifier Runs ValidatorProps.

Example phone_twice_then_another :
  let '(r1, st1) := pseudo_anonymize_pii "phone" "9876543210" initial_state in
  let '(r2, st2) := pseudo_anonymize_pii "phone" "9876543210" st1 in
  let '(r3, st3) := pseudo_anonymize_pii "phone" "9123456780" st2 in
  let '(r4, st4) := pseudo_anonymize_pii "Email" "a@b.com" st3 in
  let '(r5, st5) := pseudo_anonymize_pii "email" "nobody" st4 in
  [r1; r2; r3; r4; r5]
  = [Ok "phone_1"; Ok "phone_1"; Ok "phone_2"; Ok "user1@b.com"; Ok "user2@gmail.com"].
Proof. vm_compute. reflexivity. Qed.

(** *** Decimal numerals *)


Lemma pretty_N_char_digit x : is_digit (pretty_N_char x) = true.
Proof. unfold pretty_N_char. repeat case_match; reflexivity. Qed.

Lemma pretty_N_go_digits x :
  forall s, all_digits s -> all_digits (pretty_N_go x s).
Proof.
  induction (N.lt_wf_0 x) as [x _ IH]. intros s Hs.
  destruct (decide (x = 0%N)) as [->|Hx]; [rewrite pretty_N_go_0; exact Hs|].
  rewrite pretty_N_go_step by lia.
  apply IH; [apply N.div_lt; lia|].
  constructor; [apply pretty_N_char_digit|exact Hs].
Qed.

Lemma pretty_N_digits (n : N) : all_digits (pretty n).
Proof.
  unfold pretty, pretty_N. case_decide; [repeat constructor|].
  apply pretty_N_go_digits. constructor.
Qed.

(** Numerals followed by an at sign are told apart by the numerals. *)
Lemma numeral_before_at a :
  forall a' d d',
    all_digits a -> all_digits a' ->
    a ++ "@" ++ d = a' ++ "@" ++ d' -> a = a'.
Proof.
  induction a as [|c a IH]; intros [|c' a'] d d' Ha Ha' E; simpl in E.
  - reflexivity.
  - injection E as E _. subst c'. inversion Ha' as [|? ? Hc _]. discriminate Hc.
  - injection E as E _. subst c. inversion Ha as [|? ? Hc _]. discriminate Hc.
  - injection E as -> E. f_equal.
    inversion Ha; inversion Ha'; subst. eapply IH; eassumption.
Qed.

(** *** The replacements and their numbers *)




(** *** What every state of a run satisfies *)



(** [pseudo_anonymize_pii], the email branch and the other one read as
    one: look the value up under the mapped type, and on a miss record
    the pseudonym of the current counter. *)
Lemma pseudo_anonymize_pii_unfold pii_type value st :
  pseudo_anonymize_pii pii_type value st
  = let t := mapped_type pii_type in
    match pseudo_maps st !! t with
    | None => (Raise (KeyError t), st)
    | Some m =>
        match m !! value with
        | Some r => (Ok r, st)
        | None =>
            match pseudo_counters st !! t with
            | None => (Raise (KeyError t), st)
            | Some c =>
                let r := first_pseudonym t c value in
                (Ok r, record_pseudonym t value r m c st)
            end
        end
    end.
Proof.
  unfold pseudo_anonymize_pii, pseudo_anonymize, first_pseudonym. cbv zeta.
  destruct (String.eqb_spec (mapped_type pii_type) "email") as [->|_]; reflexivity.
Qed.



(** The selective strategy leaves the two dicts of the pseudonymization
    alone. *)
Lemma selective_deidentify_frame pii_type value st g :
  pseudo_maps (selective_deidentify pii_type value st g).1.2 = pseudo_maps st
  /\ pseudo_counters (selective_deidentify pii_type value st g).1.2
     = pseudo_counters st.
Proof.
  unfold selective_deidentify.
  repeat match goal with
         | |- context [if ?b then _ else _] => destruct b
         | |- context [match ?o with Some _ => _ | None => _ end] => destruct o
         | |- context [let '(_, _) := ?p in _] => destruct p
         end; split; reflexivity.
Qed.

(** The pseudonymization leaves the two attributes of the selective
    strategy alone. *)
Lemma pseudo_anonymize_pii_frame pii_type value st :
  email_map (pseudo_anonymize_pii pii_type value st).2 = email_map st
  /\ email_counter (pseudo_anonymize_pii pii_type value st).2 = email_counter st.
Proof.
  rewrite pseudo_anonymize_pii_unfold. cbv zeta.
  repeat match goal with
         | |- context [match ?o with Some _ => _ | None => _ end] => destruct o
         end; split; reflexivity.
Qed.









(** C8.  The pseudonymization never changes the map or the counter of
    the selective strategy, and the selective strategy never changes the
    maps or the counters of the pseudonymization; so an email new to
    both gets, in either order of the two calls, ["user{m}@domain"] from
    the one and ["email{n}@domain"] from the other, [m] and [n] being
    the two counters before the calls. *)
Theorem selective_and_pseudo_email_disjoint
    (st : deid_state) (g : rng) (pii_type value : string) :
  (email_map (pseudo_anonymize_pii pii_type value st).2 = email_map st
   /\ email_counter (pseudo_anonymize_pii pii_type value st).2 = email_counter st)
  /\ (pseudo_maps (selective_deidentify pii_type value st g).1.2 = pseudo_maps st
      /\ pseudo_counters (selective_deidentify pii_type value st g).1.2
         = pseudo_counters st)
  /\ forall m n : N,
      unseen st "email" value m ->
      sel_map st !! value = None ->
      sel_counter st = n ->
      let by_pseudo := "user" ++ pretty m ++ "@" ++ email_domain value in
      let by_selective := "email" ++ pretty n ++ "@" ++ email_domain value in
      (pseudo_anonymize_pii "email" value st).1 = Ok by_pseudo
      /\ (selective_deidentify "email" value
            (pseudo_anonymize_pii "email" value st).2 g).1.1 = by_selective
      /\ (selective_deidentify "email" value st g).1.1 = by_selective
      /\ (pseudo_anonymize_pii "email" value
            (selective_deidentify "email" value st g).1.2).1 = Ok by_pseudo.
Proof.
  split; [apply pseudo_anonymize_pii_frame|].
  split; [apply selective_deidentify_frame|].
  intros m n [(pm & Hpm & Hv) Hc] Hs Hn. cbv zeta.
  assert (P : forall st0,
             pseudo_maps st0 = pseudo_maps st ->
             pseudo_counters st0 = pseudo_counters st ->
             (pseudo_anonymize_pii "email" value st0).1
             = Ok ("user" ++ pretty m ++ "@" ++ email_domain value)).
  { intros st0 E1 E2. rewrite pseudo_anonymize_pii_unfold. cbv zeta.
    change (mapped_type "email") with "email".
    rewrite E1, E2, Hpm, Hv, Hc. reflexivity. }
  assert (S : forall st0,
             email_map st0 = email_map st ->
             email_counter st0 = email_counter st ->
             (selective_deidentify "email" value st0 g).1.1
             = "email" ++ pretty n ++ "@" ++ email_domain value).
  { intros st0 E1 E2. unfold selective_deidentify.
    change (lower "email") with "email". cbn [String.eqb Ascii.eqb Bool.eqb].
    unfold sel_map, sel_counter in *. unfold init_selective. cbn [email_map email_counter].
    rewrite E1, E2. cbn [default from_option id].
    replace (default ∅ (email_map st) !! value) with (@None string) by (symmetry; exact Hs).
    rewrite Hn. reflexivity. }
  destruct (pseudo_anonymize_pii_frame "email" value st) as [F1 F2].
  destruct (selective_deidentify_frame "email" value st g) as [F3 F4].
  repeat split; auto.
Qed.

Lemma selective_and_pseudo_email_disjoint_witness :
  let st := initial_state in
  let g := Rng (fun _ => 0) 0 in
  unseen st "email" "a@b.com" 1%N
  /\ sel_map st !! "a@b.com" = None
  /\ sel_counter st = 1%N
  /\ (pseudo_anonymize_pii "email" "a@b.com" st).1 = Ok "user1@b.com"
  /\ (selective_deidentify "email" "a@b.com"
        (pseudo_anonymize_pii "email" "a@b.com" st).2 g).1.1 = "email1@b.com"
  /\ (selective_deidentify "email" "a@b.com" st g).1.1 = "email1@b.com"
  /\ (pseudo_anonymize_pii "email" "a@b.com"
        (selective_deidentify "email" "a@b.com" st g).1.2).1 = Ok "user1@b.com".
Proof.
  cbv zeta.
  assert (U : unseen initial_state "email" "a@b.com" 1%N).
  { split; [exists ∅; split|]; vm_compute; reflexivity. }
  assert (M : sel_map initial_state !! "a@b.com" = None) by reflexivity.
  split; [exact U|]. split; [exact M|]. split; [reflexivity|].
  exact (proj2 (proj2 (selective_and_pseudo_email_disjoint
                         initial_state (Rng (fun _ => 0) 0) "email" "a@b.com"))
           1%N 1%N U M eq_refl).
Defined.

End PseudoProps.
(** ** The matcher *)

Module ReProps.
Import PyStr Re ReSem.
Local Open Scope list_scope.

Section Loops.
Variable step : cursor -> (cursor -> option cursor) -> option cursor.
Variable S_step : cursor -> cursor -> Prop.
Hypothesis step_sound :
  forall c k c', step c k = Some c' -> exists c1, S_step c c1 /\ k c1 = Some c'.
Variables (greedy : bool) (k : cursor -> option cursor).

Lemma optional_loop_S extra c :
  optional_loop step greedy k (S extra) c
  = if greedy
    then match step c (fun c' => optional_loop step greedy k extra c') with
         | Some c' => Some c'
         | None => k c
         end
    else match k c with
         | Some c' => Some c'
         | None => step c (fun c' => optional_loop step greedy k extra c')
         end.
Proof. reflexivity. Qed.

Lemma optional_loop_sound extra :
  forall c c', optional_loop step greedy k extra c = Some c' ->
    exists n c1, n <= extra /\ iter S_step n c c1 /\ k c1 = Some c'.
Proof.
  induction extra as [|e IHe]; intros c c' H.
  - exists 0, c. simpl. auto.
  - rewrite optional_loop_S in H.
    assert (Hmore : forall c'',
               step c (fun c' => optional_loop step greedy k e c') = Some c'' ->
               exists n c1, n <= S e /\ iter S_step n c c1 /\ k c1 = Some c'').
    { intros c3 H3. apply step_sound in H3 as (c2 & Hb & H3).
      apply IHe in H3 as (n & c1 & Hn & Hi & Hk).
      exists (S n), c1. split; [lia|]. split; [|exact Hk]. simpl. eauto. }
    destruct greedy.
    + destruct (step c _) eqn:E.
      * injection H as <-. apply Hmore. reflexivity.
      * exists 0, c. simpl. auto with lia.
    + destruct (k c) eqn:E.
      * injection H as <-. exists 0, c. simpl. auto with lia.
      * apply Hmore, H.
Qed.

Lemma mandatory_loop_sound extra lo :
  forall c c', mandatory_loop step greedy k extra lo c = Some c' ->
    exists n c1, lo <= n /\ n <= lo + extra /\ iter S_step n c c1 /\ k c1 = Some c'.
Proof.
  induction lo as [|l IHl]; intros c c' H.
  - apply optional_loop_sound in H as (n & c1 & Hn & Hi & Hk).
    exists n, c1. auto with lia.
  - change (step c (fun c' => mandatory_loop step greedy k extra l c') = Some c') in H.
    apply step_sound in H as (c2 & Hb & H).
    apply IHl in H as (n & c1 & H1 & H2 & Hi & Hk).
    exists (S n), c1. repeat split; [lia|lia| |exact Hk]. simpl. eauto.
Qed.

End Loops.

(** Every success of the matcher is a match of the pattern, followed by
    a success of the continuation. *)
Lemma run_sound r :
  forall c k c', run r c k = Some c' -> exists c1, sem r c c1 /\ k c1 = Some c'.
Proof.
  induction r as [ |p|a IHa b IHb|a IHa b IHb|body IH lo hi greedy|n body IH|n
                 | | | |p|body IH]; intros c k c' H; simpl in H.
  - exists c. split; [reflexivity|exact H].
  - destruct (after c) as [|x rest] eqn:E; [discriminate|].
    destruct (p x) eqn:P; [|discriminate].
    eexists. split; [|exact H]. simpl. eauto.
  - apply IHa in H as (c2 & Ha & H). apply IHb in H as (c1 & Hb & H).
    exists c1. split; [|exact H]. simpl. eauto.
  - destruct (run a c k) eqn:E.
    + injection H as <-. apply IHa in E as (c1 & Ha & E). exists c1. simpl. auto.
    + apply IHb in H as (c1 & Hb & H). exists c1. simpl. auto.
  - change (mandatory_loop (run body) greedy k
              match hi with Some h => h - lo | None => length (after c) end
              lo c = Some c') in H.
    apply (mandatory_loop_sound _ _ IH) in H as (n & c1 & H1 & H2 & Hi & Hk).
    exists c1. split; [|exact Hk]. simpl. exists n. auto.
  - apply IH in H as (c2 & Hb & H). eexists. split; [|exact H]. simpl. eauto.
  - destruct (cap_lookup n (caps c)) as [w|] eqn:E; [|discriminate].
    destruct (is_prefix w (after c)) as [rest|] eqn:P; [|discriminate].
    eexists. split; [|exact H]. simpl. eauto.
  - destruct (xorb _ _) eqn:E; [|discriminate]. exists c. simpl. auto.
  - destruct (before c) eqn:E; [|discriminate]. exists c. simpl. auto.
  - exists c. simpl.
    destruct (after c) as [|x [|y l]] eqn:E; try discriminate; [auto|].
    destruct (Ascii.eqb_spec x "010"); [subst; auto|discriminate].
  - exists c. simpl. destruct (before c) as [|x l]; [auto|].
    destruct (p x); [discriminate|auto].
  - destruct (run body c Some) eqn:E; [discriminate|]. exists c. simpl. auto.
Qed.

(** *** What a match consumes *)

Lemma advance_nil c : advance [] c c.
Proof. split; reflexivity. Qed.

Lemma advance_app w1 w2 c c2 c1 :
  advance w1 c c2 -> advance w2 c2 c1 -> advance (w1 ++ w2) c c1.
Proof.
  intros [A1 B1] [A2 B2]. split.
  - rewrite A1, A2. apply app_assoc.
  - rewrite B2, B1, rev_app_distr. apply app_assoc.
Qed.

Lemma advance_consumed w c c1 : advance w c c1 -> consumed c c1 = w.
Proof.
  intros [A _]. unfold consumed. rewrite A, length_app.
  replace (length w + length (after c1) - length (after c1)) with (length w) by lia.
  rewrite firstn_app, firstn_all, Nat.sub_diag. simpl. apply app_nil_r.
Qed.

Lemma is_prefix_app w l rest : is_prefix w l = Some rest -> l = w ++ rest.
Proof.
  revert l. induction w as [|a w IH]; intros l H; simpl in H.
  - injection H as ->. reflexivity.
  - destruct l as [|b l]; [discriminate|].
    destruct (Ascii.eqb_spec a b) as [->|]; [|discriminate].
    simpl. f_equal. apply IH, H.
Qed.

Lemma iter_advance (S : cursor -> cursor -> Prop) (P : list ascii -> Prop) :
  P [] -> (forall w1 w2, P w1 -> P w2 -> P (w1 ++ w2)) ->
  (forall c c1, S c c1 -> exists w, advance w c c1 /\ P w) ->
  forall n c c1, iter S n c c1 -> exists w, advance w c c1 /\ P w.
Proof.
  intros P0 Papp HS n. induction n as [|n IH]; intros c c1 H; simpl in H.
  - subst. exists []. split; [apply advance_nil|exact P0].
  - destruct H as (c2 & H1 & H2).
    apply HS in H1 as (w1 & A1 & Q1). apply IH in H2 as (w2 & A2 & Q2).
    exists (w1 ++ w2). split; [eapply advance_app; eassumption|auto].
Qed.

(** A match moves the cursor over a piece of the text. *)
Lemma sem_advance r : forall c c1, sem r c c1 -> exists w, advance w c c1.
Proof.
  induction r as [ |p|a IHa b IHb|a IHa b IHb|body IH lo hi greedy|n body IH|n
                 | | | |p|body IH]; intros c c1 H; simpl in H;
    try match type of H with
        | _ /\ _ = _ => destruct H as [_ ->]; exists []; apply advance_nil
        end.
  - subst. exists []. apply advance_nil.
  - destruct H as (x & rest & E & _ & ->). exists [x]. split; simpl; auto.
  - destruct H as (c2 & H1 & H2).
    apply IHa in H1 as (w1 & A1). apply IHb in H2 as (w2 & A2).
    exists (w1 ++ w2). eapply advance_app; eassumption.
  - destruct H as [H|H]; eauto.
  - destruct H as (n & _ & _ & H).
    destruct (iter_advance (sem body) (fun _ => True) I (fun _ _ _ _ => I)
                (fun c c1 Hs => match IH c c1 Hs with
                                | ex_intro _ w A => ex_intro _ w (conj A I)
                                end) n c c1 H) as (w & A & _).
    eauto.
  - destruct H as (c2 & H & ->). apply IH in H as (w & A). exists w. exact A.
  - destruct H as (w & rest & _ & P & ->). exists w.
    apply is_prefix_app in P. split; simpl; auto.
Qed.

(** A match of a pattern whose classes lie within [Q] moves the cursor
    over characters of [Q]. *)
Lemma sem_chars Q r :
  classes_in Q r ->
  forall c c1, sem r c c1 -> exists w, advance w c c1 /\ forallb Q w = true.
Proof.
  induction r as [ |p|a IHa b IHb|a IHa b IHb|body IH lo hi greedy|n body IH|n
                 | | | |p|body IH]; intros C c c1 H; simpl in H, C;
    try match type of H with
        | _ /\ _ = _ =>
            destruct H as [_ ->]; exists []; split; [apply advance_nil|reflexivity]
        end.
  - subst. exists []. split; [apply advance_nil|reflexivity].
  - destruct H as (x & rest & E & P & ->). exists [x]. split; [split; simpl; auto|].
    simpl. rewrite (C x P). reflexivity.
  - destruct C as [Ca Cb]. destruct H as (c2 & H1 & H2).
    apply (IHa Ca) in H1 as (w1 & A1 & Q1). apply (IHb Cb) in H2 as (w2 & A2 & Q2).
    exists (w1 ++ w2). split; [eapply advance_app; eassumption|].
    rewrite forallb_app, Q1, Q2. reflexivity.
  - destruct C as [Ca Cb]. destruct H as [H|H]; eauto.
  - destruct H as (n & _ & _ & H).
    apply (iter_advance (sem body) (fun w => forallb Q w = true)) in H; auto.
    intros w1 w2 Q1 Q2. rewrite forallb_app, Q1, Q2. reflexivity.
  - destruct H as (c2 & H & ->). apply (IH C) in H as (w & A & Qw). exists w. auto.
  - destruct C.
Qed.

(** *** The scan of [finditer] *)

(** Every span [finditer] returns is a success of the matcher somewhere
    in the text: its value is the text the match moved over, its start
    the length of the text before it, its end the start plus the length
    of the value. *)
Lemma scan_spec r fuel :
  forall bef aft pos v s e,
    pos = length bef ->
    In (v, s, e) (scan fuel r bef aft pos) ->
    exists bef' aft' c',
      rev bef' ++ aft' = rev bef ++ aft
      /\ s = length bef'
      /\ run r (Cursor bef' aft' []) Some = Some c'
      /\ v = str (consumed (Cursor bef' aft' []) c')
      /\ e = s + length (consumed (Cursor bef' aft' []) c').
Proof.
  induction fuel as [|fuel IH]; intros bef aft pos v s e Hpos H; simpl in H;
    [destruct H|].
  assert (Next : forall x rest,
             aft = x :: rest ->
             In (v, s, e) (scan fuel r (x :: bef) rest (S pos)) ->
             exists bef' aft' c',
               rev bef' ++ aft' = rev bef ++ aft
               /\ s = length bef'
               /\ run r (Cursor bef' aft' []) Some = Some c'
               /\ v = str (consumed (Cursor bef' aft' []) c')
               /\ e = s + length (consumed (Cursor bef' aft' []) c')).
  { intros x rest -> Hin. apply IH in Hin; [|simpl; lia].
    destruct Hin as (b' & a' & c' & E & R). exists b', a', c'.
    split; [|exact R]. rewrite E. simpl. rewrite <- app_assoc. reflexivity. }
  destruct (run r (Cursor bef aft []) Some) as [c'|] eqn:R.
  - destruct H as [H|H].
    + injection H as <- <- <-. exists bef, aft, c'. subst pos. auto.
    + destruct (run_sound r _ _ _ R) as (c1 & Hs & Hk). injection Hk as ->.
      destruct (sem_advance r _ _ Hs) as (w & A).
      rewrite (advance_consumed _ _ _ A) in H.
      destruct A as [A B]. simpl in A, B.
      destruct (length w) eqn:L.
      * destruct aft as [|x rest]; [destruct H|]. eapply Next; eauto.
      * apply IH in H.
        -- destruct H as (b' & a' & c2 & E & R2). exists b', a', c2.
           split; [|exact R2]. rewrite E, B, A, rev_app_distr, rev_involutive.
           rewrite <- app_assoc. reflexivity.
        -- rewrite B, length_app, length_rev. lia.
  - destruct aft as [|x rest]; [destruct H|]. eapply Next; eauto.
Qed.

Lemma finditer_spec r text v s e :
  In (v, s, e) (finditer r text) ->
  exists bef aft c',
    rev bef ++ aft = chars text
    /\ s = length bef
    /\ run r (Cursor bef aft []) Some = Some c'
    /\ v = str (consumed (Cursor bef aft []) c')
    /\ e = s + length (consumed (Cursor bef aft []) c').
Proof. intros H. apply scan_spec in H; [exact H|reflexivity]. Qed.

(** The value of a span is the text a match of the pattern moved over. *)
Lemma finditer_sem r text v s e :
  In (v, s, e) (finditer r text) ->
  exists bef aft c1 w,
    rev bef ++ aft = chars text
    /\ sem r (Cursor bef aft []) c1
    /\ advance w (Cursor bef aft []) c1
    /\ v = str w /\ s = length bef /\ e = s + length w.
Proof.
  intros H. apply finditer_spec in H as (bef & aft & c' & E & Hs & R & Hv & He).
  destruct (run_sound r _ _ _ R) as (c1 & S1 & Hk). injection Hk as <-.
  destruct (sem_advance r _ _ S1) as (w & A).
  rewrite (advance_consumed _ _ _ A) in Hv, He.
  exists bef, aft, c1, w. repeat split; try assumption; apply A.
Qed.

End ReProps.
(** ** The candidates of the detector *)

Module CandidateProps.
Import PyStr Re ReSem ReProps Patterns Detector Validators.
Import ValidatorProps PanProps PanCheckDigit DetectorProps.
Local Open Scope list_scope.

Lemma advance_inj w w' c c1 : advance w c c1 -> advance w' c c1 -> w = w'.
Proof.
  intros [A _] [A' _]. rewrite A in A'. apply app_inv_tail in A'. exact A'.
Qed.

Lemma filter_all {A} (f : A -> bool) l : forallb f l = true -> List.filter f l = l.
Proof.
  induction l as [|x l IH]; simpl; [reflexivity|].
  intros H. apply andb_true_iff in H as [-> H]. f_equal. auto.
Qed.

Lemma filter_none {A} (f : A -> bool) l :
  forallb (fun x => negb (f x)) l = true -> List.filter f l = [].
Proof.
  induction l as [|x l IH]; simpl; [reflexivity|].
  intros H. apply andb_true_iff in H as [Hx H].
  apply negb_true_iff in Hx. rewrite Hx. auto.
Qed.

(** [n] turns of a class are [n] characters of the class; the groups
    stay as they are. *)
Lemma iter_cls p n :
  forall c c1, iter (sem (Cls p)) n c c1 ->
    exists w, length w = n /\ forallb p w = true /\ advance w c c1
              /\ caps c1 = caps c.
Proof.
  induction n as [|n IH]; intros c c1 H; simpl in H.
  - subst. exists []. repeat split.
  - destruct H as (c2 & (x & rest & E & P & ->) & H).
    apply IH in H as (w & L & F & [A B] & C). simpl in A, B, C.
    exists (x :: w). simpl. rewrite L, P, F. repeat split; auto.
    + simpl. rewrite E, A. reflexivity.
    + simpl. rewrite B, <- app_assoc. reflexivity.
Qed.

Lemma sem_times_cls p n c c1 :
  sem (times n (Cls p)) c c1 ->
  exists w, length w = n /\ forallb p w = true /\ advance w c c1
            /\ caps c1 = caps c.
Proof.
  intros (m & H1 & H2 & H). assert (m = n) by lia. subst m.
  apply iter_cls, H.
Qed.

(** Every candidate of the detector is a span of the pattern of its type,
    one of the five of [patterns]. *)
Lemma detect_pii_match text t v :
  In (t, v) (detect_pii text) ->
  exists pattern s e,
    In (t, pattern) patterns
    /\ In (v, s, e) (finditer pattern (default "" text)).
Proof.
  intros H. apply detect_pii_survivor in H as (x & <- & <- & Hin & _).
  unfold collect in Hin. apply in_flat_map in Hin as ([ty pat] & Hp & Hin).
  apply in_map_iff in Hin as ([[v s] e] & <- & Hin).
  exists pat, s, e. auto.
Qed.

Lemma pattern_of t pattern :
  In (t, pattern) patterns ->
  (t = "aadhaar" /\ pattern = re_aadhaar)
  \/ (t = "pan" /\ pattern = re_pan)
  \/ (t = "credit_card" /\ pattern = re_credit_card)
  \/ (t = "email" /\ pattern = re_email)
  \/ (t = "phone" /\ pattern = re_phone).
Proof.
  simpl. intros [H|[H|[H|[H|[H|[]]]]]]; injection H as <- <-; tauto.
Qed.

(** A candidate of a type is the text a match of the pattern of the type
    moved over. *)
Lemma candidate_sem text t v pattern :
  In (t, v) (detect_pii text) ->
  In (t, pattern) patterns ->
  (forall p', In (t, p') patterns -> p' = pattern) ->
  exists c c1 w, caps c = [] /\ sem pattern c c1 /\ advance w c c1 /\ v = str w.
Proof.
  intros H _ U. apply detect_pii_match in H as (pat & s & e & Hp & Hf).
  apply U in Hp. subst pat.
  apply finditer_sem in Hf as (bef & aft & c1 & w & _ & Hs & A & -> & _).
  exists (Cursor bef aft []), c1, w. auto.
Qed.

Ltac one_pattern :=
  let H := fresh in
  intros ? H; apply pattern_of in H;
  destruct H as [[H ->]|[[H ->]|[[H ->]|[[H ->]|[H ->]]]]];
  try discriminate H; reflexivity.

(** *** Phone *)

Lemma sem_phone c c1 w :
  sem re_phone c c1 -> advance w c c1 ->
  exists x ds, w = x :: ds /\ in_range "6" "9" x = true
               /\ length ds = 9 /\ forallb is_digit ds = true.
Proof.
  intros H A. unfold re_phone in H. cbn [chain sem] in H.
  destruct H as (c2 & [_ ->] & c3 & (x & rest & E & P & ->) & c4 & H & [_ ->]).
  apply sem_times_cls in H as (ds & L & F & A' & _).
  assert (A1 : advance [x] c (Cursor (x :: before c) rest (caps c))).
  { split; simpl; auto. }
  pose proof (advance_app _ _ _ _ _ A1 A') as A2.
  rewrite (advance_inj _ _ _ _ A A2). simpl. eauto 10.
Qed.

Lemma length9 {A} (l : list A) : length l = 9 ->
  exists c1 c2 c3 c4 c5 c6 c7 c8 c9, l = [c1;c2;c3;c4;c5;c6;c7;c8;c9].
Proof.
  intros H. do 9 (destruct l as [|? l]; [discriminate|]).
  destruct l; [|discriminate]. do 9 eexists. reflexivity.
Qed.

Lemma six_to_nine_digit x : in_range "6" "9" x = true -> is_digit x = true.
Proof.
  destruct x as [[] [] [] [] [] [] [] []]; vm_compute; intros H;
    try discriminate H; reflexivity.
Qed.

Section Checksums.
Variables luhn_check verhoeff_check : string -> bool.

(** In an ASCII text every phone candidate of the detector is ten
    digits, the first from 6 to 9, and [is_valid_pii] accepts it: there
    the validator never rejects a phone the detector found.  (Outside
    ASCII the pattern's [\d] matches digits that the validator's [[0-9]]
    does not, and the validator rejects such a candidate.) *)
Theorem phone_candidates_valid (text : option string) (v : string) :
  isascii (default "" text) = true ->
  In ("phone", v) (detect_pii text) ->
  len v = 10
  /\ forallb is_digit (chars v) = true
  /\ is_valid_pii luhn_check verhoeff_check "phone" (VStr v) = Ok true.
Proof.
  intros _ H.
  apply (candidate_sem _ _ _ re_phone) in H as (c & c1 & w & _ & Hs & A & ->);
    [|simpl; tauto|one_pattern].
  destruct (sem_phone _ _ _ Hs A) as (x & ds & -> & Px & L & F).
  pose proof (six_to_nine_digit x Px) as Dx.
  assert (D : forallb is_digit (x :: ds) = true) by (simpl; rewrite Dx, F; reflexivity).
  unfold len. rewrite chars_str. split; [simpl; lia|]. split; [exact D|].
  unfold is_valid_pii. change (mapped_type "phone") with "phone".
  cbn [String.eqb Ascii.eqb Bool.eqb _normalize_match_value VStr py_str].
  f_equal. unfold digits_only. rewrite chars_str, (filter_all _ _ D).
  unfold fullmatch. rewrite chars_str.
  apply length9 in L as (d1&d2&d3&d4&d5&d6&d7&d8&d9&->).
  cbn -[in_range is_digit]. rewrite Px.
  cbn [forallb] in F.
  repeat (apply andb_true_iff in F as [? F]).
  repeat match goal with
         | Hd : is_digit ?d = true |- _ => rewrite Hd; clear Hd
         end.
  reflexivity.
Qed.

End Checksums.

Lemma phone_candidates_valid_witness :
  isascii "call 9876543210 now" = true
  /\ In ("phone", "9876543210") (detect_pii (Some "call 9876543210 now"))
  /\ is_valid_pii Algorithms.luhn_check Algorithms.verhoeff_check "phone"
       (VStr "9876543210") = Ok true.
Proof.
  assert (A : isascii (default "" (Some "call 9876543210 now")) = true)
    by reflexivity.
  assert (H : In ("phone", "9876543210") (detect_pii (Some "call 9876543210 now"))).
  { vm_compute. left. reflexivity. }
  split; [exact A|]. split; [exact H|].
  exact (proj2 (proj2 (phone_candidates_valid Algorithms.luhn_check
                         Algorithms.verhoeff_check _ _ A H))).
Defined.

End CandidateProps.
Module PanCandidates.
Import PyStr Re ReSem ReProps Patterns Detector Validators Masking Deidentifier.
Import ValidatorProps PanProps PanCheckDigit CandidateProps.
Local Open Scope list_scope.

Lemma sem_pan c c1 w :
  sem re_pan c c1 -> advance w c c1 ->
  exists c0 c1 c2 c3 c4 c5 c6 c7 c8 c9,
    w = [c0;c1;c2;c3;c4;c5;c6;c7;c8;c9]
    /\ Forall (fun c => is_upper c = true) [c0;c1;c2;c3;c4;c9]
    /\ Forall (fun c => is_digit c = true) [c5;c6;c7;c8].
Proof.
  intros H A. unfold re_pan in H. cbn [chain sem] in H.
  destruct H as (k1 & [_ ->] & k2 & H1 & k3 & H2 & k4 & H3 & [_ ->]).
  apply sem_times_cls in H1 as (w1 & L1 & F1 & A1 & _).
  apply sem_times_cls in H2 as (w2 & L2 & F2 & A2 & _).
  apply sem_times_cls in H3 as (w3 & L3 & F3 & A3 & _).
  pose proof (advance_app _ _ _ _ _ A1 (advance_app _ _ _ _ _ A2 A3)) as A'.
  rewrite (advance_inj _ _ _ _ A A').
  do 5 (destruct w1 as [|? w1]; [discriminate|]). destruct w1; [|discriminate].
  do 4 (destruct w2 as [|? w2]; [discriminate|]). destruct w2; [|discriminate].
  destruct w3 as [|? w3]; [discriminate|]. destruct w3; [|discriminate].
  cbn [forallb] in F1, F2, F3.
  repeat match goal with
         | H : _ && _ = true |- _ => apply andb_true_iff in H as [? H]
         end.
  do 10 eexists. split; [reflexivity|]. split; repeat constructor; assumption.
Qed.

Section Checksums.
Variables luhn_check verhoeff_check : string -> bool.

(** Every pan candidate of the detector is ten characters of the PAN
    shape, so [is_valid_pii] decides it by the entity code and the check
    letter alone, and [mask_pii] masks it. *)
Theorem pan_candidates_shape (text : option string) (v : string) :
  In ("pan", v) (detect_pii text) ->
  len v = 10
  /\ matches re_pan_shape v = true
  /\ is_valid_pii luhn_check verhoeff_check "pan" (VStr v)
     = Ok (char_in "ABCFGHLJPT" (nth 3 (chars v) "A"%char)
           && Ascii.eqb (tenth v)
                (check_letter tens_plus_unit (firstn 9 (chars v))))
  /\ mask_pii "pan" v = (prefix 5 v ++ "****" ++ suffix 1 v)%string.
Proof.
  intros H.
  apply (candidate_sem _ _ _ re_pan) in H as (c & c1 & w & _ & Hs & A & ->);
    [|simpl; tauto|one_pattern].
  destruct (sem_pan _ _ _ Hs A)
    as (c0&k1&c2&c3&c4&c5&c6&c7&c8&c9&->&HU&HD).
  assert (M : matches re_pan_shape (str [c0;k1;c2;c3;c4;c5;c6;c7;c8;c9]) = true).
  { unfold matches. rewrite chars_str. cbn -[is_upper is_digit].
    repeat match goal with
           | H : Forall _ (_ :: _) |- _ => inversion H; clear H; subst
           end.
    repeat match goal with
           | H : _ = true |- _ => rewrite H; clear H
           end.
    reflexivity. }
  split; [unfold len; rewrite chars_str; reflexivity|]. split; [exact M|].
  split.
  - unfold is_valid_pii. change (mapped_type "pan") with "pan".
    cbn [String.eqb Ascii.eqb Bool.eqb _normalize_match_value VStr py_str].
    rewrite validate_pan_unfold.
    match goal with
    | |- context [String.eqb ?s ""] => change (String.eqb s "") with false
    end.
    cbv iota.
    assert (E : upper (strip (str [c0;k1;c2;c3;c4;c5;c6;c7;c8;c9]))
                = str [c0;k1;c2;c3;c4;c5;c6;c7;c8;c9]).
    { pose proof HU as HU'. pose proof HD as HD'.
      repeat match goal with
             | H : Forall _ (_ :: _) |- _ => inversion H; clear H; subst
             | H : Forall _ [] |- _ => clear H
             end.
      unfold strip. rewrite chars_str. unfold strip_chars.
      rewrite lstrip_cons.
      destruct (upper_facts c0 ltac:(assumption)) as (_ & _ & U0 & ->).
      cbn [rev app]. rewrite lstrip_cons.
      destruct (upper_facts c9 ltac:(assumption)) as (_ & _ & U9 & ->).
      cbn [rev app]. unfold upper. rewrite chars_str. cbn [map].
      repeat match goal with
             | H : is_upper ?x = true |- _ =>
                 destruct (upper_facts x H) as (_ & _ & -> & _); clear H
             | H : is_digit ?x = true |- _ =>
                 destruct (digit_facts x H) as (_ & _ & ->); clear H
             end.
      reflexivity. }
    rewrite E, (pan_rules_shape _ _ _ _ _ _ _ _ _ _ None HU HD).
    unfold tenth. rewrite chars_str. cbn [nth firstn surname_agrees mbind res_bind].
    destruct (char_in "ABCFGHLJPT" c3); reflexivity.
  - unfold mask_pii. change (mapped_type "pan") with "pan".
    cbn [String.eqb Ascii.eqb Bool.eqb].
    unfold mask_pan, len. rewrite chars_str. reflexivity.
Qed.

End Checksums.

Lemma pan_candidates_shape_witness :
  In ("pan", "ABCPE1234A") (detect_pii (Some "PAN: ABCPE1234A."))
  /\ mask_pii "pan" "ABCPE1234A" = "ABCPE****A"
  /\ is_valid_pii Algorithms.luhn_check Algorithms.verhoeff_check "pan"
       (VStr "ABCPE1234A") = Ok true.
Proof.
  assert (H : In ("pan", "ABCPE1234A") (detect_pii (Some "PAN: ABCPE1234A."))).
  { vm_compute. left. reflexivity. }
  destruct (pan_candidates_shape Algorithms.luhn_check Algorithms.verhoeff_check
              _ _ H) as (_ & _ & V & M).
  split; [exact H|]. split; [exact M|exact V].
Defined.

End PanCandidates.

Module CardCandidates.
Import PyStr Re ReSem ReProps Patterns Detector Validators Masking Deidentifier.
Import ValidatorProps CandidateProps CandidateChars.
Local Open Scope list_scope.

Lemma separator_not_digit x : char_in " -" x = true -> is_digit x = false.
Proof.
  destruct x as [[] [] [] [] [] [] [] []]; vm_compute; intros H;
    try discriminate H; reflexivity.
Qed.

(** One turn of [\d[ -]*?] is a digit and separators after it. *)
Lemma sem_card_turn c c1 :
  sem (Seq d (lazy_star (Cls (char_in " -")))) c c1 ->
  exists w, advance w c c1
            /\ length (List.filter is_digit w) = 1
            /\ forallb card_char w = true.
Proof.
  cbn [sem d lazy_star]. intros (c2 & (x & rest & E & P & ->) & n & _ & _ & H).
  apply iter_cls in H as (ss & _ & F & A & _).
  exists (x :: ss). split.
  - change (x :: ss) with ([x] ++ ss). eapply advance_app; [|exact A].
    split; simpl; auto.
  - assert (N : forallb (fun y => negb (is_digit y)) ss = true).
    { apply forallb_forall. intros y Hy.
      rewrite forallb_forall in F. rewrite (separator_not_digit y (F y Hy)).
      reflexivity. }
    simpl. change (Cls is_digit) with d in *.
    rewrite P, (filter_none _ _ N). split; [reflexivity|].
    unfold card_char at 1. rewrite P. simpl.
    apply forallb_forall. intros y Hy. rewrite forallb_forall in F.
    unfold card_char. rewrite (F y Hy). apply orb_true_r.
Qed.

Lemma iter_card_turns n :
  forall c c1,
    iter (sem (Seq d (lazy_star (Cls (char_in " -"))))) n c c1 ->
    exists w, advance w c c1
              /\ length (List.filter is_digit w) = n
              /\ forallb card_char w = true.
Proof.
  induction n as [|n IH]; intros c c1 H.
  - simpl in H. subst. exists []. repeat split.
  - destruct H as (c2 & H1 & H2).
    apply sem_card_turn in H1 as (w1 & A1 & L1 & F1).
    apply IH in H2 as (w2 & A2 & L2 & F2).
    exists (w1 ++ w2). split; [eapply advance_app; eassumption|].
    rewrite List.filter_app, length_app, forallb_app, L1, L2, F1, F2. auto.
Qed.

Lemma sem_card c c1 w :
  sem re_credit_card c c1 -> advance w c c1 ->
  13 <= length (List.filter is_digit w) <= 19 /\ forallb card_char w = true.
Proof.
  intros H A. unfold re_credit_card in H. cbn [chain] in H.
  destruct H as (k1 & [_ ->] & k2 & (n & H1 & H2 & H) & [_ ->]).
  apply iter_card_turns in H as (w' & A' & L & F).
  rewrite (advance_inj _ _ _ _ A A'), L. split; [simpl in H2; lia|exact F].
Qed.

(* the spans of the credit card pattern all pass the guard *)
Lemma card_guard_keeps_all (text : string) :
  List.filter not_twelve_digit_card (collect text) = collect text.
Proof.
  apply filter_all, forallb_forall. intros x Hin.
  unfold collect in Hin. apply in_flat_map in Hin as ([ty pat] & Hp & Hin).
  apply in_map_iff in Hin as ([[v s] e] & <- & Hin).
  unfold not_twelve_digit_card, sr_type, sr_value. cbn [fst snd].
  destruct (String.eqb_spec ty "credit_card") as [->|]; [|reflexivity].
  assert (pat = re_credit_card) as ->.
  { apply pattern_of in Hp.
    destruct Hp as [[H ->]|[[H ->]|[[H ->]|[[H ->]|[H ->]]]]];
      try discriminate H; reflexivity. }
  apply finditer_sem in Hin as (bef & aft & c1 & w & _ & Hs & A & -> & _).
  destruct (sem_card _ _ _ Hs A) as [L _].
  unfold digits_only, len. rewrite !chars_str.
  destruct (Nat.eqb_spec (length (List.filter is_digit w)) 12); [lia|reflexivity].
Qed.

(** Every span the credit card pattern finds has from 13 to 19 digits:
    the guard of [detect_pii] against a credit card of exactly 12 digits
    never discards anything. *)
Theorem twelve_digit_guard_never_fires (text : string) :
  List.filter not_twelve_digit_card (collect text) = collect text.
Proof. exact (card_guard_keeps_all text). Qed.

Section Checksums.
Variables luhn_check verhoeff_check : string -> bool.

(** In an ASCII text every credit card candidate of the detector is
    made of digits, blanks and dashes and has from 13 to 19 digits; so
    [is_valid_pii] answers what [luhn_check] answers, and [mask_pii]
    always masks it down to its last four digits.  (Outside ASCII the
    pattern's [\d] matches digits that the [[^0-9]] of [mask_credit_card]
    removes, and such a candidate can come back unmasked.) *)
Theorem card_candidates_digits (text : option string) (v : string) :
  isascii (default "" text) = true ->
  In ("credit_card", v) (detect_pii text) ->
  13 <= len (digits_only v) <= 19
  /\ forallb card_char (chars v) = true
  /\ is_valid_pii luhn_check verhoeff_check "credit_card" (VStr v)
     = Ok (luhn_check v)
  /\ mask_pii "credit_card" v
     = ("XXXX-XXXX-XXXX-" ++ suffix 4 (digits_only v))%string.
Proof.
  intros _ H.
  apply (candidate_sem _ _ _ re_credit_card) in H as (c & c1 & w & _ & Hs & A & ->);
    [|simpl; tauto|one_pattern].
  destruct (sem_card _ _ _ Hs A) as [L F].
  assert (L' : 13 <= len (digits_only (str w)) <= 19).
  { unfold digits_only, len. rewrite !chars_str. exact L. }
  split; [exact L'|]. split; [rewrite chars_str; exact F|]. split.
  - unfold is_valid_pii. change (mapped_type "credit_card") with "credit_card".
    cbn [String.eqb Ascii.eqb Bool.eqb _normalize_match_value VStr py_str].
    destruct L' as [La Lb].
    apply Nat.leb_le in La, Lb. rewrite La, Lb. reflexivity.
  - unfold mask_pii. change (mapped_type "credit_card") with "credit_card".
    cbn [String.eqb Ascii.eqb Bool.eqb]. unfold mask_credit_card.
    destruct (Nat.ltb_spec (len (digits_only (str w))) 13); [lia|reflexivity].
Qed.

End Checksums.

Lemma card_candidates_digits_witness :
  isascii "card 4532-0151-1283-0366" = true
  /\ In ("credit_card", "4532-0151-1283-0366")
       (detect_pii (Some "card 4532-0151-1283-0366"))
  /\ mask_pii "credit_card" "4532-0151-1283-0366" = "XXXX-XXXX-XXXX-0366".
Proof.
  assert (A : isascii (default "" (Some "card 4532-0151-1283-0366")) = true)
    by reflexivity.
  assert (H : In ("credit_card", "4532-0151-1283-0366")
                (detect_pii (Some "card 4532-0151-1283-0366"))).
  { vm_compute. left. reflexivity. }
  split; [exact A|]. split; [exact H|].
  exact (proj2 (proj2 (proj2 (card_candidates_digits Algorithms.luhn_check
                                Algorithms.verhoeff_check _ _ A H)))).
Defined.

End CardCandidates.
Module AadhaarCandidates.
Import PyStr Re ReSem ReProps Patterns Detector Validators Masking Deidentifier.
Import ValidatorProps CandidateProps.
Local Open Scope list_scope.

Lemma aadhaar_separator_not_digit s :
  (Ascii.eqb s "-" || is_space s) = true -> is_digit s = false.
Proof.
  destruct s as [[] [] [] [] [] [] [] []]; vm_compute; intros H;
    try discriminate H; reflexivity.
Qed.

Lemma advance_recap w c c1 caps' :
  advance w c c1 -> advance w c (Cursor (before c1) (after c1) caps').
Proof. intros [A B]. split; simpl; assumption. Qed.

Lemma advance_from_recap w c c1 caps' :
  advance w (Cursor (before c) (after c) caps') c1 -> advance w c c1.
Proof. intros [A B]. split; simpl in *; assumption. Qed.

(** The two forms of an Aadhaar span: twelve digits, or three groups of
    four digits with the same separator twice. *)
Lemma sem_aadhaar c c1 w :
  sem re_aadhaar c c1 -> advance w c c1 ->
  exists a b e,
    length a = 4 /\ length b = 4 /\ length e = 4
    /\ forallb is_digit (a ++ b ++ e) = true
    /\ (w = a ++ b ++ e
        \/ exists s, (Ascii.eqb s "-" || is_space s) = true
                     /\ w = a ++ s :: b ++ s :: e).
Proof.
  intros H A. unfold re_aadhaar in H. cbn [chain] in H.
  destruct H as (k1 & [_ ->] & k2 & H & [_ ->]).
  destruct H as [H|H].
  - apply sem_times_cls in H as (w' & L & F & A' & _).
    rewrite (advance_inj _ _ _ _ A A').
    do 12 (destruct w' as [|? w']; [discriminate|]). destruct w'; [|discriminate].
    eexists [_;_;_;_], [_;_;_;_], [_;_;_;_].
    repeat split; [exact F|]. left. reflexivity.
  - destruct H as (g1 & (k0 & H1 & ->) & g2 & (k0' & H2 & ->) & k3 & H3 & k4 & H4 & H5).
    apply sem_times_cls in H1 as (a & La & Fa & Aa & _).
    destruct H2 as (s & rest & E & Ps & ->). cbn [before after caps] in *.
    apply sem_times_cls in H3 as (b & Lb & Fb & Ab & Cb). cbn [caps] in Cb.
    destruct H4 as (w4 & rest4 & Hcap & Hpre & ->).
    rewrite Cb in Hcap. cbn [cap_lookup Nat.eqb] in Hcap.
    assert (As : advance [s] (Cursor (before k0) (after k0)
                                ((1, consumed c k0) :: caps k0))
                   (Cursor (s :: before k0) rest
                      ((2, consumed (Cursor (before k0) (after k0)
                                       ((1, consumed c k0) :: caps k0))
                             (Cursor (s :: before k0) rest
                                ((1, consumed c k0) :: caps k0)))
                       :: (1, consumed c k0) :: caps k0))).
    { split; simpl; auto. }
    assert (Ew : w4 = [s]).
    { injection Hcap as <-. apply advance_consumed. split; simpl; auto. }
    subst w4. apply is_prefix_app in Hpre.
    apply sem_times_cls in H5 as (e & Le & Fe & Ae & _).
    assert (A4 : advance [s] k3 (Cursor (rev [s] ++ before k3) rest4 (caps k3))).
    { split; simpl; auto. }
    pose proof (advance_app _ _ _ _ _
                  (advance_recap _ _ _ ((1, consumed c k0) :: caps k0) Aa)
                  (advance_app _ _ _ _ _ As
                     (advance_app _ _ _ _ _ Ab
                        (advance_app _ _ _ _ _ A4 Ae)))) as A'.
    rewrite (advance_inj _ _ _ _ A A').
    exists a, b, e. repeat split; auto.
    + rewrite !forallb_app, Fa, Fb, Fe. reflexivity.
    + right. exists s. split; [exact Ps|]. simpl. reflexivity.
Qed.

Section Checksums.
Variables luhn_check verhoeff_check : string -> bool.

(** Every aadhaar candidate of the detector has exactly twelve digits.
    So [mask_pii] always masks it, to its first four digits, ["-XXXX-"]
    and its last four digits, and [is_valid_pii] decides it by its first
    digit and [verhoeff_check]. *)
Theorem aadhaar_candidates_twelve_digits (text : option string) (v : string) :
  In ("aadhaar", v) (detect_pii text) ->
  len (digits_only v) = 12
  /\ mask_pii "aadhaar" v
     = (prefix 4 (digits_only v) ++ "-XXXX-" ++ suffix 4 (digits_only v))%string
  /\ is_valid_pii luhn_check verhoeff_check "aadhaar" (VStr v)
     = Ok (char_in "23456789" (nth 0 (chars (digits_only v)) "0"%char)
           && verhoeff_check (digits_only v)).
Proof.
  intros H.
  apply (candidate_sem _ _ _ re_aadhaar) in H as (c & c1 & w & _ & Hs & A & ->);
    [|simpl; tauto|one_pattern].
  destruct (sem_aadhaar _ _ _ Hs A) as (a & b & e & La & Lb & Le & F & Hw).
  do 4 (destruct a as [|? a]; [discriminate|]). destruct a; [|discriminate].
  do 4 (destruct b as [|? b]; [discriminate|]). destruct b; [|discriminate].
  do 4 (destruct e as [|? e]; [discriminate|]). destruct e; [|discriminate].
  cbn [forallb app] in F.
  repeat match goal with
         | H : _ && _ = true |- _ => apply andb_true_iff in H as [? H]
         end.
  unfold is_valid_pii, mask_pii. change (mapped_type "aadhaar") with "aadhaar".
  cbn [String.eqb Ascii.eqb Bool.eqb _normalize_match_value VStr py_str].
  unfold mask_aadhaar.
  destruct Hw as [->|(s & Ps & ->)];
    [|pose proof (aadhaar_separator_not_digit s Ps) as Ds];
    unfold digits_only, len, index, prefix, suffix, len; rewrite !chars_str;
    cbn [app List.filter];
    repeat match goal with
           | H : is_digit ?x = true |- _ => rewrite H
           end;
    rewrite ?Ds; rewrite ?chars_str;
    cbn [length Nat.eqb Nat.sub skipn firstn nth nth_error andb];
    repeat split.
Qed.

End Checksums.

Lemma aadhaar_candidates_twelve_digits_witness :
  In ("aadhaar", "2341 2341 2346") (detect_pii (Some "id 2341 2341 2346"))
  /\ mask_pii "aadhaar" "2341 2341 2346" = "2341-XXXX-2346".
Proof.
  assert (H : In ("aadhaar", "2341 2341 2346") (detect_pii (Some "id 2341 2341 2346"))).
  { vm_compute. left. reflexivity. }
  split; [exact H|].
  exact (proj1 (proj2 (aadhaar_candidates_twelve_digits Algorithms.luhn_check
                         Algorithms.verhoeff_check _ _ H))).
Defined.

End AadhaarCandidates.
Module EmailCandidates.
Import PyStr Re ReSem ReProps Patterns Detector Validators Masking Deidentifier.
Import Pseudonymization ValidatorProps PanProps CandidateProps CandidateChars.
Local Open Scope list_scope.

Lemma email_local_char x :
  (is_alnum x || char_in ".!#$%&'*+/=?^_`{|}~-" x) = true -> email_char x = true.
Proof.
  destruct x as [[] [] [] [] [] [] [] []]; vm_compute; intros H;
    try discriminate H; reflexivity.
Qed.

Lemma email_domain_char x :
  (is_alnum x || Ascii.eqb x "-" || Ascii.eqb "." x) = true -> email_char x = true.
Proof.
  destruct x as [[] [] [] [] [] [] [] []]; vm_compute; intros H;
    try discriminate H; reflexivity.
Qed.

Lemma lstrip_no_blank l :
  forallb (fun x => negb (is_space x)) l = true -> lstrip_chars l = l.
Proof.
  destruct l as [|x l]; simpl; [reflexivity|].
  intros F. apply andb_true_iff in F as [Fx _].
  apply negb_true_iff in Fx. rewrite Fx. reflexivity.
Qed.

Lemma strip_no_blank l :
  forallb (fun x => negb (is_space x)) l = true -> strip_chars l = l.
Proof.
  intros F. unfold strip_chars. rewrite (lstrip_no_blank l F).
  rewrite lstrip_no_blank; [apply rev_involutive|].
  apply forallb_forall. intros x Hx. apply in_rev in Hx.
  rewrite forallb_forall in F. auto.
Qed.

Lemma email_char_split x :
  email_char x = true -> negb (Ascii.eqb x "@") = true /\ negb (is_space x) = true.
Proof. unfold email_char. intros H. apply andb_true_iff in H. exact H. Qed.

(** An email span is a local part and a domain, both free of at signs
    and blanks, with one at sign between them. *)
Lemma sem_email c c1 w :
  sem re_email c c1 -> advance w c c1 ->
  exists u dm, w = u ++ "@"%char :: dm
               /\ forallb email_char u = true /\ forallb email_char dm = true.
Proof.
  intros H A. unfold re_email in H. cbn [chain] in H.
  destruct H as (k1 & [_ ->] & k2 & H1 & k3 & (x & rest & E & Px & ->) & H2).
  apply Ascii.eqb_eq in Px. subst x.
  apply (sem_chars email_char) in H1 as (u & Au & Fu);
    [|exact email_local_char].
  change (sem (Seq re_label
                 (Seq (star (Seq (Cls (Ascii.eqb ".")) re_label)) WordB))
            (Cursor ("@"%char :: before k2) rest (caps k2)) c1) in H2.
  apply (sem_chars email_char) in H2 as (dm & Ad & Fd).
  - exists u, dm. split; [|auto].
    assert (Aat : advance ["@"%char] k2
                    (Cursor ("@"%char :: before k2) rest (caps k2))).
    { split; simpl; auto. }
    pose proof (advance_app _ _ _ _ _ Au (advance_app _ _ _ _ _ Aat Ad)) as A'.
    exact (advance_inj _ _ _ _ A A').
  - cbn [classes_in re_label opt star alnum alnum_dash].
    repeat split; intros y Hy; apply email_domain_char;
      rewrite ?Hy, ?orb_true_r; reflexivity.
Qed.

(** Every email candidate of the detector has exactly one at sign and no
    blank: [mask_pii] always masks it (the local part becomes as many
    [x]), and the pseudonym of [pseudo_anonymize_pii] carries its own
    domain, never the fallback. *)
Theorem email_candidates_one_at (text : option string) (v : string) :
  In ("email", v) (detect_pii text) ->
  exists local_part domain : string,
    v = (local_part ++ "@" ++ domain)%string
    /\ split "@" v = [local_part; domain]
    /\ mask_pii "email" v
       = (repeat_char "x" (len local_part) ++ "@" ++ domain)%string
    /\ email_domain v = domain.
Proof.
  intros H.
  apply (candidate_sem _ _ _ re_email) in H as (c & c1 & w & _ & Hs & A & ->);
    [|simpl; tauto|one_pattern].
  destruct (sem_email _ _ _ Hs A) as (u & dm & -> & Fu & Fd).
  assert (Nu : forallb (fun x => negb (Ascii.eqb x "@")) u = true
               /\ forallb (fun x => negb (is_space x)) u = true).
  { split; apply forallb_forall; intros x Hx; rewrite forallb_forall in Fu;
      apply email_char_split; auto. }
  assert (Nd : forallb (fun x => negb (Ascii.eqb x "@")) dm = true
               /\ forallb (fun x => negb (is_space x)) dm = true).
  { split; apply forallb_forall; intros x Hx; rewrite forallb_forall in Fd;
      apply email_char_split; auto. }
  destruct Nu as [Nu Su], Nd as [Nd Sd].
  assert (Sp : split "@" (str (u ++ "@"%char :: dm)) = [str u; str dm]).
  { unfold split. rewrite chars_str, (split_chars_one _ _ _ Nu).
    rewrite (split_chars_none _ _ Nd). reflexivity. }
  exists (str u), (str dm). split; [|split; [exact Sp|split]].
  - rewrite str_app. reflexivity.
  - unfold mask_pii. change (mapped_type "email") with "email".
    cbn [String.eqb Ascii.eqb Bool.eqb]. unfold mask_email. rewrite Sp.
    reflexivity.
  - unfold email_domain, strip. rewrite chars_str, strip_no_blank, Sp; [reflexivity|].
    rewrite forallb_app. simpl. rewrite Su, Sd. reflexivity.
Qed.

Lemma email_candidates_one_at_witness :
  In ("email", "bob.smith@example.co.in")
    (detect_pii (Some "mail bob.smith@example.co.in today"))
  /\ exists local_part domain : string,
       "bob.smith@example.co.in" = (local_part ++ "@" ++ domain)%string
       /\ split "@" "bob.smith@example.co.in" = [local_part; domain]
       /\ mask_pii "email" "bob.smith@example.co.in"
          = (repeat_char "x" (len local_part) ++ "@" ++ domain)%string
       /\ email_domain "bob.smith@example.co.in" = domain.
Proof.
  assert (H : In ("email", "bob.smith@example.co.in")
                (detect_pii (Some "mail bob.smith@example.co.in today"))).
  { vm_compute. left. reflexivity. }
  split; [exact H|]. exact (email_candidates_one_at _ _ H).
Defined.

End EmailCandidates.
(** ** The three rules of the detector *)

Module DetectorRules.
Import PyStr Re ReSem ReProps Patterns Detector.
Import DetectorProps ValidatorProps CandidateProps CandidateChars CardCandidates AadhaarCandidates.
Local Open Scope list_scope.

Example contained_aadhaar_dropped :
  collect "1234-5678-9012-3456"
  = [ ("aadhaar", "5678-9012-3456", 5, 19);
      ("credit_card", "1234-5678-9012-3456", 0, 19) ]
  /\ detect_pii (Some "1234-5678-9012-3456")
     = [("credit_card", "1234-5678-9012-3456")].
Proof. vm_compute. split; reflexivity. Qed.

Lemma collect_pattern text x :
  In x (collect text) ->
  exists pattern,
    In (sr_type x, pattern) patterns
    /\ In (sr_value x, sr_start x, sr_end x) (finditer pattern text).
Proof.
  unfold collect. intros Hin. apply in_flat_map in Hin as ([ty pat] & Hp & Hin).
  apply in_map_iff in Hin as ([[v s] e] & <- & Hin). exists pat. auto.
Qed.

Lemma collect_card_digits text x :
  In x (collect text) -> sr_type x = "credit_card" ->
  13 <= len (digits_only (sr_value x)) <= 19.
Proof.
  intros Hin Ht. apply collect_pattern in Hin as (pat & Hp & Hf).
  rewrite Ht in Hp. assert (pat = re_credit_card) as ->.
  { apply pattern_of in Hp.
    destruct Hp as [[H ->]|[[H ->]|[[H ->]|[[H ->]|[H ->]]]]];
      try discriminate H; reflexivity. }
  apply finditer_sem in Hf as (bef & aft & c1 & w & _ & Hs & A & -> & _).
  destruct (sem_card _ _ _ Hs A) as [L _].
  unfold digits_only, len. rewrite !chars_str. exact L.
Qed.

Lemma collect_aadhaar_digits text x :
  In x (collect text) -> sr_type x = "aadhaar" ->
  len (digits_only (sr_value x)) = 12.
Proof.
  intros Hin Ht. apply collect_pattern in Hin as (pat & Hp & Hf).
  rewrite Ht in Hp. assert (pat = re_aadhaar) as ->.
  { apply pattern_of in Hp.
    destruct Hp as [[H ->]|[[H ->]|[[H ->]|[[H ->]|[H ->]]]]];
      try discriminate H; reflexivity. }
  apply finditer_sem in Hf as (bef & aft & c1 & w & _ & Hs & A & -> & _).
  destruct (sem_aadhaar _ _ _ Hs A) as (a & b & e & La & Lb & Le & F & Hw).
  unfold digits_only, len. rewrite !chars_str.
  rewrite !forallb_app in F.
  apply andb_true_iff in F as [Fa F]. apply andb_true_iff in F as [Fb Fe].
  destruct Hw as [->|(s & Ps & ->)].
  - rewrite !List.filter_app, !filter_all, !length_app by assumption. lia.
  - pose proof (aadhaar_separator_not_digit s Ps) as Ds.
    rewrite List.filter_app. simpl. rewrite Ds, List.filter_app. simpl. rewrite Ds.
    rewrite !filter_all, !length_app by assumption. lia.
Qed.

(** The types [values_by_type] records for a string are the types of the
    spans with that string. *)
Lemma values_by_type_elem l :
  forall (m : gmap string (gset string)) v t,
    t ∈ default ∅ (fold_left add_type l m !! v) ->
    t ∈ default ∅ (m !! v)
    \/ exists x, In x l /\ sr_type x = t /\ sr_value x = v.
Proof.
  induction l as [|y l IH]; intros m v t H; simpl in H; [auto|].
  apply IH in H as [H|(x & Hin & Ht & Hv)].
  - unfold add_type in H.
    destruct (decide (sr_value y = v)) as [E|N].
    + rewrite E, lookup_insert_eq in H. simpl in H.
      apply elem_of_union in H as [H|H]; [auto|].
      apply elem_of_singleton in H. right. exists y. simpl. auto.
    + rewrite lookup_insert_ne in H by exact N. auto.
  - right. exists x. simpl. auto.
Qed.

(** No string is a credit card candidate and an aadhaar candidate: the
    one has from 13 to 19 digits, the other 12. *)
Theorem card_and_aadhaar_values_disjoint (text text' : option string) (v : string) :
  In ("credit_card", v) (detect_pii text) ->
  ~ In ("aadhaar", v) (detect_pii text').
Proof.
  intros Hc Ha.
  apply detect_pii_survivor in Hc as (x & Tx & Vx & Hx & _).
  apply detect_pii_survivor in Ha as (y & Ty & Vy & Hy & _).
  pose proof (collect_card_digits _ _ Hx Tx) as L.
  pose proof (collect_aadhaar_digits _ _ Hy Ty) as L'.
  rewrite Vx in L. rewrite Vy in L'. lia.
Qed.

Lemma card_and_aadhaar_values_disjoint_witness :
  In ("credit_card", "1234-5678-9012-3456") (detect_pii (Some "1234-5678-9012-3456"))
  /\ ~ In ("aadhaar", "1234-5678-9012-3456") (detect_pii (Some "1234-5678-9012-3456")).
Proof.
  assert (H : In ("credit_card", "1234-5678-9012-3456")
                (detect_pii (Some "1234-5678-9012-3456"))).
  { vm_compute. left. reflexivity. }
  split; [exact H|]. exact (card_and_aadhaar_values_disjoint _ _ _ H).
Defined.

(* the guard and the tie-break of [detect_pii] keep every span *)
Lemma detect_pii_filter (text : option string) :
  detect_pii text
  = map (fun x => (sr_type x, sr_value x))
      (List.filter
         (fun x => negb (contained_aadhaar
                           (credit_spans (collect (default "" text))) x))
         (collect (default "" text))).
Proof.
  unfold detect_pii. set (t := default "" text).
  destruct (collect t) as [|x0 l0] eqn:E; [reflexivity|]. rewrite <- E.
  rewrite card_guard_keeps_all. f_equal.
  apply filter_all, forallb_forall. intros x Hin.
  set (fs := List.filter _ (collect t)) in *.
  assert (Hc : forall y, In y fs -> In y (collect t)).
  { intros y Hy. apply filter_In in Hy. tauto. }
  unfold keeps.
  destruct (String.eqb_spec (sr_type x) "aadhaar") as [Tx|];
    [|rewrite andb_false_r; reflexivity].
  destruct (bool_decide ("credit_card" ∈ default ∅ (values_by_type fs !! sr_value x)))
    eqn:B; [|reflexivity].
  apply bool_decide_eq_true in B.
  apply values_by_type_elem in B as [B|(y & Hy & Ty & Vy)].
  - rewrite lookup_empty in B. simpl in B. apply not_elem_of_empty in B. destruct B.
  - pose proof (collect_card_digits _ _ (Hc y Hy) Ty) as L.
    pose proof (collect_aadhaar_digits _ _ (Hc x Hin) Tx) as L'.
    rewrite Vy in L. lia.
Qed.

(** Of the three rules of [detect_pii] only the containment rule ever
    drops a span: the candidates are the spans of the five patterns less
    the aadhaar spans that lie within a credit card span. *)
Theorem detect_pii_by_containment (text : option string) :
  detect_pii text
  = map (fun x => (sr_type x, sr_value x))
      (List.filter
         (fun x => negb (contained_aadhaar
                           (credit_spans (collect (default "" text))) x))
         (collect (default "" text))).
Proof. exact (detect_pii_filter text). Qed.

(** An aadhaar candidate comes from an aadhaar span that lies within no
    credit card span of the text. *)
Theorem aadhaar_candidate_not_contained (text : option string) (v : string) :
  In ("aadhaar", v) (detect_pii text) ->
  exists s e,
    In ("aadhaar", v, s, e) (collect (default "" text))
    /\ forall cv cs ce,
        In ("credit_card", cv, cs, ce) (collect (default "" text)) ->
        ~ (cs <= s /\ e <= ce).
Proof.
  rewrite detect_pii_filter. intros H.
  apply in_map_iff in H as ([[[t v'] s] e] & Hx & Hin).
  cbn in Hx. injection Hx as -> ->.
  apply filter_In in Hin as [Hin Hn]. exists s, e. split; [exact Hin|].
  intros cv cs ce Hc [H1 H2].
  apply negb_true_iff in Hn. unfold contained_aadhaar in Hn.
  cbn [sr_type sr_start sr_end fst snd] in Hn.
  cbn [String.eqb Ascii.eqb Bool.eqb andb] in Hn.
  assert (Ex : existsb (fun '(cs, ce) => (cs <=? s) && (e <=? ce))
                 (credit_spans (collect (default "" text))) = true).
  { apply existsb_exists. exists (cs, ce). split.
    - unfold credit_spans. apply in_map_iff.
      exists ("credit_card", cv, cs, ce). split; [reflexivity|].
      apply filter_In. split; [exact Hc|reflexivity].
    - apply andb_true_iff. split; apply Nat.leb_le; assumption. }
  congruence.
Qed.

Lemma aadhaar_candidate_not_contained_witness :
  In ("aadhaar", "2341 2341 2346") (detect_pii (Some "2341 2341 2346"))
  /\ exists s e,
       In ("aadhaar", "2341 2341 2346", s, e) (collect "2341 2341 2346")
       /\ forall cv cs ce,
           In ("credit_card", cv, cs, ce) (collect "2341 2341 2346") ->
           ~ (cs <= s /\ e <= ce).
Proof.
  assert (H : In ("aadhaar", "2341 2341 2346") (detect_pii (Some "2341 2341 2346"))).
  { vm_compute. left. reflexivity. }
  split; [exact H|]. exact (aadhaar_candidate_not_contained _ _ H).
Defined.

End DetectorRules.
(** ** More on the runs *)

Module RunProps.
Import PyStr Re Patterns Detector Random Masking Anonymization Pseudonymization.
Import Deidentifier Runs RunInvariants.
Import DetectorProps ValidatorProps CandidateProps DeidProps PseudoProps.

(** *** The counters count the entries *)

Lemma counted_initial : counted initial_state.
Proof.
  intros t Ht. simpl in Ht. exists ∅, 1%N.
  repeat (destruct Ht as [<-|Ht]; [repeat split; vm_compute; reflexivity|]).
  destruct Ht.
Qed.

Lemma record_counted st t0 v0 r m c :
  pseudo_maps st !! t0 = Some m -> m !! v0 = None ->
  pseudo_counters st !! t0 = Some c ->
  counted st -> counted (record_pseudonym t0 v0 r m c st).
Proof.
  intros Hm Hv Hc Hst t Ht.
  destruct (Hst t Ht) as (m' & c' & Hm' & Hc' & E).
  unfold record_pseudonym, set_pseudo. simpl.
  destruct (decide (t = t0)) as [->|Hne].
  - assert (m' = m) by congruence. assert (c' = c) by congruence. subst m' c'.
    exists (<[v0:=r]> m), (c + 1)%N. rewrite !lookup_insert_eq.
    repeat split. rewrite map_size_insert_None by exact Hv. lia.
  - exists m', c'. rewrite !lookup_insert_ne by congruence. auto.
Qed.

Lemma record_only_pattern_keys st t0 v0 r m c :
  pseudo_maps st !! t0 = Some m ->
  only_pattern_keys st -> only_pattern_keys (record_pseudonym t0 v0 r m c st).
Proof.
  intros Hm Hst t Ht. destruct (Hst t Ht) as [H1 H2].
  unfold record_pseudonym, set_pseudo. simpl.
  assert (t0 <> t) by congruence.
  rewrite !lookup_insert_ne by assumption. auto.
Qed.

Lemma only_pattern_keys_initial : only_pattern_keys initial_state.
Proof.
  intros t Ht. simpl in Ht.
  assert (N : t <> "aadhaar" /\ t <> "pan" /\ t <> "credit_card"
              /\ t <> "email" /\ t <> "phone") by (repeat split; intros ->; tauto).
  destruct N as (N1 & N2 & N3 & N4 & N5).
  unfold initial_state. simpl.
  rewrite !lookup_insert_ne by congruence. split; apply lookup_empty.
Qed.

(** what the three functions keep, given what the recording keeps *)
Lemma reachable_invariant (P : deid_state -> Prop) :
  P initial_state ->
  (forall st t0 v0 r m c,
      pseudo_maps st !! t0 = Some m -> m !! v0 = None ->
      pseudo_counters st !! t0 = Some c ->
      P st -> P (record_pseudonym t0 v0 r m c st)) ->
  (forall st st',
      pseudo_maps st' = pseudo_maps st ->
      pseudo_counters st' = pseudo_counters st -> P st -> P st') ->
  forall st, reachable st -> P st.
Proof.
  intros P0 Prec Pframe st H.
  induction H as [|st st' _ IH C]; [exact P0|].
  destruct C as [value pii_type st|pii_type value st|pii_type value st g].
  - unfold pseudo_anonymize.
    destruct (pseudo_maps st !! pii_type) as [m|] eqn:Hm; [|exact IH].
    destruct (m !! value) eqn:Hv; [exact IH|].
    destruct (pseudo_counters st !! pii_type) as [c|] eqn:Hc; [|exact IH].
    simpl. apply Prec; auto.
  - rewrite pseudo_anonymize_pii_unfold. cbv zeta.
    destruct (pseudo_maps st !! mapped_type pii_type) as [m|] eqn:Hm; [|exact IH].
    destruct (m !! value) eqn:Hv; [exact IH|].
    destruct (pseudo_counters st !! mapped_type pii_type) as [c|] eqn:Hc; [|exact IH].
    simpl. apply Prec; auto.
  - destruct (selective_deidentify_frame pii_type value st g) as [E1 E2].
    eapply Pframe; eauto.
Qed.

Lemma reachable_counted st : reachable st -> counted st.
Proof.
  apply reachable_invariant.
  - exact counted_initial.
  - intros. eapply record_counted; eauto.
  - intros st0 st' E1 E2 H t Ht. rewrite E1, E2. auto.
Qed.

Lemma reachable_only_pattern_keys st : reachable st -> only_pattern_keys st.
Proof.
  apply reachable_invariant.
  - exact only_pattern_keys_initial.
  - intros. eapply record_only_pattern_keys; eauto.
  - intros st0 st' E1 E2 H t Ht. rewrite E1, E2. auto.
Qed.

(** In every state of a run the counter of a type is one more than the
    number of values recorded for it, and the first occurrence of a value
    is numbered with the number of values recorded before it, plus one:
    the values of a type are numbered 1, 2, 3, ... in the order of their
    first occurrences. *)
Theorem pseudonyms_numbered_in_order (st : deid_state) (pii_type value : string) :
  reachable st ->
  In (mapped_type pii_type) (map fst patterns) ->
  exists m,
    pseudo_maps st !! mapped_type pii_type = Some m
    /\ pseudo_counters st !! mapped_type pii_type = Some (N.of_nat (size m) + 1)%N
    /\ (m !! value = None ->
        (pseudo_anonymize_pii pii_type value st).1
        = Ok (first_pseudonym (mapped_type pii_type)
                (N.of_nat (size m) + 1) value)).
Proof.
  intros Hr Hk. destruct (reachable_counted st Hr _ Hk) as (m & c & Hm & Hc & ->).
  exists m. repeat split; [exact Hm|exact Hc|].
  intros Hv. rewrite pseudo_anonymize_pii_unfold. cbv zeta.
  rewrite Hm, Hv, Hc. reflexivity.
Qed.

Lemma pseudonyms_numbered_in_order_witness :
  let st := (pseudo_anonymize_pii "phone" "9876543210" initial_state).2 in
  reachable st
  /\ In (mapped_type "Phone") (map fst patterns)
  /\ (pseudo_anonymize_pii "Phone" "9123456780" st).1 = Ok "phone_2".
Proof.
  cbv zeta.
  assert (R : reachable (pseudo_anonymize_pii "phone" "9876543210" initial_state).2).
  { eapply reachable_call; [apply reachable_initial|].
    apply call_pseudo_anonymize_pii. }
  assert (K : In (mapped_type "Phone") (map fst patterns)).
  { vm_compute. right. right. right. right. left. reflexivity. }
  split; [exact R|]. split; [exact K|].
  destruct (pseudonyms_numbered_in_order _ "Phone" "9123456780" R K)
    as (m & Hm & _ & H).
  assert (Em : m = {["9876543210" := "phone_1"]}).
  { vm_compute in Hm. injection Hm as <-. vm_compute. reflexivity. }
  subst m. rewrite H; [vm_compute; reflexivity|vm_compute; reflexivity].
Defined.

(** In every state of a run a type that maps to none of the five keys
    makes [pseudo_anonymize_pii] raise [KeyError], and the state is left
    as it was. *)
Theorem unknown_type_raises_in_every_run (st : deid_state) (pii_type value : string) :
  reachable st ->
  ~ In (mapped_type pii_type) (map fst patterns) ->
  pseudo_anonymize_pii pii_type value st
  = (Raise (KeyError (mapped_type pii_type)), st).
Proof.
  intros Hr Hk. destruct (reachable_only_pattern_keys st Hr _ Hk) as [Hm _].
  rewrite pseudo_anonymize_pii_unfold. cbv zeta. rewrite Hm. reflexivity.
Qed.

Lemma unknown_type_raises_in_every_run_witness :
  let st := (pseudo_anonymize_pii "phone" "9876543210" initial_state).2 in
  reachable st
  /\ ~ In (mapped_type "Passport") (map fst patterns)
  /\ pseudo_anonymize_pii "Passport" "Z1234567" st = (Raise (KeyError "passport"), st).
Proof.
  cbv zeta.
  assert (R : reachable (pseudo_anonymize_pii "phone" "9876543210" initial_state).2).
  { eapply reachable_call; [apply reachable_initial|].
    apply call_pseudo_anonymize_pii. }
  assert (K : ~ In (mapped_type "Passport") (map fst patterns)).
  { vm_compute. intros [H|[H|[H|[H|[H|[]]]]]]; discriminate H. }
  split; [exact R|]. split; [exact K|].
  exact (unknown_type_raises_in_every_run _ "Passport" "Z1234567" R K).
Defined.

(** In every state of a run, every candidate of the detector is
    de-identified without an exception, under each of the four strategies
    and under any other strategy name. *)
Theorem candidates_deidentify_returns
    (st : deid_state) (g : rng) (method : string)
    (text : option string) (t v : string) :
  reachable st ->
  In (t, v) (detect_pii text) ->
  returns (deidentify_value method t v st g).1.1.
Proof.
  intros Hr Hin.
  destruct (String.eqb_spec method "Pseudo-Anonymization") as [->|N];
    [|apply deidentify_value_returns; exact N].
  apply detect_pii_match in Hin as (pat & s & e & Hp & _).
  assert (K : In (mapped_type t) (map fst patterns)).
  { apply pattern_of in Hp.
    destruct Hp as [[-> _]|[[-> _]|[[-> _]|[[-> _]|[-> _]]]]];
      vm_compute; tauto. }
  destruct (reachable_counted st Hr _ K) as (m & c & Hm & Hc & _).
  unfold deidentify_value. cbn [String.eqb Ascii.eqb Bool.eqb].
  rewrite pseudo_anonymize_pii_unfold. cbv zeta. rewrite Hm, Hc.
  destruct (m !! v) as [r|]; simpl; eexists; reflexivity.
Qed.

Lemma candidates_deidentify_returns_witness :
  reachable initial_state
  /\ In ("phone", "9876543210") (detect_pii (Some "call 9876543210"))
  /\ returns (deidentify_value "Pseudo-Anonymization" "phone" "9876543210"
                initial_state (Rng (fun _ => 0) 0)).1.1.
Proof.
  assert (H : In ("phone", "9876543210") (detect_pii (Some "call 9876543210"))).
  { vm_compute. left. reflexivity. }
  split; [constructor|]. split; [exact H|].
  exact (candidates_deidentify_returns initial_state (Rng (fun _ => 0) 0)
           "Pseudo-Anonymization" _ _ _ reachable_initial H).
Defined.

End RunProps.
(** ** The selective strategy, anonymization and masking *)

Module StrategyProps.
Import PyStr Re Patterns Random Masking Anonymization Pseudonymization.
Import Deidentifier Runs RunInvariants Validators.
Import ValidatorProps PanProps DeidProps PseudoProps.
Local Open Scope list_scope.

(** *** Strings and lists of characters *)

(** *** The selective strategy on emails *)

Lemma selective_numbered_inj n n' r :
  selective_numbered n r -> selective_numbered n' r -> n = n'.
Proof.
  intros [d ->] [d' E]. simpl in E. injection E as E.
  apply numeral_before_at in E; auto using pretty_N_digits.
  exact (pretty_N_inj _ _ E).
Qed.

Lemma selective_deidentify_consistent pii_type value st g :
  selective_consistent st ->
  selective_consistent (selective_deidentify pii_type value st g).1.2.
Proof.
  intros [Hnum Hinj].
  assert (I : selective_consistent (init_selective st)) by (split; assumption).
  unfold selective_deidentify.
  destruct (String.eqb (lower pii_type) "credit_card").
  { destruct (_ <? _); exact I. }
  destruct (String.eqb (lower pii_type) "email").
  2: { destruct (String.eqb (lower pii_type) "aadhaar").
       { destruct (Nat.eqb _ _); exact I. }
       destruct (String.eqb (lower pii_type) "pan"); [|exact I].
       destruct (choices ascii_uppercase 5 g) as [a g1].
       destruct (choices digits 4 g1) as [b g2].
       destruct (choice ascii_uppercase g2) as [c g3]. exact I. }
  change (sel_map (init_selective st)) with (sel_map st).
  change (sel_counter (init_selective st)) with (sel_counter st).
  destruct (sel_map st !! value) as [r|] eqn:Hv; [exact I|].
  cbn [fst snd]. unfold selective_consistent, sel_map, sel_counter.
  cbn [email_map email_counter default from_option id].
  fold (sel_map st). fold (sel_counter st). split.
  - intros v r Hl. apply lookup_insert_Some in Hl as [[_ <-]|[_ Hl]].
    + exists (sel_counter st). split; [lia|]. eexists. reflexivity.
    + destruct (Hnum v r Hl) as (n & Hn & Hr). exists n. split; [lia|exact Hr].
  - intros v1 v2 r H1 H2.
    assert (New : selective_numbered (sel_counter st)
                    ("email" ++ pretty (sel_counter st) ++ "@"
                       ++ email_domain value)%string)
      by (eexists; reflexivity).
    apply lookup_insert_Some in H1 as [[<- <-]|[N1 H1]];
      apply lookup_insert_Some in H2 as [[E2 E2']|[N2 H2]].
    + exact E2.
    + destruct (Hnum v2 _ H2) as (n & Hn & Hr).
      pose proof (selective_numbered_inj _ _ _ Hr New). lia.
    + subst r. destruct (Hnum v1 _ H1) as (n & Hn & Hr).
      pose proof (selective_numbered_inj _ _ _ Hr New). lia.
    + eapply Hinj; eassumption.
Qed.

Lemma selective_consistent_initial : selective_consistent initial_state.
Proof.
  split.
  - intros v r H. unfold sel_map in H. simpl in H. rewrite lookup_empty in H.
    discriminate H.
  - intros v1 v2 r H. unfold sel_map in H. simpl in H. rewrite lookup_empty in H.
    discriminate H.
Qed.

Lemma reachable_selective_consistent st : reachable st -> selective_consistent st.
Proof.
  induction 1 as [|st st' _ IH C]; [exact selective_consistent_initial|].
  destruct C as [value pii_type st|pii_type value st|pii_type value st g].
  - unfold pseudo_anonymize.
    repeat match goal with
           | |- context [match ?o with Some _ => _ | None => _ end] => destruct o
           end; exact IH.
  - destruct (pseudo_anonymize_pii_frame pii_type value st) as [E1 E2].
    unfold selective_consistent, sel_map, sel_counter in *. rewrite E1, E2. exact IH.
  - apply selective_deidentify_consistent, IH.
Qed.

(** In every state of a run the selective strategy gives an email the
    same replacement every time, without drawing from the generator, and
    gives two different emails two different replacements; the replacement
    of an email without an entry is ["email{counter}@{domain}"]. *)
Theorem selective_email_consistent
    (st : deid_state) (g : rng) (pii_type value : string) :
  reachable st ->
  lower pii_type = "email" ->
  exists r st1,
    selective_deidentify pii_type value st g = (r, st1, g)
    /\ selective_deidentify pii_type value st1 g = (r, st1, g)
    /\ (sel_map st !! value = None ->
        r = ("email" ++ pretty (sel_counter st) ++ "@" ++ email_domain value)%string)
    /\ forall value', value' <> value ->
        (selective_deidentify pii_type value' st1 g).1.1 <> r.
Proof.
  intros Hr Ht. destruct (reachable_selective_consistent st Hr) as [Hnum Hinj].
  assert (Step : forall st0 v,
             selective_deidentify pii_type v st0 g
             = match sel_map st0 !! v with
               | Some r => (r, init_selective st0, g)
               | None =>
                   (("email" ++ pretty (sel_counter st0) ++ "@" ++ email_domain v)%string,
                    DeidState (pseudo_counters st0) (pseudo_maps st0)
                      (Some (<[v := ("email" ++ pretty (sel_counter st0) ++ "@"
                                       ++ email_domain v)%string]> (sel_map st0)))
                      (Some (sel_counter st0 + 1)%N),
                    g)
               end).
  { intros st0 v. unfold selective_deidentify. rewrite Ht.
    cbn [String.eqb Ascii.eqb Bool.eqb]. reflexivity. }
  destruct (sel_map st !! value) as [r|] eqn:Hv.
  - exists r, (init_selective st). rewrite Step, Hv. split; [reflexivity|].
    split; [rewrite Step; change (sel_map (init_selective st)) with (sel_map st);
            rewrite Hv; reflexivity|].
    split; [discriminate|].
    intros v' Hne. rewrite Step.
    change (sel_map (init_selective st)) with (sel_map st).
    change (sel_counter (init_selective st)) with (sel_counter st).
    destruct (sel_map st !! v') as [r'|] eqn:Hv'; cbn [fst snd].
    + intros ->. apply Hne. eapply Hinj; eassumption.
    + intros E. destruct (Hnum value r Hv) as (n & Hn & Hnr).
      rewrite <- E in Hnr.
      assert (New : selective_numbered (sel_counter st)
                      ("email" ++ pretty (sel_counter st) ++ "@" ++ email_domain v')%string)
        by (eexists; reflexivity).
      pose proof (selective_numbered_inj _ _ _ Hnr New). lia.
  - eexists _, _. rewrite Step, Hv. split; [reflexivity|].
    split.
    { rewrite Step. unfold sel_map at 1. cbn [email_map default from_option id].
      rewrite lookup_insert_eq. reflexivity. }
    split; [reflexivity|].
    intros v' Hne. rewrite Step. unfold sel_map at 1, sel_counter at 1.
    cbn [email_map email_counter default from_option id].
    rewrite lookup_insert_ne by congruence.
    destruct (sel_map st !! v') as [r'|] eqn:Hv'; cbn [fst snd].
    + intros E. destruct (Hnum v' r' Hv') as (n & Hn & Hnr). rewrite E in Hnr.
      assert (New : selective_numbered (sel_counter st)
                      ("email" ++ pretty (sel_counter st) ++ "@" ++ email_domain value)%string)
        by (eexists; reflexivity).
      pose proof (selective_numbered_inj _ _ _ Hnr New). lia.
    + intros E.
      assert (N1 : selective_numbered (sel_counter st + 1)
                     ("email" ++ pretty (sel_counter st) ++ "@" ++ email_domain value)%string)
        by (rewrite <- E; eexists; reflexivity).
      assert (N2 : selective_numbered (sel_counter st)
                     ("email" ++ pretty (sel_counter st) ++ "@" ++ email_domain value)%string)
        by (eexists; reflexivity).
      pose proof (selective_numbered_inj _ _ _ N1 N2). lia.
Qed.

Lemma selective_email_consistent_witness :
  reachable initial_state
  /\ lower "Email" = "email"
  /\ exists r st1,
       selective_deidentify "Email" "a@b.com" initial_state (Rng (fun _ => 0) 0)
       = (r, st1, Rng (fun _ => 0) 0)
       /\ selective_deidentify "Email" "a@b.com" st1 (Rng (fun _ => 0) 0)
          = (r, st1, Rng (fun _ => 0) 0)
       /\ (sel_map initial_state !! "a@b.com" = None ->
           r = ("email" ++ pretty (sel_counter initial_state) ++ "@"
                  ++ email_domain "a@b.com")%string)
       /\ forall value', value' <> "a@b.com" ->
           (selective_deidentify "Email" value' st1 (Rng (fun _ => 0) 0)).1.1 <> r.
Proof.
  split; [constructor|]. split; [reflexivity|].
  apply (selective_email_consistent initial_state (Rng (fun _ => 0) 0) "Email"
           "a@b.com" reachable_initial eq_refl).
Defined.

(** *** The selective strategy on PANs *)

Lemma uppercase_upper x : In x (chars ascii_uppercase) -> is_upper x = true.
Proof.
  intros H.
  assert (F : forallb is_upper (chars ascii_uppercase) = true) by (vm_compute; reflexivity).
  rewrite forallb_forall in F. auto.
Qed.

Lemma digits_digit x : In x (chars digits) -> is_digit x = true.
Proof.
  intros H.
  assert (F : forallb is_digit (chars digits) = true) by (vm_compute; reflexivity).
  rewrite forallb_forall in F. auto.
Qed.

(** Whatever the generator draws, the replacement the selective strategy
    makes for a PAN has the PAN shape, five upper-case letters, four
    digits and an upper-case letter; the value is not looked at and the
    maps and counters are not touched. *)
Theorem selective_pan_shaped
    (st : deid_state) (g : rng) (pii_type value : string) :
  lower pii_type = "pan" ->
  matches re_pan_shape (selective_deidentify pii_type value st g).1.1 = true
  /\ (selective_deidentify pii_type value st g).1.2 = init_selective st
  /\ forall value',
      selective_deidentify pii_type value' st g
      = selective_deidentify pii_type value st g.
Proof.
  intros Ht. unfold selective_deidentify. rewrite Ht.
  cbn [String.eqb Ascii.eqb Bool.eqb].
  assert (PU : len ascii_uppercase <> 0) by (vm_compute; discriminate).
  assert (PD : len digits <> 0) by (vm_compute; discriminate).
  destruct (choices_spec ascii_uppercase 5 PU g) as [La Fa].
  destruct (choices ascii_uppercase 5 g) as [a g1].
  destruct (choices_spec digits 4 PD g1) as [Lb Fb].
  destruct (choices digits 4 g1) as [b g2].
  pose proof (choice_in ascii_uppercase g2 PU) as Ic.
  destruct (choice ascii_uppercase g2) as [c g3].
  cbn [fst snd] in *. split; [|split; reflexivity].
  destruct a as [|u0 [|u1 [|u2 [|u3 [|u4 [|? ?]]]]]]; try discriminate.
  destruct b as [|d0 [|d1 [|d2 [|d3 [|? ?]]]]]; try discriminate.
  repeat match goal with
         | H : Forall _ (_ :: _) |- _ => inversion H; clear H; subst
         | H : Forall _ [] |- _ => clear H
         end.
  repeat match goal with
         | H : In ?x (chars ascii_uppercase) |- _ =>
             apply uppercase_upper in H
         | H : In ?x (chars digits) |- _ => apply digits_digit in H
         end.
  change (str [u0;u1;u2;u3;u4] ++ str [d0;d1;d2;d3] ++ String c "")%string
    with (str [u0;u1;u2;u3;u4;d0;d1;d2;d3;c]).
  unfold matches. rewrite chars_str. cbn -[is_upper is_digit].
  repeat match goal with
         | H : _ = true |- _ => rewrite H; clear H
         end.
  reflexivity.
Qed.

Lemma selective_pan_shaped_witness :
  lower "PAN" = "pan"
  /\ matches re_pan_shape
       (selective_deidentify "PAN" "ABCPE1234A" initial_state
          (Rng (fun n => n * 7) 0)).1.1 = true.
Proof.
  split; [reflexivity|].
  exact (proj1 (selective_pan_shaped initial_state (Rng (fun n => n * 7) 0)
                  "PAN" "ABCPE1234A" eq_refl)).
Defined.

End StrategyProps.
(** ** Anonymization and masking, whatever the value *)

Module ShapeProps.
Import PyStr Re Patterns Random Masking Anonymization Pseudonymization.
Import Deidentifier Runs RunInvariants Validators.
Import Join PanHelpers PanCheckDigit.
Import ValidatorProps PanProps DeidProps StrategyProps EmailCandidates.
Local Open Scope list_scope.

Lemma alnum_anonymized x : is_alnum x = true -> anonymized_char x = true.
Proof. unfold anonymized_char. intros ->. reflexivity. Qed.

Lemma upper_alnum x : is_alnum x = true -> is_alnum (upper_char x) = true.
Proof.
  destruct x as [[] [] [] [] [] [] [] []]; vm_compute; intros H;
    try discriminate H; reflexivity.
Qed.

Lemma forallb_alnum_anonymized l :
  forallb is_alnum l = true -> forallb anonymized_char l = true.
Proof.
  intros F. apply forallb_forall. intros x Hx. rewrite forallb_forall in F.
  apply alnum_anonymized; auto.
Qed.

Lemma forallb_upper_alnum s :
  forallb is_alnum (chars s) = true -> forallb is_alnum (chars (upper s)) = true.
Proof.
  intros F. unfold upper. rewrite chars_str. apply forallb_forall.
  intros x Hx. apply in_map_iff in Hx as (y & <- & Hy).
  rewrite forallb_forall in F. apply upper_alnum; auto.
Qed.

(** The replacement of [anonymize_pii] does not depend on the value; its
    length depends on the mapped type alone (16 for a credit card, 18 for
    an email, 12 for an Aadhaar number, 10 otherwise); and it is made of
    letters, digits, at signs and dots. *)
Theorem anonymize_pii_shape (pii_type value value' : string) (g : rng) :
  anonymize_pii pii_type value g = anonymize_pii pii_type value' g
  /\ len (anonymize_pii pii_type value g).1 = anonymized_length (mapped_type pii_type)
  /\ forallb anonymized_char (chars (anonymize_pii pii_type value g).1) = true.
Proof.
  split; [reflexivity|].
  unfold anonymize_pii, anonymized_length.
  destruct (String.eqb (mapped_type pii_type) "credit_card").
  { destruct (random_string_spec 16 g) as [L F].
    split; [exact L|apply forallb_alnum_anonymized, F]. }
  destruct (String.eqb (mapped_type pii_type) "email").
  { destruct (random_string_spec 8 g) as [L1 F1].
    destruct (random_string 8 g) as [a g1].
    destruct (random_string_spec 5 g1) as [L2 F2].
    destruct (random_string 5 g1) as [b g2]. cbn [fst snd] in *.
    rewrite !len_app, !chars_app, !forallb_app, L1, L2.
    rewrite (forallb_alnum_anonymized _ F1), (forallb_alnum_anonymized _ F2).
    split; reflexivity. }
  destruct (String.eqb (mapped_type pii_type) "aadhaar").
  { destruct (random_string_spec 12 g) as [L F].
    split; [exact L|apply forallb_alnum_anonymized, F]. }
  destruct (String.eqb (mapped_type pii_type) "pan").
  { destruct (random_string_spec 5 g) as [L1 F1].
    destruct (random_string 5 g) as [a g1].
    destruct (random_string_spec 4 g1) as [L2 F2].
    destruct (random_string 4 g1) as [b g2].
    destruct (random_string_spec 1 g2) as [L3 F3].
    destruct (random_string 1 g2) as [c g3]. cbn [fst snd] in *.
    rewrite !len_app, !chars_app, !forallb_app, !len_upper, L1, L2, L3.
    rewrite (forallb_alnum_anonymized _ (forallb_upper_alnum _ F1)).
    rewrite (forallb_alnum_anonymized _ F2).
    rewrite (forallb_alnum_anonymized _ (forallb_upper_alnum _ F3)).
    split; reflexivity. }
  destruct (String.eqb (mapped_type pii_type) "phone").
  { destruct (random_string_spec 9 g) as [L F].
    destruct (random_string 9 g) as [a g1]. cbn [fst snd] in *.
    rewrite len_app, chars_app, forallb_app, L.
    rewrite (forallb_alnum_anonymized _ F). split; reflexivity. }
  destruct (random_string_spec 10 g) as [L F].
  split; [exact L|apply forallb_alnum_anonymized, F].
Qed.

(** *** Masking an email *)

Lemma split_chars_not_nil sep l : forall cur, split_chars sep cur l <> [].
Proof.
  induction l as [|x l IH]; intros cur; simpl; [discriminate|].
  destruct (Ascii.eqb x sep); [discriminate|apply IH].
Qed.

(** [sep.join(s.split(sep)) == s] *)
Lemma join_split_chars sep l :
  forall cur, join_chars sep (split_chars sep cur l) = rev cur ++ l.
Proof.
  induction l as [|x l IH]; intros cur; cbn [split_chars].
  - simpl. rewrite app_nil_r. reflexivity.
  - destruct (Ascii.eqb_spec x sep) as [->|N].
    + pose proof (split_chars_not_nil sep l []) as NN.
      specialize (IH []). cbn [rev app] in IH.
      destruct (split_chars sep [] l) as [|p ps]; [contradiction|].
      change (join_chars sep (rev cur :: p :: ps))
        with (rev cur ++ sep :: join_chars sep (p :: ps)).
      rewrite IH. reflexivity.
    + rewrite IH. simpl. rewrite <- app_assoc. reflexivity.
Qed.

Lemma split_two e u d :
  split "@" e = [u; d] -> e = (u ++ "@" ++ d)%string /\ count_char "@" e = 1.
Proof.
  unfold split, count_char. intros H.
  pose proof (join_split_chars "@" (chars e) []) as J.
  pose proof (split_chars_length "@" [] (chars e)) as L.
  destruct (split_chars "@" [] (chars e)) as [|a [|b [|c r]]]; try discriminate H.
  injection H as <- <-. simpl in J, L. split; [|lia].
  rewrite <- (str_chars e), <- J, str_app. reflexivity.
Qed.

(** [mask_email] keeps the length of every string.  A string with one
    at sign has its local part replaced by as many [x] and keeps its
    domain; any other string is handed back as it is. *)
Theorem mask_email_keeps_length (email : string) :
  len (mask_email email) = len email
  /\ (count_char "@" email <> 1 -> mask_email email = email)
  /\ (count_char "@" email = 1 ->
      exists u d, email = (u ++ "@" ++ d)%string
                  /\ mask_email email = (repeat_char "x" (len u) ++ "@" ++ d)%string).
Proof.
  unfold mask_email.
  destruct (split "@" email) as [|u [|d [|c r]]] eqn:S.
  - split; [reflexivity|]. split; [reflexivity|].
    intros C. apply split_one in C as (a & b & C). congruence.
  - split; [reflexivity|]. split; [reflexivity|].
    intros C. apply split_one in C as (a & b & C). congruence.
  - apply split_two in S as [E C]. split; [|split].
    + rewrite E. rewrite !len_app. unfold repeat_char, len at 1.
      rewrite chars_str, repeat_length. reflexivity.
    + intros N. contradiction.
    + intros _. exists u, d. auto.
  - split; [reflexivity|]. split; [reflexivity|].
    intros C. apply split_one in C as (a & b & C). congruence.
Qed.

Lemma mask_email_keeps_length_witness :
  count_char "@" "bob@@x.org" <> 1
  /\ mask_email "bob@@x.org" = "bob@@x.org"
  /\ count_char "@" "bob@x.org" = 1
  /\ exists u d, "bob@x.org" = (u ++ "@" ++ d)%string
                 /\ mask_email "bob@x.org" = (repeat_char "x" (len u) ++ "@" ++ d)%string.
Proof.
  assert (N : count_char "@" "bob@@x.org" <> 1) by (vm_compute; discriminate).
  split; [exact N|].
  split; [exact (proj1 (proj2 (mask_email_keeps_length "bob@@x.org")) N)|].
  split; [reflexivity|].
  exact (proj2 (proj2 (mask_email_keeps_length "bob@x.org")) eq_refl).
Defined.

(** *** Masking a phone number *)

Lemma len_suffix n s : n <= len s -> len (suffix n s) = n.
Proof.
  unfold suffix, len. rewrite chars_str, length_skipn. lia.
Qed.

(** [mask_phone] returns ten characters whatever it is given: six [X]
    and the last four digits of a value with ten digits, ten [X] for any
    other value. *)
Theorem mask_phone_ten_characters (phone : string) :
  len (mask_phone phone) = 10
  /\ prefix 6 (mask_phone phone) = "XXXXXX"
  /\ (len (digits_only phone) <> 10 -> mask_phone phone = "XXXXXXXXXX").
Proof.
  unfold mask_phone.
  destruct (Nat.eqb_spec (len (digits_only phone)) 10) as [E|N].
  - split; [|split; [reflexivity|contradiction]].
    rewrite len_app, len_suffix by lia. reflexivity.
  - split; [reflexivity|]. split; reflexivity.
Qed.

Lemma mask_phone_ten_characters_witness :
  len (digits_only "98-76") <> 10 /\ mask_phone "98-76" = "XXXXXXXXXX".
Proof.
  assert (H : len (digits_only "98-76") <> 10) by (vm_compute; discriminate).
  split; [exact H|].
  exact (proj2 (proj2 (mask_phone_ten_characters "98-76")) H).
Defined.

End ShapeProps.

(** ** More on the PAN validator *)

Module PanMore.
Import PyStr Re Patterns Validators PanCheckDigit PanHelpers.
Import ValidatorProps PanProps.
Local Open Scope list_scope.

Lemma check_letter_in reduce nine :
  char_in "ABCDEFGHIJ" (check_letter reduce nine) = true.
Proof.
  unfold check_letter.
  set (t := sum_Z _).
  assert (B : (0 <= (10 - t mod 10) mod 10 < 10)%Z) by (apply Z.mod_pos_bound; lia).
  assert (L : Z.to_nat ((10 - t mod 10) mod 10) < 10) by lia.
  destruct (Z.to_nat ((10 - t mod 10) mod 10)) as [|[|[|[|[|[|[|[|[|[|n]]]]]]]]]];
    try reflexivity. lia.
Qed.

Lemma tail_letter_upper x : char_in "ABCDEFGHIJ" x = true -> is_upper x = true.
Proof.
  destruct x as [[] [] [] [] [] [] [] []]; vm_compute; intros H;
    try discriminate H; reflexivity.
Qed.

(** Nine characters of the PAN shape with a valid entity code are
    completed to an accepted PAN by exactly the characters whose
    upper-case form is the check letter of the nine; the check letter is
    one of A to J. *)
Theorem pan_check_letter_completes (nine : list ascii) (c : ascii) :
  length nine = 9 ->
  forallb is_upper (firstn 5 nine) = true ->
  forallb is_digit (skipn 5 nine) = true ->
  char_in "ABCFGHLJPT" (nth 3 nine "A"%char) = true ->
  validate_pan (str (nine ++ [c])) None
  = Ok (Ascii.eqb (upper_char c) (check_letter tens_plus_unit nine))
  /\ char_in "ABCDEFGHIJ" (check_letter tens_plus_unit nine) = true.
Proof.
  intros L FU FD HE. split; [|apply check_letter_in].
  destruct nine as [|c0 [|c1 [|c2 [|c3 [|c4 [|c5 [|c6 [|c7 [|c8 [|? ?]]]]]]]]]];
    try discriminate L.
  cbn [firstn skipn forallb nth app] in *.
  repeat match goal with
         | H : _ && _ = true |- _ => apply andb_true_iff in H as [? H]
         end.
  pose proof (tail_letter_upper _ (check_letter_in tens_plus_unit
                                     [c0;c1;c2;c3;c4;c5;c6;c7;c8])) as UL.
  assert (HD : Forall (fun x => is_digit x = true) [c5;c6;c7;c8])
    by (repeat constructor; assumption).
  destruct (upper_facts c0 ltac:(assumption)) as (_ & _ & U0 & S0).
  rewrite validate_pan_unfold.
  match goal with
  | |- context [String.eqb ?s ""] => change (String.eqb s "") with false
  end.
  cbv iota. unfold strip. rewrite chars_str.
  destruct (is_space c) eqn:Sc.
  - replace (Ascii.eqb (upper_char c) _) with false.
    + unfold pan_rules.
      replace (Nat.eqb _ 10) with false; [reflexivity|].
      symmetry. apply Nat.eqb_neq. rewrite len_upper. unfold len.
      rewrite chars_str. unfold strip_chars. rewrite length_rev.
      rewrite lstrip_cons, S0. cbn [rev app]. rewrite lstrip_cons, Sc.
      match goal with |- length (lstrip_chars ?l) <> _ =>
        pose proof (lstrip_length l) as B; cbn [length] in B end. lia.
    + symmetry. apply Ascii.eqb_neq. intros E. rewrite <- E in UL.
      rewrite (space_facts c Sc) in UL. discriminate UL.
  - assert (ES : strip_chars [c0;c1;c2;c3;c4;c5;c6;c7;c8;c]
                 = [c0;c1;c2;c3;c4;c5;c6;c7;c8;c]).
    { unfold strip_chars. rewrite lstrip_cons, S0. cbn [rev app].
      rewrite lstrip_cons, Sc. reflexivity. }
    rewrite ES. unfold upper. rewrite chars_str. cbn [map].
    repeat match goal with
           | H : is_upper ?x = true |- _ =>
               rewrite (proj1 (proj2 (proj2 (upper_facts x H))))
           | H : is_digit ?x = true |- _ =>
               rewrite (proj2 (proj2 (digit_facts x H)))
           end.
    destruct (is_upper (upper_char c)) eqn:Uc.
    + assert (HU : Forall (fun x => is_upper x = true) [c0;c1;c2;c3;c4;upper_char c])
        by (repeat constructor; assumption).
      rewrite (pan_rules_shape _ _ _ _ _ _ _ _ _ _ None HU HD).
      rewrite HE. reflexivity.
    + replace (Ascii.eqb (upper_char c) _) with false.
      * assert (M' : matches re_pan_shape
                       (str [c0;c1;c2;c3;c4;c5;c6;c7;c8;upper_char c]) = false).
        { unfold matches. rewrite chars_str.
          cbn -[is_upper is_digit upper_char]. rewrite Uc.
          repeat match goal with
                 | |- context [if is_upper ?x then _ else _] => destruct (is_upper x)
                 | |- context [if is_digit ?x then _ else _] => destruct (is_digit x)
                 end; reflexivity. }
        unfold pan_rules. rewrite M'.
        destruct (negb (Nat.eqb _ 10)); reflexivity.
      * symmetry. apply Ascii.eqb_neq. intros E. rewrite <- E in UL. congruence.
Qed.

Lemma pan_check_letter_completes_witness :
  validate_pan (str (chars "ABCPE1234" ++ ["a"%char])) None = Ok true
  /\ validate_pan (str (chars "ABCPE1234" ++ ["B"%char])) None = Ok false.
Proof.
  split.
  - exact (proj1 (pan_check_letter_completes (chars "ABCPE1234") "a"
                    eq_refl eq_refl eq_refl eq_refl)).
  - exact (proj1 (pan_check_letter_completes (chars "ABCPE1234") "B"
                    eq_refl eq_refl eq_refl eq_refl)).
Defined.

(** With the entity code P and a surname that is not empty but all
    blanks, [validate_pan] raises [IndexError], whatever the check letter:
    it takes the first character of the stripped surname. *)
Theorem validate_pan_blank_surname_raises (pan surname : string) :
  len (upper (strip pan)) = 10 ->
  matches re_pan_shape (upper (strip pan)) = true ->
  index (upper (strip pan)) 3 = Some "P"%char ->
  surname <> "" ->
  strip surname = "" ->
  validate_pan pan (Some surname) = Raise IndexError.
Proof.
  intros L M E3 Ns Es. rewrite validate_pan_unfold.
  destruct (String.eqb_spec pan "") as [->|_]; [discriminate L|].
  unfold pan_rules. rewrite L, M, E3. cbn [Nat.eqb negb].
  destruct (index (upper (strip pan)) 4) as [n|] eqn:E4.
  - change (char_in "ABCFGHLJPT" "P") with true. cbn [negb].
    unfold surname_agrees. rewrite Es.
    destruct (String.eqb_spec surname "") as [->|_]; [contradiction|].
    reflexivity.
  - unfold index in E4. apply nth_error_None in E4. unfold len in L. lia.
Qed.

Lemma validate_pan_blank_surname_raises_witness :
  validate_pan "ABCPE1234Z" (Some " ") = Raise IndexError.
Proof.
  apply validate_pan_blank_surname_raises;
    [reflexivity|vm_compute; reflexivity|reflexivity|discriminate|reflexivity].
Defined.

(** *** The helpers *)

Lemma entity_code_named x :
  char_in "ABCFGHLJPT" x = true ->
  exists name, entity_types !! String x "" = Some name /\ name <> "Unknown".
Proof.
  destruct x as [[] [] [] [] [] [] [] []]; vm_compute; intros H;
    try discriminate H; eexists; (split; [reflexivity|discriminate]).
Qed.

(** Every PAN [validate_pan] accepts, in the normal form the validator
    gives it, has an entity type other than ["Unknown"], a holder initial
    that is an upper-case letter and a serial number of four digits: the
    three helpers return, and the entity codes the validator lets through
    are keys of [entity_types]. *)
Theorem pan_helpers_on_accepted (pan : string) (surname : option string) :
  validate_pan pan surname = Ok true ->
  let normal := upper (strip pan) in
  (exists name, get_pan_entity_type normal = Ok name /\ name <> "Unknown")
  /\ (exists i, get_pan_holder_name_initial normal = Ok (String i "")
                /\ is_upper i = true)
  /\ len (get_pan_serial_number normal) = 4
  /\ forallb is_digit (chars (get_pan_serial_number normal)) = true.
Proof.
  intros V. cbv zeta. rewrite validate_pan_unfold in V.
  destruct (String.eqb pan ""); [discriminate V|].
  set (P := upper (strip pan)) in *.
  assert (LP : len P = 10).
  { unfold pan_rules in V.
    destruct (Nat.eqb (len P) 10) eqn:L; [|discriminate V].
    apply Nat.eqb_eq in L. exact L. }
  assert (M : matches re_pan_shape P = true).
  { unfold pan_rules in V. rewrite LP in V. cbn [Nat.eqb negb] in V.
    destruct (matches re_pan_shape P); [reflexivity|discriminate V]. }
  destruct (pan_shape _ LP M) as (u0&u1&u2&u3&u4&u5&u6&u7&u8&u9&E&HU&HD).
  rewrite <- (str_chars P), E in V |- *.
  rewrite (pan_rules_shape _ _ _ _ _ _ _ _ _ _ _ HU HD) in V.
  destruct (char_in "ABCFGHLJPT" u3) eqn:HE; [|discriminate V].
  destruct (entity_code_named u3 HE) as (name & Hn & Nn).
  unfold get_pan_entity_type, get_pan_holder_name_initial, get_pan_serial_number.
  unfold len, index. rewrite !chars_str.
  repeat match goal with
         | |- context [String.eqb ?s ""] => change (String.eqb s "") with false
         end.
  cbn [length Nat.ltb Nat.leb orb nth_error skipn firstn].
  rewrite Hn. rewrite !chars_str.
  repeat match goal with
         | H : Forall _ (_ :: _) |- _ => inversion H; clear H; subst
         | H : Forall _ [] |- _ => clear H
         end.
  split; [exists name; auto|]. split; [exists u4; auto|].
  cbn [length forallb].
  repeat match goal with
         | H : is_digit _ = true |- _ => rewrite H; clear H
         end.
  split; reflexivity.
Qed.

Lemma pan_helpers_on_accepted_witness :
  validate_pan " abcpe1234a " None = Ok true
  /\ get_pan_entity_type (upper (strip " abcpe1234a ")) = Ok "Individual"
  /\ get_pan_entity_type " abcpe1234a " = Ok "Unknown".
Proof.
  assert (V : validate_pan " abcpe1234a " None = Ok true) by (vm_compute; reflexivity).
  split; [exact V|].
  destruct (pan_helpers_on_accepted _ _ V) as [(name & Hn & Nn) _].
  split; [|vm_compute; reflexivity].
  rewrite Hn. f_equal. vm_compute in Hn. injection Hn as <-. reflexivity.
Defined.

End PanMore.
(** ** The rewriting of a cell *)

Module RewritingProps.
Import PyStr Re Patterns Detector Validators Random Pseudonymization Deidentifier.
Import Orchestrator Rewriting Runs.
Import ValidatorProps ValidProps OrchestratorProps CandidateProps RunProps.
Local Open Scope list_scope.

Example sort_by_length_stable :
  sort_by_length [("a", "xx"); ("b", "yyyy"); ("c", "zz"); ("d", "wwww"); ("e", "v")]
  = [("b", "yyyy"); ("d", "wwww"); ("a", "xx"); ("c", "zz"); ("e", "v")].
Proof. vm_compute. reflexivity. Qed.

Lemma insert_by_length_In x y l :
  In y (insert_by_length x l) <-> y = x \/ In y l.
Proof.
  induction l as [|z l IH]; simpl; [intuition congruence|].
  destruct (_ <? _); simpl; rewrite ?IH; intuition congruence.
Qed.

Lemma sort_by_length_In y l : In y (sort_by_length l) <-> In y l.
Proof.
  induction l as [|x l IH]; simpl; [tauto|].
  rewrite insert_by_length_In, IH. intuition congruence.
Qed.

Section Rewrite.
Variables luhn_check verhoeff_check : string -> bool.
Variable re_sub_escaped : string -> string -> string -> res string.

Local Abbreviation valid := (Orchestrator.valid luhn_check verhoeff_check).
Local Abbreviation any_valid := (Orchestrator.any_valid luhn_check verhoeff_check).
Local Abbreviation rewrite_step :=
  (Rewriting.rewrite_step luhn_check verhoeff_check re_sub_escaped).
Local Abbreviation rewrite_cell :=
  (Rewriting.rewrite_cell luhn_check verhoeff_check re_sub_escaped).

Lemma rewrite_steps_invalid method col l :
  (forall d, In d l -> valid d = Ok false) ->
  forall s, fold_left (rewrite_step method col) l (Ok s) = Ok s.
Proof.
  induction l as [|d l IH]; intros H s; [reflexivity|].
  cbn [fold_left]. unfold Rewriting.rewrite_step at 2. cbn [mbind res_bind].
  destruct (already_replaced d.2 (replaced_matches s)).
  - apply IH. intros; apply H; right; assumption.
  - rewrite (H d (or_introl eq_refl)). cbn [mbind res_bind negb].
    apply IH. intros; apply H; right; assumption.
Qed.

(** A cell none of whose candidates validates is written back as it was:
    no replacement is made or counted, and neither the state of the
    de-identification nor the generator is touched. *)
Theorem unvalidated_cell_unchanged
    (method col value : string) (st : deid_state) (g : rng)
    (summary : gmap string Z) :
  any_valid (detect_pii (Some value)) = Ok false ->
  rewrite_cell method col value st g summary
  = Ok (RewriteState value ∅ st g summary).
Proof.
  intros H. unfold Rewriting.rewrite_cell. cbv zeta.
  destruct (bool_decide _); [reflexivity|].
  apply rewrite_steps_invalid. intros d Hd.
  apply (proj1 (sort_by_length_In _ _)) in Hd. exact (any_valid_false luhn_check verhoeff_check _ H d Hd).
Qed.

(** the counter of a column never goes down in the loop *)
Lemma rewrite_step_counts method col s d s' :
  rewrite_step method col (Ok s) d = Ok s' ->
  (counted_for col s <= counted_for col s')%Z.
Proof.
  unfold Rewriting.rewrite_step. cbn [mbind res_bind].
  destruct (already_replaced _ _); [intros [= <-]; lia|].
  destruct (valid d) as [[]|]; cbn [mbind res_bind negb];
    [|intros [= <-]; lia|discriminate].
  destruct (deidentify_value _ _ _ _ _) as [[[r|e] st'] g'];
    cbn [mbind res_bind]; [|discriminate].
  destruct (re_sub_escaped _ _ _); cbn [mbind res_bind]; [|discriminate].
  intros [= <-]. unfold counted_for. cbn [pii_detection_summary].
  rewrite lookup_insert_eq. simpl. lia.
Qed.

Lemma rewrite_steps_raise method col l e :
  fold_left (rewrite_step method col) l (Raise e) = Raise e.
Proof. induction l as [|d l IH]; [reflexivity|exact IH]. Qed.

Lemma rewrite_steps_count method col l :
  forall s s', fold_left (rewrite_step method col) l (Ok s) = Ok s' ->
    (counted_for col s <= counted_for col s')%Z.
Proof.
  induction l as [|d l IH]; intros s s' H; [injection H as <-; lia|].
  cbn [fold_left] in H.
  destruct (rewrite_step method col (Ok s) d) as [s1|e] eqn:E.
  - apply rewrite_step_counts in E. apply IH in H. lia.
  - rewrite rewrite_steps_raise in H. discriminate H.
Qed.

(** A cell with a candidate that validates has, when the block returns,
    at least one replacement counted for its column and at least one
    match recorded as replaced. *)
Theorem validated_cell_counted
    (method col value : string) (st : deid_state) (g : rng)
    (summary : gmap string Z) (s' : rewrite_state) :
  any_valid (detect_pii (Some value)) = Ok true ->
  rewrite_cell method col value st g summary = Ok s' ->
  (default 0 (summary !! col) + 1 <= counted_for col s')%Z
  /\ replaced_matches s' <> ∅.
Proof.
  intros HV. unfold Rewriting.rewrite_cell. cbv zeta.
  destruct (bool_decide_reflect (detect_pii (Some value) = [])) as [E|_].
  { rewrite E in HV. discriminate HV. }
  assert (Hex : exists d, In d (sort_by_length (detect_pii (Some value)))
                          /\ valid d = Ok true).
  { clear -HV. induction (detect_pii (Some value)) as [|x l IH]; [discriminate|].
    simpl in HV.
    destruct (valid_returns luhn_check verhoeff_check x) as [[] Ex].
    - exists x. split; [|exact Ex]. apply (proj2 (sort_by_length_In _ _)). left. reflexivity.
    - rewrite Ex in HV. simpl in HV. destruct (IH HV) as (d & Hd & Vd).
      exists d. split; [|exact Vd].
      apply (proj2 (sort_by_length_In _ _)). right.
      exact (proj1 (sort_by_length_In _ _) Hd). }
  generalize (sort_by_length (detect_pii (Some value))) Hex. clear Hex HV.
  intros l. induction l as [|d l IH]; intros (d0 & Hin & Vd) H;
    [destruct Hin|].
  cbn [fold_left] in H.
  destruct (valid_returns luhn_check verhoeff_check d) as [[] Ed].
  - (* the first candidate that validates is replaced *)
    clear IH.
    destruct (rewrite_step method col (Ok (RewriteState value ∅ st g summary)) d)
      as [s1|e] eqn:E; [|rewrite rewrite_steps_raise in H; discriminate H].
    assert (C1 : (default 0 (summary !! col) + 1 <= counted_for col s1)%Z
                 /\ d.2 ∈ replaced_matches s1).
    { revert E. unfold Rewriting.rewrite_step. cbn [mbind res_bind].
      unfold already_replaced.
      rewrite bool_decide_eq_false_2.
      2: { intros (rm & Hrm & _). cbn in Hrm. apply not_elem_of_empty in Hrm.
           exact Hrm. }
      rewrite Ed. cbn [mbind res_bind negb replaced_matches deid generator
                        original_value pii_detection_summary].
      destruct (deidentify_value _ _ _ _ _) as [[[r|e] st'] g'];
        cbn [mbind res_bind]; [|discriminate].
      destruct (re_sub_escaped _ _ _); cbn [mbind res_bind]; [|discriminate].
      intros [= <-]. unfold counted_for. cbn [pii_detection_summary replaced_matches].
      rewrite lookup_insert_eq. simpl. split; [lia|].
      apply elem_of_union_l, elem_of_singleton. reflexivity. }
    destruct C1 as [C1 M1].
    assert (Keep : forall l s1 s2,
               fold_left (rewrite_step method col) l (Ok s1) = Ok s2 ->
               replaced_matches s1 ⊆ replaced_matches s2).
    { clear. intros l. induction l as [|x l IHl]; intros s1 s2 H;
        [injection H as <-; set_solver|].
      cbn [fold_left] in H.
      destruct (rewrite_step method col (Ok s1) x) as [s3|e] eqn:E;
        [|rewrite rewrite_steps_raise in H; discriminate H].
      apply IHl in H. etrans; [|exact H]. clear H. revert E.
      unfold Rewriting.rewrite_step. cbn [mbind res_bind].
      destruct (already_replaced _ _); [intros [= <-]; set_solver|].
      destruct (valid x) as [[]|]; cbn [mbind res_bind negb];
        [|intros [= <-]; set_solver|discriminate].
      destruct (deidentify_value _ _ _ _ _) as [[[r|e] st'] g'];
        cbn [mbind res_bind]; [|discriminate].
      destruct (re_sub_escaped _ _ _); cbn [mbind res_bind]; [|discriminate].
      intros [= <-]. cbn [replaced_matches]. set_solver. }
    pose proof (rewrite_steps_count _ _ _ _ _ H) as C2.
    pose proof (Keep _ _ _ H) as K.
    split; [lia|]. intros Hempty. apply K in M1. rewrite Hempty in M1.
    exact (not_elem_of_empty _ M1).
  - (* a candidate that does not validate is passed over *)
    assert (E : rewrite_step method col (Ok (RewriteState value ∅ st g summary)) d
                = Ok (RewriteState value ∅ st g summary)).
    { unfold Rewriting.rewrite_step. cbn [mbind res_bind].
      destruct (already_replaced _ _); [reflexivity|].
      rewrite Ed. reflexivity. }
    rewrite E in H. apply IH; [|exact H].
    exists d0. split; [|exact Vd].
    destruct Hin as [->|Hin]; [congruence|exact Hin].
Qed.

End Rewrite.

Lemma unvalidated_cell_unchanged_witness :
  Orchestrator.any_valid Algorithms.luhn_check Algorithms.verhoeff_check
    (detect_pii (Some "123456789012")) = Ok false
  /\ Rewriting.rewrite_cell Algorithms.luhn_check Algorithms.verhoeff_check
       (fun _ replacement _ => Ok replacement) "Masking" "id" "123456789012"
       initial_state (Rng (fun _ => 0) 0) ∅
     = Ok (RewriteState "123456789012" ∅ initial_state (Rng (fun _ => 0) 0) ∅).
Proof.
  assert (H : Orchestrator.any_valid Algorithms.luhn_check Algorithms.verhoeff_check
                (detect_pii (Some "123456789012")) = Ok false)
    by (vm_compute; reflexivity).
  split; [exact H|].
  exact (unvalidated_cell_unchanged _ _ _ "Masking" "id" _ _ _ ∅ H).
Defined.

Lemma validated_cell_counted_witness :
  let s' := RewriteState "XXXXXX3210" {["9876543210"]} initial_state
              (Rng (fun _ => 0) 0) {["phone" := 1%Z]} in
  Orchestrator.any_valid Algorithms.luhn_check Algorithms.verhoeff_check
    (detect_pii (Some "9876543210")) = Ok true
  /\ Rewriting.rewrite_cell Algorithms.luhn_check Algorithms.verhoeff_check
       (fun _ replacement _ => Ok replacement) "Masking" "phone" "9876543210"
       initial_state (Rng (fun _ => 0) 0) ∅ = Ok s'
  /\ (default 0 ((∅ : gmap string Z) !! "phone") + 1 <= counted_for "phone" s')%Z
  /\ replaced_matches s' <> ∅.
Proof.
  cbv zeta.
  assert (H : Orchestrator.any_valid Algorithms.luhn_check Algorithms.verhoeff_check
                (detect_pii (Some "9876543210")) = Ok true)
    by (vm_compute; reflexivity).
  assert (E : Rewriting.rewrite_cell Algorithms.luhn_check Algorithms.verhoeff_check
                (fun _ replacement _ => Ok replacement) "Masking" "phone" "9876543210"
                initial_state (Rng (fun _ => 0) 0) ∅
              = Ok (RewriteState "XXXXXX3210" {["9876543210"]} initial_state
                      (Rng (fun _ => 0) 0) {["phone" := 1%Z]}))
    by (vm_compute; reflexivity).
  split; [exact H|]. split; [exact E|].
  exact (validated_cell_counted _ _ _ "Masking" "phone" _ _ _ ∅ _ H E).
Defined.

End RewritingProps.
